(** * The C boundary layer over the native vision library

    The two source files are generated glue: every [extern "C"] entry point
    forwards its arguments to one operation of the wrapped library inside a
    guarded region and reports the outcome in a result envelope.  The native
    library itself is not part of the repository; here it is a parameter
    ([native]) of the whole development.

    Layout of the file:
    - values, native objects and the native heap;
    - the result envelope and the exception guard of [common.hpp];
    - the statements the generated bodies are made of, and their meaning;
    - the entry points of the line descriptor bindings and of [ximgproc.cpp];
    - the properties of the boundary. *)

From Stdlib Require Import ZArith NArith String List.
From stdpp Require Import base option list gmap strings.

Local Open Scope string_scope.
Local Open Scope Z_scope.

(** ** Scalars and plain value structs *)

(** A raw pointer is an address; address [0] is the null pointer. *)
Abbreviation handle := N.
Definition nullptr : handle := 0%N.

(** The layer never computes with a floating point number, it only copies
    it: a [float] or a [double] is carried as its bit pattern. *)
Inductive float := FloatBits (bits : Z).
Inductive double := DoubleBits (bits : Z).

(** [cv::Point2f], copied by value across the boundary. *)
Module Point2f.
Record t := mk { x : float; y : float }.
End Point2f.

(** ** The structs whose fields the layer reads and writes directly *)

(** [cv::line_descriptor::BinaryDescriptor::Params]: the fields that
    [instance->f] touches in the source. A C [int] is carried as an integer;
    the layer does no arithmetic on it. *)
Module Params.
Record t := mk {
  numOfOctave_ : Z;
  widthOfBand_ : Z;
  reductionRatio : Z;
  ksize_ : Z
}.

Definition set_numOfOctave_ (val : Z) (p : t) : t :=
  {| numOfOctave_ := val; widthOfBand_ := widthOfBand_ p;
     reductionRatio := reductionRatio p; ksize_ := ksize_ p |}.
Definition set_widthOfBand_ (val : Z) (p : t) : t :=
  {| numOfOctave_ := numOfOctave_ p; widthOfBand_ := val;
     reductionRatio := reductionRatio p; ksize_ := ksize_ p |}.
Definition set_reductionRatio (val : Z) (p : t) : t :=
  {| numOfOctave_ := numOfOctave_ p; widthOfBand_ := widthOfBand_ p;
     reductionRatio := val; ksize_ := ksize_ p |}.
Definition set_ksize_ (val : Z) (p : t) : t :=
  {| numOfOctave_ := numOfOctave_ p; widthOfBand_ := widthOfBand_ p;
     reductionRatio := reductionRatio p; ksize_ := val |}.
End Params.

(** [cv::line_descriptor::KeyLine]. *)
Module KeyLine.
Record t := mk {
  angle : float;
  class_id : Z;
  octave : Z;
  pt : Point2f.t;
  response : float;
  size : float;
  startPointX : float;
  startPointY : float;
  endPointX : float;
  endPointY : float;
  sPointInOctaveX : float;
  sPointInOctaveY : float;
  ePointInOctaveX : float;
  ePointInOctaveY : float;
  lineLength : float;
  numOfPixels : Z
}.

Definition set_angle (val : float) (k : t) : t :=
  let (_, a1, a2, a3, a4, a5, a6, a7, a8, a9, a10, a11, a12, a13, a14, a15) := k in
  mk val a1 a2 a3 a4 a5 a6 a7 a8 a9 a10 a11 a12 a13 a14 a15.
Definition set_class_id (val : Z) (k : t) : t :=
  let (a0, _, a2, a3, a4, a5, a6, a7, a8, a9, a10, a11, a12, a13, a14, a15) := k in
  mk a0 val a2 a3 a4 a5 a6 a7 a8 a9 a10 a11 a12 a13 a14 a15.
Definition set_octave (val : Z) (k : t) : t :=
  let (a0, a1, _, a3, a4, a5, a6, a7, a8, a9, a10, a11, a12, a13, a14, a15) := k in
  mk a0 a1 val a3 a4 a5 a6 a7 a8 a9 a10 a11 a12 a13 a14 a15.
Definition set_pt (val : Point2f.t) (k : t) : t :=
  let (a0, a1, a2, _, a4, a5, a6, a7, a8, a9, a10, a11, a12, a13, a14, a15) := k in
  mk a0 a1 a2 val a4 a5 a6 a7 a8 a9 a10 a11 a12 a13 a14 a15.
Definition set_response (val : float) (k : t) : t :=
  let (a0, a1, a2, a3, _, a5, a6, a7, a8, a9, a10, a11, a12, a13, a14, a15) := k in
  mk a0 a1 a2 a3 val a5 a6 a7 a8 a9 a10 a11 a12 a13 a14 a15.
Definition set_size (val : float) (k : t) : t :=
  let (a0, a1, a2, a3, a4, _, a6, a7, a8, a9, a10, a11, a12, a13, a14, a15) := k in
  mk a0 a1 a2 a3 a4 val a6 a7 a8 a9 a10 a11 a12 a13 a14 a15.
Definition set_startPointX (val : float) (k : t) : t :=
  let (a0, a1, a2, a3, a4, a5, _, a7, a8, a9, a10, a11, a12, a13, a14, a15) := k in
  mk a0 a1 a2 a3 a4 a5 val a7 a8 a9 a10 a11 a12 a13 a14 a15.
Definition set_startPointY (val : float) (k : t) : t :=
  let (a0, a1, a2, a3, a4, a5, a6, _, a8, a9, a10, a11, a12, a13, a14, a15) := k in
  mk a0 a1 a2 a3 a4 a5 a6 val a8 a9 a10 a11 a12 a13 a14 a15.
Definition set_endPointX (val : float) (k : t) : t :=
  let (a0, a1, a2, a3, a4, a5, a6, a7, _, a9, a10, a11, a12, a13, a14, a15) := k in
  mk a0 a1 a2 a3 a4 a5 a6 a7 val a9 a10 a11 a12 a13 a14 a15.
Definition set_endPointY (val : float) (k : t) : t :=
  let (a0, a1, a2, a3, a4, a5, a6, a7, a8, _, a10, a11, a12, a13, a14, a15) := k in
  mk a0 a1 a2 a3 a4 a5 a6 a7 a8 val a10 a11 a12 a13 a14 a15.
Definition set_sPointInOctaveX (val : float) (k : t) : t :=
  let (a0, a1, a2, a3, a4, a5, a6, a7, a8, a9, _, a11, a12, a13, a14, a15) := k in
  mk a0 a1 a2 a3 a4 a5 a6 a7 a8 a9 val a11 a12 a13 a14 a15.
Definition set_sPointInOctaveY (val : float) (k : t) : t :=
  let (a0, a1, a2, a3, a4, a5, a6, a7, a8, a9, a10, _, a12, a13, a14, a15) := k in
  mk a0 a1 a2 a3 a4 a5 a6 a7 a8 a9 a10 val a12 a13 a14 a15.
Definition set_ePointInOctaveX (val : float) (k : t) : t :=
  let (a0, a1, a2, a3, a4, a5, a6, a7, a8, a9, a10, a11, _, a13, a14, a15) := k in
  mk a0 a1 a2 a3 a4 a5 a6 a7 a8 a9 a10 a11 val a13 a14 a15.
Definition set_ePointInOctaveY (val : float) (k : t) : t :=
  let (a0, a1, a2, a3, a4, a5, a6, a7, a8, a9, a10, a11, a12, _, a14, a15) := k in
  mk a0 a1 a2 a3 a4 a5 a6 a7 a8 a9 a10 a11 a12 val a14 a15.
Definition set_lineLength (val : float) (k : t) : t :=
  let (a0, a1, a2, a3, a4, a5, a6, a7, a8, a9, a10, a11, a12, a13, _, a15) := k in
  mk a0 a1 a2 a3 a4 a5 a6 a7 a8 a9 a10 a11 a12 a13 val a15.
Definition set_numOfPixels (val : Z) (k : t) : t :=
  let (a0, a1, a2, a3, a4, a5, a6, a7, a8, a9, a10, a11, a12, a13, a14, _) := k in
  mk a0 a1 a2 a3 a4 a5 a6 a7 a8 a9 a10 a11 a12 a13 a14 val.
End KeyLine.

(** ** Values and the native heap *)

(** What crosses the boundary or lives behind a handle.  Every object of the
    wrapped library other than the two structs above is opaque to the layer:
    its class name and a representation the layer never looks into. *)
Inductive value :=
| VVoid
| VBool (b : bool)
| VInt (n : Z)
| VFloat (f : float)
| VDouble (d : double)
| VCStr (s : string)                    (* a NUL-terminated [char*] argument *)
| VString (s : string)                  (* a [cv::String] *)
| VPtr (a : handle)                     (* a raw pointer, or the address of an lvalue *)
| VPoint2f (p : Point2f.t)
| VParams (p : Params.t)
| VKeyLine (k : KeyLine.t)
| VNative (cls : string) (repr : list Z).

(** The native heap: the objects that live behind handles. *)
Abbreviation heap := (gmap N value).

(** Reading through a pointer: the null pointer and a pointer to no live
    object designate nothing. *)
Definition deref (a : handle) (h : heap) : option value :=
  if decide (a = nullptr) then None else h !! a.

(** The fields of the two structs, named as in the source. *)
Inductive field :=
| f_numOfOctave_ | f_widthOfBand_ | f_reductionRatio | f_ksize_
| f_angle | f_class_id | f_octave | f_pt | f_response | f_size
| f_startPointX | f_startPointY | f_endPointX | f_endPointY
| f_sPointInOctaveX | f_sPointInOctaveY | f_ePointInOctaveX | f_ePointInOctaveY
| f_lineLength | f_numOfPixels.

Global Instance field_eq_dec : EqDecision field.
Proof. solve_decision. Defined.

(** [obj.f] as an rvalue. *)
Definition load_field (f : field) (obj : value) : option value :=
  match obj with
  | VParams p =>
      match f with
      | f_numOfOctave_ => Some (VInt (Params.numOfOctave_ p))
      | f_widthOfBand_ => Some (VInt (Params.widthOfBand_ p))
      | f_reductionRatio => Some (VInt (Params.reductionRatio p))
      | f_ksize_ => Some (VInt (Params.ksize_ p))
      | _ => None
      end
  | VKeyLine k =>
      match f with
      | f_angle => Some (VFloat (KeyLine.angle k))
      | f_class_id => Some (VInt (KeyLine.class_id k))
      | f_octave => Some (VInt (KeyLine.octave k))
      | f_pt => Some (VPoint2f (KeyLine.pt k))
      | f_response => Some (VFloat (KeyLine.response k))
      | f_size => Some (VFloat (KeyLine.size k))
      | f_startPointX => Some (VFloat (KeyLine.startPointX k))
      | f_startPointY => Some (VFloat (KeyLine.startPointY k))
      | f_endPointX => Some (VFloat (KeyLine.endPointX k))
      | f_endPointY => Some (VFloat (KeyLine.endPointY k))
      | f_sPointInOctaveX => Some (VFloat (KeyLine.sPointInOctaveX k))
      | f_sPointInOctaveY => Some (VFloat (KeyLine.sPointInOctaveY k))
      | f_ePointInOctaveX => Some (VFloat (KeyLine.ePointInOctaveX k))
      | f_ePointInOctaveY => Some (VFloat (KeyLine.ePointInOctaveY k))
      | f_lineLength => Some (VFloat (KeyLine.lineLength k))
      | f_numOfPixels => Some (VInt (KeyLine.numOfPixels k))
      | _ => None
      end
  | _ => None
  end.

(** [obj.f = val]: the object after the assignment.  [None] stands for an
    assignment C++ does not type: a field of another class, or a value of
    another type than the field's. *)
Definition store_field (f : field) (val : value) (obj : value) : option value :=
  match obj with
  | VParams p =>
      match f, val with
      | f_numOfOctave_, VInt n => Some (VParams (Params.set_numOfOctave_ n p))
      | f_widthOfBand_, VInt n => Some (VParams (Params.set_widthOfBand_ n p))
      | f_reductionRatio, VInt n => Some (VParams (Params.set_reductionRatio n p))
      | f_ksize_, VInt n => Some (VParams (Params.set_ksize_ n p))
      | _, _ => None
      end
  | VKeyLine k =>
      match f, val with
      | f_angle, VFloat v => Some (VKeyLine (KeyLine.set_angle v k))
      | f_class_id, VInt n => Some (VKeyLine (KeyLine.set_class_id n k))
      | f_octave, VInt n => Some (VKeyLine (KeyLine.set_octave n k))
      | f_pt, VPoint2f q => Some (VKeyLine (KeyLine.set_pt q k))
      | f_response, VFloat v => Some (VKeyLine (KeyLine.set_response v k))
      | f_size, VFloat v => Some (VKeyLine (KeyLine.set_size v k))
      | f_startPointX, VFloat v => Some (VKeyLine (KeyLine.set_startPointX v k))
      | f_startPointY, VFloat v => Some (VKeyLine (KeyLine.set_startPointY v k))
      | f_endPointX, VFloat v => Some (VKeyLine (KeyLine.set_endPointX v k))
      | f_endPointY, VFloat v => Some (VKeyLine (KeyLine.set_endPointY v k))
      | f_sPointInOctaveX, VFloat v => Some (VKeyLine (KeyLine.set_sPointInOctaveX v k))
      | f_sPointInOctaveY, VFloat v => Some (VKeyLine (KeyLine.set_sPointInOctaveY v k))
      | f_ePointInOctaveX, VFloat v => Some (VKeyLine (KeyLine.set_ePointInOctaveX v k))
      | f_ePointInOctaveY, VFloat v => Some (VKeyLine (KeyLine.set_ePointInOctaveY v k))
      | f_lineLength, VFloat v => Some (VKeyLine (KeyLine.set_lineLength v k))
      | f_numOfPixels, VInt n => Some (VKeyLine (KeyLine.set_numOfPixels n k))
      | _, _ => None
      end
  | _ => None
  end.

(** ** Exceptions and the result envelope *)

(** What the wrapped library throws: a message and, where the exception has
    one, a numeric code. *)
Record exception := mkException { exc_code : option Z; exc_what : string }.

(** Modelled from the spec: the error record of the result envelope of
    [common.hpp], which is not among the source files.  It carries the
    classification (the numeric code, where the exception has one) and the
    message captured from the native exception. *)
Record error_record := mkError { error_code : option Z; error_msg : string }.

(** Modelled from the spec: the envelope [Result<T>] of [common.hpp], not
    among the source files: a tagged union of a success value and an error
    record.  [Result_void] is [Result] at the payload [VVoid]; [Ok(ret)] and
    [Ok()] of the source are [Ok ret] and [Ok VVoid]. *)
Inductive Result (T : Type) :=
| Ok (v : T)
| Err (e : error_record).
Arguments Ok {T} v.
Arguments Err {T} e.

Definition success_arm {T} (r : Result T) : option T :=
  match r with Ok v => Some v | Err _ => None end.
Definition error_arm {T} (r : Result T) : option error_record :=
  match r with Ok _ => None | Err e => Some e end.

(** What the caller of an entry point gets back: an envelope, or nothing at
    all when the C function is declared [void]. *)
Inductive reply :=
| Bare
| Envelope (r : Result value).

(** ** Computations of the layer *)

(** A piece of C++ run on the native heap returns normally, leaves by an
    exception, or has no defined behaviour (a read through a dangling or
    null pointer, a second [delete] of the same handle). *)
Inductive outcome (A : Type) :=
| Returns (a : A) (h : heap)
| Throws (ex : exception) (h : heap)
| Undefined.
Arguments Returns {A} a h.
Arguments Throws {A} ex h.
Arguments Undefined {A}.

Definition M (A : Type) : Type := heap → outcome A.

Global Instance M_ret : MRet M := λ A a h, Returns a h.
Global Instance M_bind : MBind M := λ A B k m h,
  match m h with
  | Returns a h' => k a h'
  | Throws ex h' => Throws ex h'
  | Undefined => Undefined
  end.
Global Instance M_fmap : FMap M := λ A B g m, a ← m; mret (g a).

Definition undefined {A} : M A := λ _, Undefined.
Definition lift {A} (o : option A) : M A := λ h,
  match o with Some a => Returns a h | None => Undefined end.

(** [*a] as an rvalue, and [*a = v]. *)
Definition read (a : handle) : M value := λ h, lift (deref a h) h.
Definition write (a : handle) (v : value) : M unit := λ h,
  match deref a h with
  | Some _ => Returns tt (<[a := v]> h)
  | None => Undefined
  end.

(** The address [new] hands out: not null and not in use. *)
Definition fresh_handle (h : heap) : handle := fresh ({[nullptr]} ∪ dom h).

(** [new T(v)]: a new heap cell that holds [v].  Memory is taken not to run
    out: the allocation itself does not throw. *)
Definition alloc (v : value) : M handle := λ h,
  let a := fresh_handle h in Returns a (<[a := v]> h).

(** [delete p]: nothing happens on the null pointer; a live object is
    released; anything else is undefined. *)
Definition cpp_delete (p : handle) : M unit := λ h,
  if decide (p = nullptr) then Returns tt h
  else match h !! p with
       | Some _ => Returns tt (delete p h)
       | None => Undefined
       end.

Definition error_of (ex : exception) : error_record :=
  {| error_code := exc_code ex; error_msg := exc_what ex |}.

(** Modelled from the spec: the macro [OCVRS_CATCH] of [common.hpp], which is
    not among the source files.  It closes the [try] block of an entry point:
    any exception that leaves the block is intercepted and converted into the
    error arm of the envelope, with the exception's code and message. *)
Definition OCVRS_CATCH {T} (guarded : M (Result T)) : M (Result T) := λ h,
  match guarded h with
  | Throws ex h' => Returns (Err (error_of ex)) h'
  | o => o
  end.

(** ** The shape of a generated entry point *)

(** C types as they occur in the signatures. *)
Inductive ctype :=
| CInt | CFloat | CDouble | CBool
| CNamed (name : string)                (* a class or enum passed by value *)
| CPtr (pointee : string)               (* [T*] *)
| CConstPtr (pointee : string).         (* [const T*] *)

Inductive rtype :=
| Cvoid                                 (* [void] *)
| CResult_void                          (* [Result_void] *)
| CResult (T : ctype).                  (* [Result<T>] *)

(** An argument expression of the forwarded call. *)
Inductive arg :=
| Val (x : string)                      (* [x] *)
| Deref (x : string)                    (* [*x] *)
| Str (x : string).                     (* [cv::String(x)] *)

(** The one operation between [try {] and [return]. *)
Inductive operation :=
| CallFree (f : string) (actuals : list arg)                  (* [f(actuals)] *)
| CallMethod (inst m : string) (actuals : list arg)           (* [inst->m(actuals)] *)
| New (cls : string) (actuals : list arg)                     (* [new cls(actuals)] *)
| Load (inst : string) (f : field)                            (* [inst->f] *)
| Store (inst : string) (f : field) (rhs : arg).              (* [inst->f = rhs] *)

(** The [return] statement that follows it. *)
Inductive wrap :=
| OkUnit                                (* [op; return Ok();] *)
| OkRet                                 (* [T ret = op; return Ok(ret);] *)
| OkNew (T : string).                   (* [T ret = op; return Ok(new T(ret));] *)

Inductive body :=
| Try (op : operation) (w : wrap)       (* [try { ... } OCVRS_CATCH(...)] *)
| Delete (inst : string).               (* [delete inst;] *)

(** An entry point; its C name is the name of its definition below. *)
Record entry_point := EntryPoint {
  ep_ret : rtype;
  ep_params : list (ctype * string);
  ep_body : body
}.

(** ** The meaning of an entry point *)

(** What the wrapped library is asked to run. *)
Inductive callee :=
| Function (name : string)
| Method (cls name : string)
| Constructor (cls : string).

Abbreviation env := (list (string * value)).

Fixpoint bind_params (ps : list (ctype * string)) (args : list value) : option env :=
  match ps, args with
  | [], [] => Some []
  | (_, x) :: ps, v :: args => ρ ← bind_params ps args; Some ((x, v) :: ρ)
  | _, _ => None
  end.

Fixpoint lookup_var (x : string) (ρ : env) : option value :=
  match ρ with
  | [] => None
  | (y, v) :: ρ => if String.eqb x y then Some v else lookup_var x ρ
  end.

Definition lookup_ptr (x : string) (ρ : env) : option handle :=
  match lookup_var x ρ with
  | Some (VPtr a) => Some a
  | _ => None
  end.

Fixpoint type_of (x : string) (ps : list (ctype * string)) : option ctype :=
  match ps with
  | [] => None
  | (T, y) :: ps => if String.eqb x y then Some T else type_of x ps
  end.

Definition pointee (T : ctype) : option string :=
  match T with
  | CPtr c | CConstPtr c => Some c
  | _ => None
  end.

(** An actual argument.  [*x] passes the lvalue behind the pointer, that is
    its address: forming it reads nothing, and what the callee does with the
    object is the callee's business. *)
Definition eval_actual (ρ : env) (a : arg) : option value :=
  match a with
  | Val x => lookup_var x ρ
  | Deref x => VPtr <$> lookup_ptr x ρ
  | Str x => match lookup_var x ρ with
             | Some (VCStr s) => Some (VString s)
             | _ => None
             end
  end.

(** The right-hand side of an assignment: here [*x] is read. *)
Definition eval_rvalue (ρ : env) (a : arg) : M value :=
  match a with
  | Deref x => p ← lift (lookup_ptr x ρ); read p
  | _ => lift (eval_actual ρ a)
  end.

(** The call into the wrapped library an operation makes, with its actual
    arguments; for a method the receiver comes first.  A field access makes
    none. *)
Definition invocation (ps : list (ctype * string)) (ρ : env) (op : operation)
  : option (callee * list value) :=
  match op with
  | CallFree f actuals =>
      vs ← mapM (eval_actual ρ) actuals; Some (Function f, vs)
  | CallMethod inst m actuals =>
      this ← lookup_ptr inst ρ;
      cls ← type_of inst ps ≫= pointee;
      vs ← mapM (eval_actual ρ) actuals;
      Some (Method cls m, VPtr this :: vs)
  | New cls actuals =>
      vs ← mapM (eval_actual ρ) actuals; Some (Constructor cls, vs)
  | Load _ _ | Store _ _ _ => None
  end.

Section Boundary.

(** The wrapped library. *)
Variable native : callee → list value → M value.

Definition do_op (ps : list (ctype * string)) (ρ : env) (op : operation) : M value :=
  match op with
  | CallFree _ _ | CallMethod _ _ _ =>
      '(c, vs) ← lift (invocation ps ρ op); native c vs
  | New _ _ =>
      '(c, vs) ← lift (invocation ps ρ op);
      obj ← native c vs;
      a ← alloc obj;
      mret (VPtr a)
  | Load inst f =>
      p ← lift (lookup_ptr inst ρ);
      obj ← read p;
      lift (load_field f obj)
  | Store inst f rhs =>
      p ← lift (lookup_ptr inst ρ);
      val ← eval_rvalue ρ rhs;
      obj ← read p;
      obj' ← lift (store_field f val obj);
      write p obj';;
      mret VVoid
  end.

Definition do_wrap (w : wrap) (ret : value) : M value :=
  match w with
  | OkUnit => mret VVoid
  | OkRet => mret ret
  | OkNew _ => a ← alloc ret; mret (VPtr a)
  end.

Definition exec (ps : list (ctype * string)) (ρ : env) (b : body) : M reply :=
  match b with
  | Try op w =>
      Envelope <$> OCVRS_CATCH (ret ← do_op ps ρ op;
                                payload ← do_wrap w ret;
                                mret (Ok payload))
  | Delete inst =>
      p ← lift (lookup_ptr inst ρ);
      cpp_delete p;;
      mret Bare
  end.

(** A call of the entry point [e] from outside, on the native heap. *)
Definition run (e : entry_point) (args : list value) : M reply :=
  match bind_params (ep_params e) args with
  | Some ρ => exec (ep_params e) ρ (ep_body e)
  | None => undefined
  end.

End Boundary.

(** The call into the wrapped library that a call of [e] on [args] makes. *)
Definition native_invocation (e : entry_point) (args : list value)
  : option (callee * list value) :=
  match ep_body e with
  | Try op _ => ρ ← bind_params (ep_params e) args; invocation (ep_params e) ρ op
  | Delete _ => None
  end.

(** ** The entry points *)

(** The entry points of the line descriptor bindings, in the order of the file. *)
Module line_descriptor.

Definition cv_line_descriptor_drawKeylines_const_MatR_const_vector_KeyLine_R_MatR_const_ScalarR_int : entry_point :=
  {| ep_ret := CResult_void;
     ep_params := [(CConstPtr "cv::Mat", "image");
                   (CConstPtr "std::vector<cv::line_descriptor::KeyLine>", "keylines");
                   (CPtr "cv::Mat", "outImage");
                   (CConstPtr "cv::Scalar", "color");
                   (CInt, "flags")];
     ep_body := Try (CallFree "cv::line_descriptor::drawKeylines" [Deref "image"; Deref "keylines"; Deref "outImage"; Deref "color"; Val "flags"]) OkUnit |}.

Definition cv_line_descriptor_drawLineMatches_const_MatR_const_vector_KeyLine_R_const_MatR_const_vector_KeyLine_R_const_vector_DMatch_R_MatR_const_ScalarR_const_ScalarR_const_vector_char_R_int : entry_point :=
  {| ep_ret := CResult_void;
     ep_params := [(CConstPtr "cv::Mat", "img1");
                   (CConstPtr "std::vector<cv::line_descriptor::KeyLine>", "keylines1");
                   (CConstPtr "cv::Mat", "img2");
                   (CConstPtr "std::vector<cv::line_descriptor::KeyLine>", "keylines2");
                   (CConstPtr "std::vector<cv::DMatch>", "matches1to2");
                   (CPtr "cv::Mat", "outImg");
                   (CConstPtr "cv::Scalar", "matchColor");
                   (CConstPtr "cv::Scalar", "singleLineColor");
                   (CConstPtr "std::vector<char>", "matchesMask");
                   (CInt, "flags")];
     ep_body := Try (CallFree "cv::line_descriptor::drawLineMatches" [Deref "img1"; Deref "keylines1"; Deref "img2"; Deref "keylines2"; Deref "matches1to2"; Deref "outImg"; Deref "matchColor"; Deref "singleLineColor"; Deref "matchesMask"; Val "flags"]) OkUnit |}.

Definition cv_BinaryDescriptor_delete : entry_point :=
  {| ep_ret := Cvoid;
     ep_params := [(CPtr "cv::line_descriptor::BinaryDescriptor", "instance")];
     ep_body := Delete "instance" |}.

Definition cv_line_descriptor_BinaryDescriptor_BinaryDescriptor_const_ParamsR : entry_point :=
  {| ep_ret := CResult (CPtr "cv::line_descriptor::BinaryDescriptor");
     ep_params := [(CConstPtr "cv::line_descriptor::BinaryDescriptor::Params", "parameters")];
     ep_body := Try (New "cv::line_descriptor::BinaryDescriptor" [Deref "parameters"]) OkRet |}.

Definition cv_line_descriptor_BinaryDescriptor_createBinaryDescriptor : entry_point :=
  {| ep_ret := CResult (CPtr "cv::Ptr<cv::line_descriptor::BinaryDescriptor>");
     ep_params := [];
     ep_body := Try (CallFree "cv::line_descriptor::BinaryDescriptor::createBinaryDescriptor" []) (OkNew "cv::Ptr<cv::line_descriptor::BinaryDescriptor>") |}.

Definition cv_line_descriptor_BinaryDescriptor_createBinaryDescriptor_Params : entry_point :=
  {| ep_ret := CResult (CPtr "cv::Ptr<cv::line_descriptor::BinaryDescriptor>");
     ep_params := [(CPtr "cv::line_descriptor::BinaryDescriptor::Params", "parameters")];
     ep_body := Try (CallFree "cv::line_descriptor::BinaryDescriptor::createBinaryDescriptor" [Deref "parameters"]) (OkNew "cv::Ptr<cv::line_descriptor::BinaryDescriptor>") |}.

Definition cv_line_descriptor_BinaryDescriptor_getNumOfOctaves : entry_point :=
  {| ep_ret := CResult CInt;
     ep_params := [(CPtr "cv::line_descriptor::BinaryDescriptor", "instance")];
     ep_body := Try (CallMethod "instance" "getNumOfOctaves" []) OkRet |}.

Definition cv_line_descriptor_BinaryDescriptor_setNumOfOctaves_int : entry_point :=
  {| ep_ret := CResult_void;
     ep_params := [(CPtr "cv::line_descriptor::BinaryDescriptor", "instance");
                   (CInt, "octaves")];
     ep_body := Try (CallMethod "instance" "setNumOfOctaves" [Val "octaves"]) OkUnit |}.

Definition cv_line_descriptor_BinaryDescriptor_getWidthOfBand : entry_point :=
  {| ep_ret := CResult CInt;
     ep_params := [(CPtr "cv::line_descriptor::BinaryDescriptor", "instance")];
     ep_body := Try (CallMethod "instance" "getWidthOfBand" []) OkRet |}.

Definition cv_line_descriptor_BinaryDescriptor_setWidthOfBand_int : entry_point :=
  {| ep_ret := CResult_void;
     ep_params := [(CPtr "cv::line_descriptor::BinaryDescriptor", "instance");
                   (CInt, "width")];
     ep_body := Try (CallMethod "instance" "setWidthOfBand" [Val "width"]) OkUnit |}.

Definition cv_line_descriptor_BinaryDescriptor_getReductionRatio : entry_point :=
  {| ep_ret := CResult CInt;
     ep_params := [(CPtr "cv::line_descriptor::BinaryDescriptor", "instance")];
     ep_body := Try (CallMethod "instance" "getReductionRatio" []) OkRet |}.

Definition cv_line_descriptor_BinaryDescriptor_setReductionRatio_int : entry_point :=
  {| ep_ret := CResult_void;
     ep_params := [(CPtr "cv::line_descriptor::BinaryDescriptor", "instance");
                   (CInt, "rRatio")];
     ep_body := Try (CallMethod "instance" "setReductionRatio" [Val "rRatio"]) OkUnit |}.

Definition cv_line_descriptor_BinaryDescriptor_read_const_FileNodeR : entry_point :=
  {| ep_ret := CResult_void;
     ep_params := [(CPtr "cv::line_descriptor::BinaryDescriptor", "instance");
                   (CConstPtr "cv::FileNode", "fn")];
     ep_body := Try (CallMethod "instance" "read" [Deref "fn"]) OkUnit |}.

Definition cv_line_descriptor_BinaryDescriptor_write_const_FileStorageR : entry_point :=
  {| ep_ret := CResult_void;
     ep_params := [(CConstPtr "cv::line_descriptor::BinaryDescriptor", "instance");
                   (CPtr "cv::FileStorage", "fs")];
     ep_body := Try (CallMethod "instance" "write" [Deref "fs"]) OkUnit |}.

Definition cv_line_descriptor_BinaryDescriptor_detect_const_MatR_vector_KeyLine_R_const_MatR : entry_point :=
  {| ep_ret := CResult_void;
     ep_params := [(CPtr "cv::line_descriptor::BinaryDescriptor", "instance");
                   (CConstPtr "cv::Mat", "image");
                   (CPtr "std::vector<cv::line_descriptor::KeyLine>", "keypoints");
                   (CConstPtr "cv::Mat", "mask")];
     ep_body := Try (CallMethod "instance" "detect" [Deref "image"; Deref "keypoints"; Deref "mask"]) OkUnit |}.

Definition cv_line_descriptor_BinaryDescriptor_detect_const_const_vector_Mat_R_vector_vector_KeyLine__R_const_vector_Mat_R : entry_point :=
  {| ep_ret := CResult_void;
     ep_params := [(CConstPtr "cv::line_descriptor::BinaryDescriptor", "instance");
                   (CConstPtr "std::vector<cv::Mat>", "images");
                   (CPtr "std::vector<std::vector<cv::line_descriptor::KeyLine>>", "keylines");
                   (CConstPtr "std::vector<cv::Mat>", "masks")];
     ep_body := Try (CallMethod "instance" "detect" [Deref "images"; Deref "keylines"; Deref "masks"]) OkUnit |}.

Definition cv_line_descriptor_BinaryDescriptor_compute_const_const_MatR_vector_KeyLine_R_MatR_bool : entry_point :=
  {| ep_ret := CResult_void;
     ep_params := [(CConstPtr "cv::line_descriptor::BinaryDescriptor", "instance");
                   (CConstPtr "cv::Mat", "image");
                   (CPtr "std::vector<cv::line_descriptor::KeyLine>", "keylines");
                   (CPtr "cv::Mat", "descriptors");
                   (CBool, "returnFloatDescr")];
     ep_body := Try (CallMethod "instance" "compute" [Deref "image"; Deref "keylines"; Deref "descriptors"; Val "returnFloatDescr"]) OkUnit |}.

Definition cv_line_descriptor_BinaryDescriptor_compute_const_const_vector_Mat_R_vector_vector_KeyLine__R_vector_Mat_R_bool : entry_point :=
  {| ep_ret := CResult_void;
     ep_params := [(CConstPtr "cv::line_descriptor::BinaryDescriptor", "instance");
                   (CConstPtr "std::vector<cv::Mat>", "images");
                   (CPtr "std::vector<std::vector<cv::line_descriptor::KeyLine>>", "keylines");
                   (CPtr "std::vector<cv::Mat>", "descriptors");
                   (CBool, "returnFloatDescr")];
     ep_body := Try (CallMethod "instance" "compute" [Deref "images"; Deref "keylines"; Deref "descriptors"; Val "returnFloatDescr"]) OkUnit |}.

Definition cv_line_descriptor_BinaryDescriptor_descriptorSize_const : entry_point :=
  {| ep_ret := CResult CInt;
     ep_params := [(CConstPtr "cv::line_descriptor::BinaryDescriptor", "instance")];
     ep_body := Try (CallMethod "instance" "descriptorSize" []) OkRet |}.

Definition cv_line_descriptor_BinaryDescriptor_descriptorType_const : entry_point :=
  {| ep_ret := CResult CInt;
     ep_params := [(CConstPtr "cv::line_descriptor::BinaryDescriptor", "instance")];
     ep_body := Try (CallMethod "instance" "descriptorType" []) OkRet |}.

Definition cv_line_descriptor_BinaryDescriptor_defaultNorm_const : entry_point :=
  {| ep_ret := CResult CInt;
     ep_params := [(CConstPtr "cv::line_descriptor::BinaryDescriptor", "instance")];
     ep_body := Try (CallMethod "instance" "defaultNorm" []) OkRet |}.

Definition cv_line_descriptor_BinaryDescriptor_Params_getPropNumOfOctave__const : entry_point :=
  {| ep_ret := CResult CInt;
     ep_params := [(CConstPtr "cv::line_descriptor::BinaryDescriptor::Params", "instance")];
     ep_body := Try (Load "instance" f_numOfOctave_) OkRet |}.

Definition cv_line_descriptor_BinaryDescriptor_Params_setPropNumOfOctave__int : entry_point :=
  {| ep_ret := CResult_void;
     ep_params := [(CPtr "cv::line_descriptor::BinaryDescriptor::Params", "instance");
                   (CInt, "val")];
     ep_body := Try (Store "instance" f_numOfOctave_ (Val "val")) OkUnit |}.

Definition cv_line_descriptor_BinaryDescriptor_Params_getPropWidthOfBand__const : entry_point :=
  {| ep_ret := CResult CInt;
     ep_params := [(CConstPtr "cv::line_descriptor::BinaryDescriptor::Params", "instance")];
     ep_body := Try (Load "instance" f_widthOfBand_) OkRet |}.

Definition cv_line_descriptor_BinaryDescriptor_Params_setPropWidthOfBand__int : entry_point :=
  {| ep_ret := CResult_void;
     ep_params := [(CPtr "cv::line_descriptor::BinaryDescriptor::Params", "instance");
                   (CInt, "val")];
     ep_body := Try (Store "instance" f_widthOfBand_ (Val "val")) OkUnit |}.

Definition cv_line_descriptor_BinaryDescriptor_Params_getPropReductionRatio_const : entry_point :=
  {| ep_ret := CResult CInt;
     ep_params := [(CConstPtr "cv::line_descriptor::BinaryDescriptor::Params", "instance")];
     ep_body := Try (Load "instance" f_reductionRatio) OkRet |}.

Definition cv_line_descriptor_BinaryDescriptor_Params_setPropReductionRatio_int : entry_point :=
  {| ep_ret := CResult_void;
     ep_params := [(CPtr "cv::line_descriptor::BinaryDescriptor::Params", "instance");
                   (CInt, "val")];
     ep_body := Try (Store "instance" f_reductionRatio (Val "val")) OkUnit |}.

Definition cv_line_descriptor_BinaryDescriptor_Params_getPropKsize__const : entry_point :=
  {| ep_ret := CResult CInt;
     ep_params := [(CConstPtr "cv::line_descriptor::BinaryDescriptor::Params", "instance")];
     ep_body := Try (Load "instance" f_ksize_) OkRet |}.

Definition cv_line_descriptor_BinaryDescriptor_Params_setPropKsize__int : entry_point :=
  {| ep_ret := CResult_void;
     ep_params := [(CPtr "cv::line_descriptor::BinaryDescriptor::Params", "instance");
                   (CInt, "val")];
     ep_body := Try (Store "instance" f_ksize_ (Val "val")) OkUnit |}.

Definition cv_BinaryDescriptor_Params_delete : entry_point :=
  {| ep_ret := Cvoid;
     ep_params := [(CPtr "cv::line_descriptor::BinaryDescriptor::Params", "instance")];
     ep_body := Delete "instance" |}.

Definition cv_line_descriptor_BinaryDescriptor_Params_Params : entry_point :=
  {| ep_ret := CResult (CPtr "cv::line_descriptor::BinaryDescriptor::Params");
     ep_params := [];
     ep_body := Try (New "cv::line_descriptor::BinaryDescriptor::Params" []) OkRet |}.

Definition cv_line_descriptor_BinaryDescriptor_Params_read_const_FileNodeR : entry_point :=
  {| ep_ret := CResult_void;
     ep_params := [(CPtr "cv::line_descriptor::BinaryDescriptor::Params", "instance");
                   (CConstPtr "cv::FileNode", "fn")];
     ep_body := Try (CallMethod "instance" "read" [Deref "fn"]) OkUnit |}.

Definition cv_line_descriptor_BinaryDescriptor_Params_write_const_FileStorageR : entry_point :=
  {| ep_ret := CResult_void;
     ep_params := [(CConstPtr "cv::line_descriptor::BinaryDescriptor::Params", "instance");
                   (CPtr "cv::FileStorage", "fs")];
     ep_body := Try (CallMethod "instance" "write" [Deref "fs"]) OkUnit |}.

Definition cv_BinaryDescriptorMatcher_delete : entry_point :=
  {| ep_ret := Cvoid;
     ep_params := [(CPtr "cv::line_descriptor::BinaryDescriptorMatcher", "instance")];
     ep_body := Delete "instance" |}.

Definition cv_line_descriptor_BinaryDescriptorMatcher_match_const_const_MatR_const_MatR_vector_DMatch_R_const_MatR : entry_point :=
  {| ep_ret := CResult_void;
     ep_params := [(CConstPtr "cv::line_descriptor::BinaryDescriptorMatcher", "instance");
                   (CConstPtr "cv::Mat", "queryDescriptors");
                   (CConstPtr "cv::Mat", "trainDescriptors");
                   (CPtr "std::vector<cv::DMatch>", "matches");
                   (CConstPtr "cv::Mat", "mask")];
     ep_body := Try (CallMethod "instance" "match" [Deref "queryDescriptors"; Deref "trainDescriptors"; Deref "matches"; Deref "mask"]) OkUnit |}.

Definition cv_line_descriptor_BinaryDescriptorMatcher_match_const_MatR_vector_DMatch_R_const_vector_Mat_R : entry_point :=
  {| ep_ret := CResult_void;
     ep_params := [(CPtr "cv::line_descriptor::BinaryDescriptorMatcher", "instance");
                   (CConstPtr "cv::Mat", "queryDescriptors");
                   (CPtr "std::vector<cv::DMatch>", "matches");
                   (CConstPtr "std::vector<cv::Mat>", "masks")];
     ep_body := Try (CallMethod "instance" "match" [Deref "queryDescriptors"; Deref "matches"; Deref "masks"]) OkUnit |}.

Definition cv_line_descriptor_BinaryDescriptorMatcher_knnMatch_const_const_MatR_const_MatR_vector_vector_DMatch__R_int_const_MatR_bool : entry_point :=
  {| ep_ret := CResult_void;
     ep_params := [(CConstPtr "cv::line_descriptor::BinaryDescriptorMatcher", "instance");
                   (CConstPtr "cv::Mat", "queryDescriptors");
                   (CConstPtr "cv::Mat", "trainDescriptors");
                   (CPtr "std::vector<std::vector<cv::DMatch>>", "matches");
                   (CInt, "k");
                   (CConstPtr "cv::Mat", "mask");
                   (CBool, "compactResult")];
     ep_body := Try (CallMethod "instance" "knnMatch" [Deref "queryDescriptors"; Deref "trainDescriptors"; Deref "matches"; Val "k"; Deref "mask"; Val "compactResult"]) OkUnit |}.

Definition cv_line_descriptor_BinaryDescriptorMatcher_knnMatch_const_MatR_vector_vector_DMatch__R_int_const_vector_Mat_R_bool : entry_point :=
  {| ep_ret := CResult_void;
     ep_params := [(CPtr "cv::line_descriptor::BinaryDescriptorMatcher", "instance");
                   (CConstPtr "cv::Mat", "queryDescriptors");
                   (CPtr "std::vector<std::vector<cv::DMatch>>", "matches");
                   (CInt, "k");
                   (CConstPtr "std::vector<cv::Mat>", "masks");
                   (CBool, "compactResult")];
     ep_body := Try (CallMethod "instance" "knnMatch" [Deref "queryDescriptors"; Deref "matches"; Val "k"; Deref "masks"; Val "compactResult"]) OkUnit |}.

Definition cv_line_descriptor_BinaryDescriptorMatcher_radiusMatch_const_const_MatR_const_MatR_vector_vector_DMatch__R_float_const_MatR_bool : entry_point :=
  {| ep_ret := CResult_void;
     ep_params := [(CConstPtr "cv::line_descriptor::BinaryDescriptorMatcher", "instance");
                   (CConstPtr "cv::Mat", "queryDescriptors");
                   (CConstPtr "cv::Mat", "trainDescriptors");
                   (CPtr "std::vector<std::vector<cv::DMatch>>", "matches");
                   (CFloat, "maxDistance");
                   (CConstPtr "cv::Mat", "mask");
                   (CBool, "compactResult")];
     ep_body := Try (CallMethod "instance" "radiusMatch" [Deref "queryDescriptors"; Deref "trainDescriptors"; Deref "matches"; Val "maxDistance"; Deref "mask"; Val "compactResult"]) OkUnit |}.

Definition cv_line_descriptor_BinaryDescriptorMatcher_radiusMatch_const_MatR_vector_vector_DMatch__R_float_const_vector_Mat_R_bool : entry_point :=
  {| ep_ret := CResult_void;
     ep_params := [(CPtr "cv::line_descriptor::BinaryDescriptorMatcher", "instance");
                   (CConstPtr "cv::Mat", "queryDescriptors");
                   (CPtr "std::vector<std::vector<cv::DMatch>>", "matches");
                   (CFloat, "maxDistance");
                   (CConstPtr "std::vector<cv::Mat>", "masks");
                   (CBool, "compactResult")];
     ep_body := Try (CallMethod "instance" "radiusMatch" [Deref "queryDescriptors"; Deref "matches"; Val "maxDistance"; Deref "masks"; Val "compactResult"]) OkUnit |}.

Definition cv_line_descriptor_BinaryDescriptorMatcher_add_const_vector_Mat_R : entry_point :=
  {| ep_ret := CResult_void;
     ep_params := [(CPtr "cv::line_descriptor::BinaryDescriptorMatcher", "instance");
                   (CConstPtr "std::vector<cv::Mat>", "descriptors")];
     ep_body := Try (CallMethod "instance" "add" [Deref "descriptors"]) OkUnit |}.

Definition cv_line_descriptor_BinaryDescriptorMatcher_train : entry_point :=
  {| ep_ret := CResult_void;
     ep_params := [(CPtr "cv::line_descriptor::BinaryDescriptorMatcher", "instance")];
     ep_body := Try (CallMethod "instance" "train" []) OkUnit |}.

Definition cv_line_descriptor_BinaryDescriptorMatcher_createBinaryDescriptorMatcher : entry_point :=
  {| ep_ret := CResult (CPtr "cv::Ptr<cv::line_descriptor::BinaryDescriptorMatcher>");
     ep_params := [];
     ep_body := Try (CallFree "cv::line_descriptor::BinaryDescriptorMatcher::createBinaryDescriptorMatcher" []) (OkNew "cv::Ptr<cv::line_descriptor::BinaryDescriptorMatcher>") |}.

Definition cv_line_descriptor_BinaryDescriptorMatcher_clear : entry_point :=
  {| ep_ret := CResult_void;
     ep_params := [(CPtr "cv::line_descriptor::BinaryDescriptorMatcher", "instance")];
     ep_body := Try (CallMethod "instance" "clear" []) OkUnit |}.

Definition cv_line_descriptor_BinaryDescriptorMatcher_BinaryDescriptorMatcher : entry_point :=
  {| ep_ret := CResult (CPtr "cv::line_descriptor::BinaryDescriptorMatcher");
     ep_params := [];
     ep_body := Try (New "cv::line_descriptor::BinaryDescriptorMatcher" []) OkRet |}.

Definition cv_DrawLinesMatchesFlags_delete : entry_point :=
  {| ep_ret := Cvoid;
     ep_params := [(CPtr "cv::line_descriptor::DrawLinesMatchesFlags", "instance")];
     ep_body := Delete "instance" |}.

Definition cv_line_descriptor_KeyLine_getPropAngle_const : entry_point :=
  {| ep_ret := CResult CFloat;
     ep_params := [(CConstPtr "cv::line_descriptor::KeyLine", "instance")];
     ep_body := Try (Load "instance" f_angle) OkRet |}.

Definition cv_line_descriptor_KeyLine_setPropAngle_float : entry_point :=
  {| ep_ret := CResult_void;
     ep_params := [(CPtr "cv::line_descriptor::KeyLine", "instance");
                   (CFloat, "val")];
     ep_body := Try (Store "instance" f_angle (Val "val")) OkUnit |}.

Definition cv_line_descriptor_KeyLine_getPropClass_id_const : entry_point :=
  {| ep_ret := CResult CInt;
     ep_params := [(CConstPtr "cv::line_descriptor::KeyLine", "instance")];
     ep_body := Try (Load "instance" f_class_id) OkRet |}.

Definition cv_line_descriptor_KeyLine_setPropClass_id_int : entry_point :=
  {| ep_ret := CResult_void;
     ep_params := [(CPtr "cv::line_descriptor::KeyLine", "instance");
                   (CInt, "val")];
     ep_body := Try (Store "instance" f_class_id (Val "val")) OkUnit |}.

Definition cv_line_descriptor_KeyLine_getPropOctave_const : entry_point :=
  {| ep_ret := CResult CInt;
     ep_params := [(CConstPtr "cv::line_descriptor::KeyLine", "instance")];
     ep_body := Try (Load "instance" f_octave) OkRet |}.

Definition cv_line_descriptor_KeyLine_setPropOctave_int : entry_point :=
  {| ep_ret := CResult_void;
     ep_params := [(CPtr "cv::line_descriptor::KeyLine", "instance");
                   (CInt, "val")];
     ep_body := Try (Store "instance" f_octave (Val "val")) OkUnit |}.

Definition cv_line_descriptor_KeyLine_getPropPt_const : entry_point :=
  {| ep_ret := CResult (CNamed "cv::Point2f");
     ep_params := [(CConstPtr "cv::line_descriptor::KeyLine", "instance")];
     ep_body := Try (Load "instance" f_pt) OkRet |}.

Definition cv_line_descriptor_KeyLine_setPropPt_Point2f : entry_point :=
  {| ep_ret := CResult_void;
     ep_params := [(CPtr "cv::line_descriptor::KeyLine", "instance");
                   (CConstPtr "cv::Point2f", "val")];
     ep_body := Try (Store "instance" f_pt (Deref "val")) OkUnit |}.

Definition cv_line_descriptor_KeyLine_getPropResponse_const : entry_point :=
  {| ep_ret := CResult CFloat;
     ep_params := [(CConstPtr "cv::line_descriptor::KeyLine", "instance")];
     ep_body := Try (Load "instance" f_response) OkRet |}.

Definition cv_line_descriptor_KeyLine_setPropResponse_float : entry_point :=
  {| ep_ret := CResult_void;
     ep_params := [(CPtr "cv::line_descriptor::KeyLine", "instance");
                   (CFloat, "val")];
     ep_body := Try (Store "instance" f_response (Val "val")) OkUnit |}.

Definition cv_line_descriptor_KeyLine_getPropSize_const : entry_point :=
  {| ep_ret := CResult CFloat;
     ep_params := [(CConstPtr "cv::line_descriptor::KeyLine", "instance")];
     ep_body := Try (Load "instance" f_size) OkRet |}.

Definition cv_line_descriptor_KeyLine_setPropSize_float : entry_point :=
  {| ep_ret := CResult_void;
     ep_params := [(CPtr "cv::line_descriptor::KeyLine", "instance");
                   (CFloat, "val")];
     ep_body := Try (Store "instance" f_size (Val "val")) OkUnit |}.

Definition cv_line_descriptor_KeyLine_getPropStartPointX_const : entry_point :=
  {| ep_ret := CResult CFloat;
     ep_params := [(CConstPtr "cv::line_descriptor::KeyLine", "instance")];
     ep_body := Try (Load "instance" f_startPointX) OkRet |}.

Definition cv_line_descriptor_KeyLine_setPropStartPointX_float : entry_point :=
  {| ep_ret := CResult_void;
     ep_params := [(CPtr "cv::line_descriptor::KeyLine", "instance");
                   (CFloat, "val")];
     ep_body := Try (Store "instance" f_startPointX (Val "val")) OkUnit |}.

Definition cv_line_descriptor_KeyLine_getPropStartPointY_const : entry_point :=
  {| ep_ret := CResult CFloat;
     ep_params := [(CConstPtr "cv::line_descriptor::KeyLine", "instance")];
     ep_body := Try (Load "instance" f_startPointY) OkRet |}.

Definition cv_line_descriptor_KeyLine_setPropStartPointY_float : entry_point :=
  {| ep_ret := CResult_void;
     ep_params := [(CPtr "cv::line_descriptor::KeyLine", "instance");
                   (CFloat, "val")];
     ep_body := Try (Store "instance" f_startPointY (Val "val")) OkUnit |}.

Definition cv_line_descriptor_KeyLine_getPropEndPointX_const : entry_point :=
  {| ep_ret := CResult CFloat;
     ep_params := [(CConstPtr "cv::line_descriptor::KeyLine", "instance")];
     ep_body := Try (Load "instance" f_endPointX) OkRet |}.

Definition cv_line_descriptor_KeyLine_setPropEndPointX_float : entry_point :=
  {| ep_ret := CResult_void;
     ep_params := [(CPtr "cv::line_descriptor::KeyLine", "instance");
                   (CFloat, "val")];
     ep_body := Try (Store "instance" f_endPointX (Val "val")) OkUnit |}.

Definition cv_line_descriptor_KeyLine_getPropEndPointY_const : entry_point :=
  {| ep_ret := CResult CFloat;
     ep_params := [(CConstPtr "cv::line_descriptor::KeyLine", "instance")];
     ep_body := Try (Load "instance" f_endPointY) OkRet |}.

Definition cv_line_descriptor_KeyLine_setPropEndPointY_float : entry_point :=
  {| ep_ret := CResult_void;
     ep_params := [(CPtr "cv::line_descriptor::KeyLine", "instance");
                   (CFloat, "val")];
     ep_body := Try (Store "instance" f_endPointY (Val "val")) OkUnit |}.

Definition cv_line_descriptor_KeyLine_getPropSPointInOctaveX_const : entry_point :=
  {| ep_ret := CResult CFloat;
     ep_params := [(CConstPtr "cv::line_descriptor::KeyLine", "instance")];
     ep_body := Try (Load "instance" f_sPointInOctaveX) OkRet |}.

Definition cv_line_descriptor_KeyLine_setPropSPointInOctaveX_float : entry_point :=
  {| ep_ret := CResult_void;
     ep_params := [(CPtr "cv::line_descriptor::KeyLine", "instance");
                   (CFloat, "val")];
     ep_body := Try (Store "instance" f_sPointInOctaveX (Val "val")) OkUnit |}.

Definition cv_line_descriptor_KeyLine_getPropSPointInOctaveY_const : entry_point :=
  {| ep_ret := CResult CFloat;
     ep_params := [(CConstPtr "cv::line_descriptor::KeyLine", "instance")];
     ep_body := Try (Load "instance" f_sPointInOctaveY) OkRet |}.

Definition cv_line_descriptor_KeyLine_setPropSPointInOctaveY_float : entry_point :=
  {| ep_ret := CResult_void;
     ep_params := [(CPtr "cv::line_descriptor::KeyLine", "instance");
                   (CFloat, "val")];
     ep_body := Try (Store "instance" f_sPointInOctaveY (Val "val")) OkUnit |}.

Definition cv_line_descriptor_KeyLine_getPropEPointInOctaveX_const : entry_point :=
  {| ep_ret := CResult CFloat;
     ep_params := [(CConstPtr "cv::line_descriptor::KeyLine", "instance")];
     ep_body := Try (Load "instance" f_ePointInOctaveX) OkRet |}.

Definition cv_line_descriptor_KeyLine_setPropEPointInOctaveX_float : entry_point :=
  {| ep_ret := CResult_void;
     ep_params := [(CPtr "cv::line_descriptor::KeyLine", "instance");
                   (CFloat, "val")];
     ep_body := Try (Store "instance" f_ePointInOctaveX (Val "val")) OkUnit |}.

Definition cv_line_descriptor_KeyLine_getPropEPointInOctaveY_const : entry_point :=
  {| ep_ret := CResult CFloat;
     ep_params := [(CConstPtr "cv::line_descriptor::KeyLine", "instance")];
     ep_body := Try (Load "instance" f_ePointInOctaveY) OkRet |}.

Definition cv_line_descriptor_KeyLine_setPropEPointInOctaveY_float : entry_point :=
  {| ep_ret := CResult_void;
     ep_params := [(CPtr "cv::line_descriptor::KeyLine", "instance");
                   (CFloat, "val")];
     ep_body := Try (Store "instance" f_ePointInOctaveY (Val "val")) OkUnit |}.

Definition cv_line_descriptor_KeyLine_getPropLineLength_const : entry_point :=
  {| ep_ret := CResult CFloat;
     ep_params := [(CConstPtr "cv::line_descriptor::KeyLine", "instance")];
     ep_body := Try (Load "instance" f_lineLength) OkRet |}.

Definition cv_line_descriptor_KeyLine_setPropLineLength_float : entry_point :=
  {| ep_ret := CResult_void;
     ep_params := [(CPtr "cv::line_descriptor::KeyLine", "instance");
                   (CFloat, "val")];
     ep_body := Try (Store "instance" f_lineLength (Val "val")) OkUnit |}.

Definition cv_line_descriptor_KeyLine_getPropNumOfPixels_const : entry_point :=
  {| ep_ret := CResult CInt;
     ep_params := [(CConstPtr "cv::line_descriptor::KeyLine", "instance")];
     ep_body := Try (Load "instance" f_numOfPixels) OkRet |}.

Definition cv_line_descriptor_KeyLine_setPropNumOfPixels_int : entry_point :=
  {| ep_ret := CResult_void;
     ep_params := [(CPtr "cv::line_descriptor::KeyLine", "instance");
                   (CInt, "val")];
     ep_body := Try (Store "instance" f_numOfPixels (Val "val")) OkUnit |}.

Definition cv_KeyLine_delete : entry_point :=
  {| ep_ret := Cvoid;
     ep_params := [(CPtr "cv::line_descriptor::KeyLine", "instance")];
     ep_body := Delete "instance" |}.

Definition cv_line_descriptor_KeyLine_getStartPoint_const : entry_point :=
  {| ep_ret := CResult (CNamed "cv::Point2f");
     ep_params := [(CConstPtr "cv::line_descriptor::KeyLine", "instance")];
     ep_body := Try (CallMethod "instance" "getStartPoint" []) OkRet |}.

Definition cv_line_descriptor_KeyLine_getEndPoint_const : entry_point :=
  {| ep_ret := CResult (CNamed "cv::Point2f");
     ep_params := [(CConstPtr "cv::line_descriptor::KeyLine", "instance")];
     ep_body := Try (CallMethod "instance" "getEndPoint" []) OkRet |}.

Definition cv_line_descriptor_KeyLine_getStartPointInOctave_const : entry_point :=
  {| ep_ret := CResult (CNamed "cv::Point2f");
     ep_params := [(CConstPtr "cv::line_descriptor::KeyLine", "instance")];
     ep_body := Try (CallMethod "instance" "getStartPointInOctave" []) OkRet |}.

Definition cv_line_descriptor_KeyLine_getEndPointInOctave_const : entry_point :=
  {| ep_ret := CResult (CNamed "cv::Point2f");
     ep_params := [(CConstPtr "cv::line_descriptor::KeyLine", "instance")];
     ep_body := Try (CallMethod "instance" "getEndPointInOctave" []) OkRet |}.

Definition cv_line_descriptor_KeyLine_KeyLine : entry_point :=
  {| ep_ret := CResult (CPtr "cv::line_descriptor::KeyLine");
     ep_params := [];
     ep_body := Try (New "cv::line_descriptor::KeyLine" []) OkRet |}.

Definition cv_LSDDetector_delete : entry_point :=
  {| ep_ret := Cvoid;
     ep_params := [(CPtr "cv::line_descriptor::LSDDetector", "instance")];
     ep_body := Delete "instance" |}.

Definition cv_line_descriptor_LSDDetector_LSDDetector : entry_point :=
  {| ep_ret := CResult (CPtr "cv::line_descriptor::LSDDetector");
     ep_params := [];
     ep_body := Try (New "cv::line_descriptor::LSDDetector" []) OkRet |}.

Definition cv_line_descriptor_LSDDetector_createLSDDetector : entry_point :=
  {| ep_ret := CResult (CPtr "cv::Ptr<cv::line_descriptor::LSDDetector>");
     ep_params := [];
     ep_body := Try (CallFree "cv::line_descriptor::LSDDetector::createLSDDetector" []) (OkNew "cv::Ptr<cv::line_descriptor::LSDDetector>") |}.

Definition cv_line_descriptor_LSDDetector_detect_const_MatR_vector_KeyLine_R_int_int_const_MatR : entry_point :=
  {| ep_ret := CResult_void;
     ep_params := [(CPtr "cv::line_descriptor::LSDDetector", "instance");
                   (CConstPtr "cv::Mat", "image");
                   (CPtr "std::vector<cv::line_descriptor::KeyLine>", "keypoints");
                   (CInt, "scale");
                   (CInt, "numOctaves");
                   (CConstPtr "cv::Mat", "mask")];
     ep_body := Try (CallMethod "instance" "detect" [Deref "image"; Deref "keypoints"; Val "scale"; Val "numOctaves"; Deref "mask"]) OkUnit |}.

Definition cv_line_descriptor_LSDDetector_detect_const_const_vector_Mat_R_vector_vector_KeyLine__R_int_int_const_vector_Mat_R : entry_point :=
  {| ep_ret := CResult_void;
     ep_params := [(CConstPtr "cv::line_descriptor::LSDDetector", "instance");
                   (CConstPtr "std::vector<cv::Mat>", "images");
                   (CPtr "std::vector<std::vector<cv::line_descriptor::KeyLine>>", "keylines");
                   (CInt, "scale");
                   (CInt, "numOctaves");
                   (CConstPtr "std::vector<cv::Mat>", "masks")];
     ep_body := Try (CallMethod "instance" "detect" [Deref "images"; Deref "keylines"; Val "scale"; Val "numOctaves"; Deref "masks"]) OkUnit |}.

Definition entry_points : list entry_point :=
  [ cv_line_descriptor_drawKeylines_const_MatR_const_vector_KeyLine_R_MatR_const_ScalarR_int;
    cv_line_descriptor_drawLineMatches_const_MatR_const_vector_KeyLine_R_const_MatR_const_vector_KeyLine_R_const_vector_DMatch_R_MatR_const_ScalarR_const_ScalarR_const_vector_char_R_int;
    cv_BinaryDescriptor_delete;
    cv_line_descriptor_BinaryDescriptor_BinaryDescriptor_const_ParamsR;
    cv_line_descriptor_BinaryDescriptor_createBinaryDescriptor;
    cv_line_descriptor_BinaryDescriptor_createBinaryDescriptor_Params;
    cv_line_descriptor_BinaryDescriptor_getNumOfOctaves;
    cv_line_descriptor_BinaryDescriptor_setNumOfOctaves_int;
    cv_line_descriptor_BinaryDescriptor_getWidthOfBand;
    cv_line_descriptor_BinaryDescriptor_setWidthOfBand_int;
    cv_line_descriptor_BinaryDescriptor_getReductionRatio;
    cv_line_descriptor_BinaryDescriptor_setReductionRatio_int;
    cv_line_descriptor_BinaryDescriptor_read_const_FileNodeR;
    cv_line_descriptor_BinaryDescriptor_write_const_FileStorageR;
    cv_line_descriptor_BinaryDescriptor_detect_const_MatR_vector_KeyLine_R_const_MatR;
    cv_line_descriptor_BinaryDescriptor_detect_const_const_vector_Mat_R_vector_vector_KeyLine__R_const_vector_Mat_R;
    cv_line_descriptor_BinaryDescriptor_compute_const_const_MatR_vector_KeyLine_R_MatR_bool;
    cv_line_descriptor_BinaryDescriptor_compute_const_const_vector_Mat_R_vector_vector_KeyLine__R_vector_Mat_R_bool;
    cv_line_descriptor_BinaryDescriptor_descriptorSize_const;
    cv_line_descriptor_BinaryDescriptor_descriptorType_const;
    cv_line_descriptor_BinaryDescriptor_defaultNorm_const;
    cv_line_descriptor_BinaryDescriptor_Params_getPropNumOfOctave__const;
    cv_line_descriptor_BinaryDescriptor_Params_setPropNumOfOctave__int;
    cv_line_descriptor_BinaryDescriptor_Params_getPropWidthOfBand__const;
    cv_line_descriptor_BinaryDescriptor_Params_setPropWidthOfBand__int;
    cv_line_descriptor_BinaryDescriptor_Params_getPropReductionRatio_const;
    cv_line_descriptor_BinaryDescriptor_Params_setPropReductionRatio_int;
    cv_line_descriptor_BinaryDescriptor_Params_getPropKsize__const;
    cv_line_descriptor_BinaryDescriptor_Params_setPropKsize__int;
    cv_BinaryDescriptor_Params_delete;
    cv_line_descriptor_BinaryDescriptor_Params_Params;
    cv_line_descriptor_BinaryDescriptor_Params_read_const_FileNodeR;
    cv_line_descriptor_BinaryDescriptor_Params_write_const_FileStorageR;
    cv_BinaryDescriptorMatcher_delete;
    cv_line_descriptor_BinaryDescriptorMatcher_match_const_const_MatR_const_MatR_vector_DMatch_R_const_MatR;
    cv_line_descriptor_BinaryDescriptorMatcher_match_const_MatR_vector_DMatch_R_const_vector_Mat_R;
    cv_line_descriptor_BinaryDescriptorMatcher_knnMatch_const_const_MatR_const_MatR_vector_vector_DMatch__R_int_const_MatR_bool;
    cv_line_descriptor_BinaryDescriptorMatcher_knnMatch_const_MatR_vector_vector_DMatch__R_int_const_vector_Mat_R_bool;
    cv_line_descriptor_BinaryDescriptorMatcher_radiusMatch_const_const_MatR_const_MatR_vector_vector_DMatch__R_float_const_MatR_bool;
    cv_line_descriptor_BinaryDescriptorMatcher_radiusMatch_const_MatR_vector_vector_DMatch__R_float_const_vector_Mat_R_bool;
    cv_line_descriptor_BinaryDescriptorMatcher_add_const_vector_Mat_R;
    cv_line_descriptor_BinaryDescriptorMatcher_train;
    cv_line_descriptor_BinaryDescriptorMatcher_createBinaryDescriptorMatcher;
    cv_line_descriptor_BinaryDescriptorMatcher_clear;
    cv_line_descriptor_BinaryDescriptorMatcher_BinaryDescriptorMatcher;
    cv_DrawLinesMatchesFlags_delete;
    cv_line_descriptor_KeyLine_getPropAngle_const;
    cv_line_descriptor_KeyLine_setPropAngle_float;
    cv_line_descriptor_KeyLine_getPropClass_id_const;
    cv_line_descriptor_KeyLine_setPropClass_id_int;
    cv_line_descriptor_KeyLine_getPropOctave_const;
    cv_line_descriptor_KeyLine_setPropOctave_int;
    cv_line_descriptor_KeyLine_getPropPt_const;
    cv_line_descriptor_KeyLine_setPropPt_Point2f;
    cv_line_descriptor_KeyLine_getPropResponse_const;
    cv_line_descriptor_KeyLine_setPropResponse_float;
    cv_line_descriptor_KeyLine_getPropSize_const;
    cv_line_descriptor_KeyLine_setPropSize_float;
    cv_line_descriptor_KeyLine_getPropStartPointX_const;
    cv_line_descriptor_KeyLine_setPropStartPointX_float;
    cv_line_descriptor_KeyLine_getPropStartPointY_const;
    cv_line_descriptor_KeyLine_setPropStartPointY_float;
    cv_line_descriptor_KeyLine_getPropEndPointX_const;
    cv_line_descriptor_KeyLine_setPropEndPointX_float;
    cv_line_descriptor_KeyLine_getPropEndPointY_const;
    cv_line_descriptor_KeyLine_setPropEndPointY_float;
    cv_line_descriptor_KeyLine_getPropSPointInOctaveX_const;
    cv_line_descriptor_KeyLine_setPropSPointInOctaveX_float;
    cv_line_descriptor_KeyLine_getPropSPointInOctaveY_const;
    cv_line_descriptor_KeyLine_setPropSPointInOctaveY_float;
    cv_line_descriptor_KeyLine_getPropEPointInOctaveX_const;
    cv_line_descriptor_KeyLine_setPropEPointInOctaveX_float;
    cv_line_descriptor_KeyLine_getPropEPointInOctaveY_const;
    cv_line_descriptor_KeyLine_setPropEPointInOctaveY_float;
    cv_line_descriptor_KeyLine_getPropLineLength_const;
    cv_line_descriptor_KeyLine_setPropLineLength_float;
    cv_line_descriptor_KeyLine_getPropNumOfPixels_const;
    cv_line_descriptor_KeyLine_setPropNumOfPixels_int;
    cv_KeyLine_delete;
    cv_line_descriptor_KeyLine_getStartPoint_const;
    cv_line_descriptor_KeyLine_getEndPoint_const;
    cv_line_descriptor_KeyLine_getStartPointInOctave_const;
    cv_line_descriptor_KeyLine_getEndPointInOctave_const;
    cv_line_descriptor_KeyLine_KeyLine;
    cv_LSDDetector_delete;
    cv_line_descriptor_LSDDetector_LSDDetector;
    cv_line_descriptor_LSDDetector_createLSDDetector;
    cv_line_descriptor_LSDDetector_detect_const_MatR_vector_KeyLine_R_int_int_const_MatR;
    cv_line_descriptor_LSDDetector_detect_const_const_vector_Mat_R_vector_vector_KeyLine__R_int_int_const_vector_Mat_R ].

End line_descriptor.

(** The entry points of [ximgproc.cpp], in the order of the file. *)
Module ximgproc.

Definition cv_ximgproc_FastHoughTransform_const__InputArrayR_const__OutputArrayR_int_int_int_int : entry_point :=
  {| ep_ret := CResult_void;
     ep_params := [(CConstPtr "cv::_InputArray", "src");
                   (CConstPtr "cv::_OutputArray", "dst");
                   (CInt, "dstMatDepth");
                   (CInt, "angleRange");
                   (CInt, "op");
                   (CInt, "makeSkew")];
     ep_body := Try (CallFree "cv::ximgproc::FastHoughTransform" [Deref "src"; Deref "dst"; Val "dstMatDepth"; Val "angleRange"; Val "op"; Val "makeSkew"]) OkUnit |}.

Definition cv_ximgproc_GradientDericheX_const__InputArrayR_const__OutputArrayR_double_double : entry_point :=
  {| ep_ret := CResult_void;
     ep_params := [(CConstPtr "cv::_InputArray", "_op");
                   (CConstPtr "cv::_OutputArray", "_dst");
                   (CDouble, "alphaDerive");
                   (CDouble, "alphaMean")];
     ep_body := Try (CallFree "cv::ximgproc::GradientDericheX" [Deref "_op"; Deref "_dst"; Val "alphaDerive"; Val "alphaMean"]) OkUnit |}.

Definition cv_ximgproc_GradientDericheY_const__InputArrayR_const__OutputArrayR_double_double : entry_point :=
  {| ep_ret := CResult_void;
     ep_params := [(CConstPtr "cv::_InputArray", "_op");
                   (CConstPtr "cv::_OutputArray", "_dst");
                   (CDouble, "alphaDerive");
                   (CDouble, "alphaMean")];
     ep_body := Try (CallFree "cv::ximgproc::GradientDericheY" [Deref "_op"; Deref "_dst"; Val "alphaDerive"; Val "alphaMean"]) OkUnit |}.

Definition cv_ximgproc_GradientPaillouX_const__InputArrayR_const__OutputArrayR_double_double : entry_point :=
  {| ep_ret := CResult_void;
     ep_params := [(CConstPtr "cv::_InputArray", "op");
                   (CConstPtr "cv::_OutputArray", "_dst");
                   (CDouble, "alpha");
                   (CDouble, "omega")];
     ep_body := Try (CallFree "cv::ximgproc::GradientPaillouX" [Deref "op"; Deref "_dst"; Val "alpha"; Val "omega"]) OkUnit |}.

Definition cv_ximgproc_GradientPaillouY_const__InputArrayR_const__OutputArrayR_double_double : entry_point :=
  {| ep_ret := CResult_void;
     ep_params := [(CConstPtr "cv::_InputArray", "op");
                   (CConstPtr "cv::_OutputArray", "_dst");
                   (CDouble, "alpha");
                   (CDouble, "omega")];
     ep_body := Try (CallFree "cv::ximgproc::GradientPaillouY" [Deref "op"; Deref "_dst"; Val "alpha"; Val "omega"]) OkUnit |}.

Definition cv_ximgproc_HoughPoint2Line_const_PointR_const__InputArrayR_int_int_int : entry_point :=
  {| ep_ret := CResult (CNamed "cv::Vec4i");
     ep_params := [(CConstPtr "cv::Point", "houghPoint");
                   (CConstPtr "cv::_InputArray", "srcImgInfo");
                   (CInt, "angleRange");
                   (CInt, "makeSkew");
                   (CInt, "rules")];
     ep_body := Try (CallFree "cv::ximgproc::HoughPoint2Line" [Deref "houghPoint"; Deref "srcImgInfo"; Val "angleRange"; Val "makeSkew"; Val "rules"]) OkRet |}.

Definition cv_ximgproc_amFilter_const__InputArrayR_const__InputArrayR_const__OutputArrayR_double_double_bool : entry_point :=
  {| ep_ret := CResult_void;
     ep_params := [(CConstPtr "cv::_InputArray", "joint");
                   (CConstPtr "cv::_InputArray", "src");
                   (CConstPtr "cv::_OutputArray", "dst");
                   (CDouble, "sigma_s");
                   (CDouble, "sigma_r");
                   (CBool, "adjust_outliers")];
     ep_body := Try (CallFree "cv::ximgproc::amFilter" [Deref "joint"; Deref "src"; Deref "dst"; Val "sigma_s"; Val "sigma_r"; Val "adjust_outliers"]) OkUnit |}.

Definition cv_ximgproc_bilateralTextureFilter_const__InputArrayR_const__OutputArrayR_int_int_double_double : entry_point :=
  {| ep_ret := CResult_void;
     ep_params := [(CConstPtr "cv::_InputArray", "src");
                   (CConstPtr "cv::_OutputArray", "dst");
                   (CInt, "fr");
                   (CInt, "numIter");
                   (CDouble, "sigmaAlpha");
                   (CDouble, "sigmaAvg")];
     ep_body := Try (CallFree "cv::ximgproc::bilateralTextureFilter" [Deref "src"; Deref "dst"; Val "fr"; Val "numIter"; Val "sigmaAlpha"; Val "sigmaAvg"]) OkUnit |}.

Definition cv_ximgproc_computeBadPixelPercent_const__InputArrayR_const__InputArrayR_Rect_int : entry_point :=
  {| ep_ret := CResult CDouble;
     ep_params := [(CConstPtr "cv::_InputArray", "GT");
                   (CConstPtr "cv::_InputArray", "src");
                   (CConstPtr "cv::Rect", "ROI");
                   (CInt, "thresh")];
     ep_body := Try (CallFree "cv::ximgproc::computeBadPixelPercent" [Deref "GT"; Deref "src"; Deref "ROI"; Val "thresh"]) OkRet |}.

Definition cv_ximgproc_computeMSE_const__InputArrayR_const__InputArrayR_Rect : entry_point :=
  {| ep_ret := CResult CDouble;
     ep_params := [(CConstPtr "cv::_InputArray", "GT");
                   (CConstPtr "cv::_InputArray", "src");
                   (CConstPtr "cv::Rect", "ROI")];
     ep_body := Try (CallFree "cv::ximgproc::computeMSE" [Deref "GT"; Deref "src"; Deref "ROI"]) OkRet |}.

Definition cv_ximgproc_covarianceEstimation_const__InputArrayR_const__OutputArrayR_int_int : entry_point :=
  {| ep_ret := CResult_void;
     ep_params := [(CConstPtr "cv::_InputArray", "src");
                   (CConstPtr "cv::_OutputArray", "dst");
                   (CInt, "windowRows");
                   (CInt, "windowCols")];
     ep_body := Try (CallFree "cv::ximgproc::covarianceEstimation" [Deref "src"; Deref "dst"; Val "windowRows"; Val "windowCols"]) OkUnit |}.

Definition cv_ximgproc_createAMFilter_double_double_bool : entry_point :=
  {| ep_ret := CResult (CPtr "cv::Ptr<cv::ximgproc::AdaptiveManifoldFilter>");
     ep_params := [(CDouble, "sigma_s");
                   (CDouble, "sigma_r");
                   (CBool, "adjust_outliers")];
     ep_body := Try (CallFree "cv::ximgproc::createAMFilter" [Val "sigma_s"; Val "sigma_r"; Val "adjust_outliers"]) (OkNew "cv::Ptr<cv::ximgproc::AdaptiveManifoldFilter>") |}.

Definition cv_ximgproc_createDTFilter_const__InputArrayR_double_double_int_int : entry_point :=
  {| ep_ret := CResult (CPtr "cv::Ptr<cv::ximgproc::DTFilter>");
     ep_params := [(CConstPtr "cv::_InputArray", "guide");
                   (CDouble, "sigmaSpatial");
                   (CDouble, "sigmaColor");
                   (CInt, "mode");
                   (CInt, "numIters")];
     ep_body := Try (CallFree "cv::ximgproc::createDTFilter" [Deref "guide"; Val "sigmaSpatial"; Val "sigmaColor"; Val "mode"; Val "numIters"]) (OkNew "cv::Ptr<cv::ximgproc::DTFilter>") |}.

Definition cv_ximgproc_createDisparityWLSFilterGeneric_bool : entry_point :=
  {| ep_ret := CResult (CPtr "cv::Ptr<cv::ximgproc::DisparityWLSFilter>");
     ep_params := [(CBool, "use_confidence")];
     ep_body := Try (CallFree "cv::ximgproc::createDisparityWLSFilterGeneric" [Val "use_confidence"]) (OkNew "cv::Ptr<cv::ximgproc::DisparityWLSFilter>") |}.

Definition cv_ximgproc_createDisparityWLSFilter_Ptr_StereoMatcher_ : entry_point :=
  {| ep_ret := CResult (CPtr "cv::Ptr<cv::ximgproc::DisparityWLSFilter>");
     ep_params := [(CPtr "cv::Ptr<cv::StereoMatcher>", "matcher_left")];
     ep_body := Try (CallFree "cv::ximgproc::createDisparityWLSFilter" [Deref "matcher_left"]) (OkNew "cv::Ptr<cv::ximgproc::DisparityWLSFilter>") |}.

Definition cv_ximgproc_createEdgeAwareInterpolator : entry_point :=
  {| ep_ret := CResult (CPtr "cv::Ptr<cv::ximgproc::EdgeAwareInterpolator>");
     ep_params := [];
     ep_body := Try (CallFree "cv::ximgproc::createEdgeAwareInterpolator" []) (OkNew "cv::Ptr<cv::ximgproc::EdgeAwareInterpolator>") |}.

Definition cv_ximgproc_createFastGlobalSmootherFilter_const__InputArrayR_double_double_double_int : entry_point :=
  {| ep_ret := CResult (CPtr "cv::Ptr<cv::ximgproc::FastGlobalSmootherFilter>");
     ep_params := [(CConstPtr "cv::_InputArray", "guide");
                   (CDouble, "lambda");
                   (CDouble, "sigma_color");
                   (CDouble, "lambda_attenuation");
                   (CInt, "num_iter")];
     ep_body := Try (CallFree "cv::ximgproc::createFastGlobalSmootherFilter" [Deref "guide"; Val "lambda"; Val "sigma_color"; Val "lambda_attenuation"; Val "num_iter"]) (OkNew "cv::Ptr<cv::ximgproc::FastGlobalSmootherFilter>") |}.

Definition cv_ximgproc_createFastLineDetector_int_float_double_double_int_bool : entry_point :=
  {| ep_ret := CResult (CPtr "cv::Ptr<cv::ximgproc::FastLineDetector>");
     ep_params := [(CInt, "_length_threshold");
                   (CFloat, "_distance_threshold");
                   (CDouble, "_canny_th1");
                   (CDouble, "_canny_th2");
                   (CInt, "_canny_aperture_size");
                   (CBool, "_do_merge")];
     ep_body := Try (CallFree "cv::ximgproc::createFastLineDetector" [Val "_length_threshold"; Val "_distance_threshold"; Val "_canny_th1"; Val "_canny_th2"; Val "_canny_aperture_size"; Val "_do_merge"]) (OkNew "cv::Ptr<cv::ximgproc::FastLineDetector>") |}.

Definition cv_ximgproc_createGuidedFilter_const__InputArrayR_int_double : entry_point :=
  {| ep_ret := CResult (CPtr "cv::Ptr<cv::ximgproc::GuidedFilter>");
     ep_params := [(CConstPtr "cv::_InputArray", "guide");
                   (CInt, "radius");
                   (CDouble, "eps")];
     ep_body := Try (CallFree "cv::ximgproc::createGuidedFilter" [Deref "guide"; Val "radius"; Val "eps"]) (OkNew "cv::Ptr<cv::ximgproc::GuidedFilter>") |}.

Definition cv_ximgproc_createRFFeatureGetter : entry_point :=
  {| ep_ret := CResult (CPtr "cv::Ptr<cv::ximgproc::RFFeatureGetter>");
     ep_params := [];
     ep_body := Try (CallFree "cv::ximgproc::createRFFeatureGetter" []) (OkNew "cv::Ptr<cv::ximgproc::RFFeatureGetter>") |}.

Definition cv_ximgproc_createRightMatcher_Ptr_StereoMatcher_ : entry_point :=
  {| ep_ret := CResult (CPtr "cv::Ptr<cv::StereoMatcher>");
     ep_params := [(CPtr "cv::Ptr<cv::StereoMatcher>", "matcher_left")];
     ep_body := Try (CallFree "cv::ximgproc::createRightMatcher" [Deref "matcher_left"]) (OkNew "cv::Ptr<cv::StereoMatcher>") |}.

Definition cv_ximgproc_createStructuredEdgeDetection_const_StringR_Ptr_RFFeatureGetter_ : entry_point :=
  {| ep_ret := CResult (CPtr "cv::Ptr<cv::ximgproc::StructuredEdgeDetection>");
     ep_params := [(CConstPtr "char", "model");
                   (CConstPtr "cv::Ptr<cv::ximgproc::RFFeatureGetter>", "howToGetFeatures")];
     ep_body := Try (CallFree "cv::ximgproc::createStructuredEdgeDetection" [Str "model"; Deref "howToGetFeatures"]) (OkNew "cv::Ptr<cv::ximgproc::StructuredEdgeDetection>") |}.

Definition cv_ximgproc_createSuperpixelLSC_const__InputArrayR_int_float : entry_point :=
  {| ep_ret := CResult (CPtr "cv::Ptr<cv::ximgproc::SuperpixelLSC>");
     ep_params := [(CConstPtr "cv::_InputArray", "image");
                   (CInt, "region_size");
                   (CFloat, "ratio")];
     ep_body := Try (CallFree "cv::ximgproc::createSuperpixelLSC" [Deref "image"; Val "region_size"; Val "ratio"]) (OkNew "cv::Ptr<cv::ximgproc::SuperpixelLSC>") |}.

Definition cv_ximgproc_createSuperpixelSEEDS_int_int_int_int_int_int_int_bool : entry_point :=
  {| ep_ret := CResult (CPtr "cv::Ptr<cv::ximgproc::SuperpixelSEEDS>");
     ep_params := [(CInt, "image_width");
                   (CInt, "image_height");
                   (CInt, "image_channels");
                   (CInt, "num_superpixels");
                   (CInt, "num_levels");
                   (CInt, "prior");
                   (CInt, "histogram_bins");
                   (CBool, "double_step")];
     ep_body := Try (CallFree "cv::ximgproc::createSuperpixelSEEDS" [Val "image_width"; Val "image_height"; Val "image_channels"; Val "num_superpixels"; Val "num_levels"; Val "prior"; Val "histogram_bins"; Val "double_step"]) (OkNew "cv::Ptr<cv::ximgproc::SuperpixelSEEDS>") |}.

Definition cv_ximgproc_createSuperpixelSLIC_const__InputArrayR_int_int_float : entry_point :=
  {| ep_ret := CResult (CPtr "cv::Ptr<cv::ximgproc::SuperpixelSLIC>");
     ep_params := [(CConstPtr "cv::_InputArray", "image");
                   (CInt, "algorithm");
                   (CInt, "region_size");
                   (CFloat, "ruler")];
     ep_body := Try (CallFree "cv::ximgproc::createSuperpixelSLIC" [Deref "image"; Val "algorithm"; Val "region_size"; Val "ruler"]) (OkNew "cv::Ptr<cv::ximgproc::SuperpixelSLIC>") |}.

Definition cv_ximgproc_dtFilter_const__InputArrayR_const__InputArrayR_const__OutputArrayR_double_double_int_int : entry_point :=
  {| ep_ret := CResult_void;
     ep_params := [(CConstPtr "cv::_InputArray", "guide");
                   (CConstPtr "cv::_InputArray", "src");
                   (CConstPtr "cv::_OutputArray", "dst");
                   (CDouble, "sigmaSpatial");
                   (CDouble, "sigmaColor");
                   (CInt, "mode");
                   (CInt, "numIters")];
     ep_body := Try (CallFree "cv::ximgproc::dtFilter" [Deref "guide"; Deref "src"; Deref "dst"; Val "sigmaSpatial"; Val "sigmaColor"; Val "mode"; Val "numIters"]) OkUnit |}.

Definition cv_ximgproc_fastGlobalSmootherFilter_const__InputArrayR_const__InputArrayR_const__OutputArrayR_double_double_double_int : entry_point :=
  {| ep_ret := CResult_void;
     ep_params := [(CConstPtr "cv::_InputArray", "guide");
                   (CConstPtr "cv::_InputArray", "src");
                   (CConstPtr "cv::_OutputArray", "dst");
                   (CDouble, "lambda");
                   (CDouble, "sigma_color");
                   (CDouble, "lambda_attenuation");
                   (CInt, "num_iter")];
     ep_body := Try (CallFree "cv::ximgproc::fastGlobalSmootherFilter" [Deref "guide"; Deref "src"; Deref "dst"; Val "lambda"; Val "sigma_color"; Val "lambda_attenuation"; Val "num_iter"]) OkUnit |}.

Definition cv_ximgproc_getDisparityVis_const__InputArrayR_const__OutputArrayR_double : entry_point :=
  {| ep_ret := CResult_void;
     ep_params := [(CConstPtr "cv::_InputArray", "src");
                   (CConstPtr "cv::_OutputArray", "dst");
                   (CDouble, "scale")];
     ep_body := Try (CallFree "cv::ximgproc::getDisparityVis" [Deref "src"; Deref "dst"; Val "scale"]) OkUnit |}.

Definition cv_ximgproc_guidedFilter_const__InputArrayR_const__InputArrayR_const__OutputArrayR_int_double_int : entry_point :=
  {| ep_ret := CResult_void;
     ep_params := [(CConstPtr "cv::_InputArray", "guide");
                   (CConstPtr "cv::_InputArray", "src");
                   (CConstPtr "cv::_OutputArray", "dst");
                   (CInt, "radius");
                   (CDouble, "eps");
                   (CInt, "dDepth")];
     ep_body := Try (CallFree "cv::ximgproc::guidedFilter" [Deref "guide"; Deref "src"; Deref "dst"; Val "radius"; Val "eps"; Val "dDepth"]) OkUnit |}.

Definition cv_ximgproc_jointBilateralFilter_const__InputArrayR_const__InputArrayR_const__OutputArrayR_int_double_double_int : entry_point :=
  {| ep_ret := CResult_void;
     ep_params := [(CConstPtr "cv::_InputArray", "joint");
                   (CConstPtr "cv::_InputArray", "src");
                   (CConstPtr "cv::_OutputArray", "dst");
                   (CInt, "d");
                   (CDouble, "sigmaColor");
                   (CDouble, "sigmaSpace");
                   (CInt, "borderType")];
     ep_body := Try (CallFree "cv::ximgproc::jointBilateralFilter" [Deref "joint"; Deref "src"; Deref "dst"; Val "d"; Val "sigmaColor"; Val "sigmaSpace"; Val "borderType"]) OkUnit |}.

Definition cv_ximgproc_l0Smooth_const__InputArrayR_const__OutputArrayR_double_double : entry_point :=
  {| ep_ret := CResult_void;
     ep_params := [(CConstPtr "cv::_InputArray", "src");
                   (CConstPtr "cv::_OutputArray", "dst");
                   (CDouble, "lambda");
                   (CDouble, "kappa")];
     ep_body := Try (CallFree "cv::ximgproc::l0Smooth" [Deref "src"; Deref "dst"; Val "lambda"; Val "kappa"]) OkUnit |}.

Definition cv_ximgproc_niBlackThreshold_const__InputArrayR_const__OutputArrayR_double_int_int_double : entry_point :=
  {| ep_ret := CResult_void;
     ep_params := [(CConstPtr "cv::_InputArray", "_src");
                   (CConstPtr "cv::_OutputArray", "_dst");
                   (CDouble, "maxValue");
                   (CInt, "type");
                   (CInt, "blockSize");
                   (CDouble, "delta")];
     ep_body := Try (CallFree "cv::ximgproc::niBlackThreshold" [Deref "_src"; Deref "_dst"; Val "maxValue"; Val "type"; Val "blockSize"; Val "delta"]) OkUnit |}.

Definition cv_ximgproc_readGT_String_const__OutputArrayR : entry_point :=
  {| ep_ret := CResult CInt;
     ep_params := [(CPtr "char", "src_path");
                   (CConstPtr "cv::_OutputArray", "dst")];
     ep_body := Try (CallFree "cv::ximgproc::readGT" [Str "src_path"; Deref "dst"]) OkRet |}.

Definition cv_ximgproc_rollingGuidanceFilter_const__InputArrayR_const__OutputArrayR_int_double_double_int_int : entry_point :=
  {| ep_ret := CResult_void;
     ep_params := [(CConstPtr "cv::_InputArray", "src");
                   (CConstPtr "cv::_OutputArray", "dst");
                   (CInt, "d");
                   (CDouble, "sigmaColor");
                   (CDouble, "sigmaSpace");
                   (CInt, "numOfIter");
                   (CInt, "borderType")];
     ep_body := Try (CallFree "cv::ximgproc::rollingGuidanceFilter" [Deref "src"; Deref "dst"; Val "d"; Val "sigmaColor"; Val "sigmaSpace"; Val "numOfIter"; Val "borderType"]) OkUnit |}.

Definition cv_ximgproc_segmentation_createGraphSegmentation_double_float_int : entry_point :=
  {| ep_ret := CResult (CPtr "cv::Ptr<cv::ximgproc::segmentation::GraphSegmentation>");
     ep_params := [(CDouble, "sigma");
                   (CFloat, "k");
                   (CInt, "min_size")];
     ep_body := Try (CallFree "cv::ximgproc::segmentation::createGraphSegmentation" [Val "sigma"; Val "k"; Val "min_size"]) (OkNew "cv::Ptr<cv::ximgproc::segmentation::GraphSegmentation>") |}.

Definition cv_ximgproc_segmentation_createSelectiveSearchSegmentation : entry_point :=
  {| ep_ret := CResult (CPtr "cv::Ptr<cv::ximgproc::segmentation::SelectiveSearchSegmentation>");
     ep_params := [];
     ep_body := Try (CallFree "cv::ximgproc::segmentation::createSelectiveSearchSegmentation" []) (OkNew "cv::Ptr<cv::ximgproc::segmentation::SelectiveSearchSegmentation>") |}.

Definition cv_ximgproc_segmentation_createSelectiveSearchSegmentationStrategyColor : entry_point :=
  {| ep_ret := CResult (CPtr "cv::Ptr<cv::ximgproc::segmentation::SelectiveSearchSegmentationStrategyColor>");
     ep_params := [];
     ep_body := Try (CallFree "cv::ximgproc::segmentation::createSelectiveSearchSegmentationStrategyColor" []) (OkNew "cv::Ptr<cv::ximgproc::segmentation::SelectiveSearchSegmentationStrategyColor>") |}.

Definition cv_ximgproc_segmentation_createSelectiveSearchSegmentationStrategyFill : entry_point :=
  {| ep_ret := CResult (CPtr "cv::Ptr<cv::ximgproc::segmentation::SelectiveSearchSegmentationStrategyFill>");
     ep_params := [];
     ep_body := Try (CallFree "cv::ximgproc::segmentation::createSelectiveSearchSegmentationStrategyFill" []) (OkNew "cv::Ptr<cv::ximgproc::segmentation::SelectiveSearchSegmentationStrategyFill>") |}.

Definition cv_ximgproc_segmentation_createSelectiveSearchSegmentationStrategyMultiple : entry_point :=
  {| ep_ret := CResult (CPtr "cv::Ptr<cv::ximgproc::segmentation::SelectiveSearchSegmentationStrategyMultiple>");
     ep_params := [];
     ep_body := Try (CallFree "cv::ximgproc::segmentation::createSelectiveSearchSegmentationStrategyMultiple" []) (OkNew "cv::Ptr<cv::ximgproc::segmentation::SelectiveSearchSegmentationStrategyMultiple>") |}.

Definition cv_ximgproc_segmentation_createSelectiveSearchSegmentationStrategyMultiple_Ptr_SelectiveSearchSegmentationStrategy_ : entry_point :=
  {| ep_ret := CResult (CPtr "cv::Ptr<cv::ximgproc::segmentation::SelectiveSearchSegmentationStrategyMultiple>");
     ep_params := [(CPtr "cv::Ptr<cv::ximgproc::segmentation::SelectiveSearchSegmentationStrategy>", "s1")];
     ep_body := Try (CallFree "cv::ximgproc::segmentation::createSelectiveSearchSegmentationStrategyMultiple" [Deref "s1"]) (OkNew "cv::Ptr<cv::ximgproc::segmentation::SelectiveSearchSegmentationStrategyMultiple>") |}.

Definition cv_ximgproc_segmentation_createSelectiveSearchSegmentationStrategyMultiple_Ptr_SelectiveSearchSegmentationStrategy__Ptr_SelectiveSearchSegmentationStrategy_ : entry_point :=
  {| ep_ret := CResult (CPtr "cv::Ptr<cv::ximgproc::segmentation::SelectiveSearchSegmentationStrategyMultiple>");
     ep_params := [(CPtr "cv::Ptr<cv::ximgproc::segmentation::SelectiveSearchSegmentationStrategy>", "s1");
                   (CPtr "cv::Ptr<cv::ximgproc::segmentation::SelectiveSearchSegmentationStrategy>", "s2")];
     ep_body := Try (CallFree "cv::ximgproc::segmentation::createSelectiveSearchSegmentationStrategyMultiple" [Deref "s1"; Deref "s2"]) (OkNew "cv::Ptr<cv::ximgproc::segmentation::SelectiveSearchSegmentationStrategyMultiple>") |}.

Definition cv_ximgproc_segmentation_createSelectiveSearchSegmentationStrategyMultiple_Ptr_SelectiveSearchSegmentationStrategy__Ptr_SelectiveSearchSegmentationStrategy__Ptr_SelectiveSearchSegmentationStrategy_ : entry_point :=
  {| ep_ret := CResult (CPtr "cv::Ptr<cv::ximgproc::segmentation::SelectiveSearchSegmentationStrategyMultiple>");
     ep_params := [(CPtr "cv::Ptr<cv::ximgproc::segmentation::SelectiveSearchSegmentationStrategy>", "s1");
                   (CPtr "cv::Ptr<cv::ximgproc::segmentation::SelectiveSearchSegmentationStrategy>", "s2");
                   (CPtr "cv::Ptr<cv::ximgproc::segmentation::SelectiveSearchSegmentationStrategy>", "s3")];
     ep_body := Try (CallFree "cv::ximgproc::segmentation::createSelectiveSearchSegmentationStrategyMultiple" [Deref "s1"; Deref "s2"; Deref "s3"]) (OkNew "cv::Ptr<cv::ximgproc::segmentation::SelectiveSearchSegmentationStrategyMultiple>") |}.

Definition cv_ximgproc_segmentation_createSelectiveSearchSegmentationStrategyMultiple_Ptr_SelectiveSearchSegmentationStrategy__Ptr_SelectiveSearchSegmentationStrategy__Ptr_SelectiveSearchSegmentationStrategy__Ptr_SelectiveSearchSegmentationStrategy_ : entry_point :=
  {| ep_ret := CResult (CPtr "cv::Ptr<cv::ximgproc::segmentation::SelectiveSearchSegmentationStrategyMultiple>");
     ep_params := [(CPtr "cv::Ptr<cv::ximgproc::segmentation::SelectiveSearchSegmentationStrategy>", "s1");
                   (CPtr "cv::Ptr<cv::ximgproc::segmentation::SelectiveSearchSegmentationStrategy>", "s2");
                   (CPtr "cv::Ptr<cv::ximgproc::segmentation::SelectiveSearchSegmentationStrategy>", "s3");
                   (CPtr "cv::Ptr<cv::ximgproc::segmentation::SelectiveSearchSegmentationStrategy>", "s4")];
     ep_body := Try (CallFree "cv::ximgproc::segmentation::createSelectiveSearchSegmentationStrategyMultiple" [Deref "s1"; Deref "s2"; Deref "s3"; Deref "s4"]) (OkNew "cv::Ptr<cv::ximgproc::segmentation::SelectiveSearchSegmentationStrategyMultiple>") |}.

Definition cv_ximgproc_segmentation_createSelectiveSearchSegmentationStrategySize : entry_point :=
  {| ep_ret := CResult (CPtr "cv::Ptr<cv::ximgproc::segmentation::SelectiveSearchSegmentationStrategySize>");
     ep_params := [];
     ep_body := Try (CallFree "cv::ximgproc::segmentation::createSelectiveSearchSegmentationStrategySize" []) (OkNew "cv::Ptr<cv::ximgproc::segmentation::SelectiveSearchSegmentationStrategySize>") |}.

Definition cv_ximgproc_segmentation_createSelectiveSearchSegmentationStrategyTexture : entry_point :=
  {| ep_ret := CResult (CPtr "cv::Ptr<cv::ximgproc::segmentation::SelectiveSearchSegmentationStrategyTexture>");
     ep_params := [];
     ep_body := Try (CallFree "cv::ximgproc::segmentation::createSelectiveSearchSegmentationStrategyTexture" []) (OkNew "cv::Ptr<cv::ximgproc::segmentation::SelectiveSearchSegmentationStrategyTexture>") |}.

Definition cv_ximgproc_thinning_const__InputArrayR_const__OutputArrayR_int : entry_point :=
  {| ep_ret := CResult_void;
     ep_params := [(CConstPtr "cv::_InputArray", "src");
                   (CConstPtr "cv::_OutputArray", "dst");
                   (CInt, "thinningType")];
     ep_body := Try (CallFree "cv::ximgproc::thinning" [Deref "src"; Deref "dst"; Val "thinningType"]) OkUnit |}.

Definition cv_ximgproc_weightedMedianFilter_const__InputArrayR_const__InputArrayR_const__OutputArrayR_int_double_WMFWeightType_Mat : entry_point :=
  {| ep_ret := CResult_void;
     ep_params := [(CConstPtr "cv::_InputArray", "joint");
                   (CConstPtr "cv::_InputArray", "src");
                   (CConstPtr "cv::_OutputArray", "dst");
                   (CInt, "r");
                   (CDouble, "sigma");
                   (CNamed "cv::ximgproc::WMFWeightType", "weightType");
                   (CPtr "cv::Mat", "mask")];
     ep_body := Try (CallFree "cv::ximgproc::weightedMedianFilter" [Deref "joint"; Deref "src"; Deref "dst"; Val "r"; Val "sigma"; Val "weightType"; Deref "mask"]) OkUnit |}.

Definition cv_ximgproc_AdaptiveManifoldFilter_filter_const__InputArrayR_const__OutputArrayR_const__InputArrayR : entry_point :=
  {| ep_ret := CResult_void;
     ep_params := [(CPtr "cv::ximgproc::AdaptiveManifoldFilter", "instance");
                   (CConstPtr "cv::_InputArray", "src");
                   (CConstPtr "cv::_OutputArray", "dst");
                   (CConstPtr "cv::_InputArray", "joint")];
     ep_body := Try (CallMethod "instance" "filter" [Deref "src"; Deref "dst"; Deref "joint"]) OkUnit |}.

Definition cv_ximgproc_AdaptiveManifoldFilter_collectGarbage : entry_point :=
  {| ep_ret := CResult_void;
     ep_params := [(CPtr "cv::ximgproc::AdaptiveManifoldFilter", "instance")];
     ep_body := Try (CallMethod "instance" "collectGarbage" []) OkUnit |}.

Definition cv_ximgproc_AdaptiveManifoldFilter_create : entry_point :=
  {| ep_ret := CResult (CPtr "cv::Ptr<cv::ximgproc::AdaptiveManifoldFilter>");
     ep_params := [];
     ep_body := Try (CallFree "cv::ximgproc::AdaptiveManifoldFilter::create" []) (OkNew "cv::Ptr<cv::ximgproc::AdaptiveManifoldFilter>") |}.

Definition cv_ximgproc_AdaptiveManifoldFilter_getSigmaS_const : entry_point :=
  {| ep_ret := CResult CDouble;
     ep_params := [(CConstPtr "cv::ximgproc::AdaptiveManifoldFilter", "instance")];
     ep_body := Try (CallMethod "instance" "getSigmaS" []) OkRet |}.

Definition cv_ximgproc_AdaptiveManifoldFilter_setSigmaS_double : entry_point :=
  {| ep_ret := CResult_void;
     ep_params := [(CPtr "cv::ximgproc::AdaptiveManifoldFilter", "instance");
                   (CDouble, "val")];
     ep_body := Try (CallMethod "instance" "setSigmaS" [Val "val"]) OkUnit |}.

Definition cv_ximgproc_AdaptiveManifoldFilter_getSigmaR_const : entry_point :=
  {| ep_ret := CResult CDouble;
     ep_params := [(CConstPtr "cv::ximgproc::AdaptiveManifoldFilter", "instance")];
     ep_body := Try (CallMethod "instance" "getSigmaR" []) OkRet |}.

Definition cv_ximgproc_AdaptiveManifoldFilter_setSigmaR_double : entry_point :=
  {| ep_ret := CResult_void;
     ep_params := [(CPtr "cv::ximgproc::AdaptiveManifoldFilter", "instance");
                   (CDouble, "val")];
     ep_body := Try (CallMethod "instance" "setSigmaR" [Val "val"]) OkUnit |}.

Definition cv_ximgproc_AdaptiveManifoldFilter_getTreeHeight_const : entry_point :=
  {| ep_ret := CResult CInt;
     ep_params := [(CConstPtr "cv::ximgproc::AdaptiveManifoldFilter", "instance")];
     ep_body := Try (CallMethod "instance" "getTreeHeight" []) OkRet |}.

Definition cv_ximgproc_AdaptiveManifoldFilter_setTreeHeight_int : entry_point :=
  {| ep_ret := CResult_void;
     ep_params := [(CPtr "cv::ximgproc::AdaptiveManifoldFilter", "instance");
                   (CInt, "val")];
     ep_body := Try (CallMethod "instance" "setTreeHeight" [Val "val"]) OkUnit |}.

Definition cv_ximgproc_AdaptiveManifoldFilter_getPCAIterations_const : entry_point :=
  {| ep_ret := CResult CInt;
     ep_params := [(CConstPtr "cv::ximgproc::AdaptiveManifoldFilter", "instance")];
     ep_body := Try (CallMethod "instance" "getPCAIterations" []) OkRet |}.

Definition cv_ximgproc_AdaptiveManifoldFilter_setPCAIterations_int : entry_point :=
  {| ep_ret := CResult_void;
     ep_params := [(CPtr "cv::ximgproc::AdaptiveManifoldFilter", "instance");
                   (CInt, "val")];
     ep_body := Try (CallMethod "instance" "setPCAIterations" [Val "val"]) OkUnit |}.

Definition cv_ximgproc_AdaptiveManifoldFilter_getAdjustOutliers_const : entry_point :=
  {| ep_ret := CResult CBool;
     ep_params := [(CConstPtr "cv::ximgproc::AdaptiveManifoldFilter", "instance")];
     ep_body := Try (CallMethod "instance" "getAdjustOutliers" []) OkRet |}.

Definition cv_ximgproc_AdaptiveManifoldFilter_setAdjustOutliers_bool : entry_point :=
  {| ep_ret := CResult_void;
     ep_params := [(CPtr "cv::ximgproc::AdaptiveManifoldFilter", "instance");
                   (CBool, "val")];
     ep_body := Try (CallMethod "instance" "setAdjustOutliers" [Val "val"]) OkUnit |}.

Definition cv_ximgproc_AdaptiveManifoldFilter_getUseRNG_const : entry_point :=
  {| ep_ret := CResult CBool;
     ep_params := [(CConstPtr "cv::ximgproc::AdaptiveManifoldFilter", "instance")];
     ep_body := Try (CallMethod "instance" "getUseRNG" []) OkRet |}.

Definition cv_ximgproc_AdaptiveManifoldFilter_setUseRNG_bool : entry_point :=
  {| ep_ret := CResult_void;
     ep_params := [(CPtr "cv::ximgproc::AdaptiveManifoldFilter", "instance");
                   (CBool, "val")];
     ep_body := Try (CallMethod "instance" "setUseRNG" [Val "val"]) OkUnit |}.

Definition cv_ximgproc_DTFilter_filter_const__InputArrayR_const__OutputArrayR_int : entry_point :=
  {| ep_ret := CResult_void;
     ep_params := [(CPtr "cv::ximgproc::DTFilter", "instance");
                   (CConstPtr "cv::_InputArray", "src");
                   (CConstPtr "cv::_OutputArray", "dst");
                   (CInt, "dDepth")];
     ep_body := Try (CallMethod "instance" "filter" [Deref "src"; Deref "dst"; Val "dDepth"]) OkUnit |}.

Definition cv_ximgproc_DisparityFilter_filter_const__InputArrayR_const__InputArrayR_const__OutputArrayR_const__InputArrayR_Rect_const__InputArrayR : entry_point :=
  {| ep_ret := CResult_void;
     ep_params := [(CPtr "cv::ximgproc::DisparityFilter", "instance");
                   (CConstPtr "cv::_InputArray", "disparity_map_left");
                   (CConstPtr "cv::_InputArray", "left_view");
                   (CConstPtr "cv::_OutputArray", "filtered_disparity_map");
                   (CConstPtr "cv::_InputArray", "disparity_map_right");
                   (CConstPtr "cv::Rect", "ROI");
                   (CConstPtr "cv::_InputArray", "right_view")];
     ep_body := Try (CallMethod "instance" "filter" [Deref "disparity_map_left"; Deref "left_view"; Deref "filtered_disparity_map"; Deref "disparity_map_right"; Deref "ROI"; Deref "right_view"]) OkUnit |}.

Definition cv_ximgproc_DisparityWLSFilter_getLambda : entry_point :=
  {| ep_ret := CResult CDouble;
     ep_params := [(CPtr "cv::ximgproc::DisparityWLSFilter", "instance")];
     ep_body := Try (CallMethod "instance" "getLambda" []) OkRet |}.

Definition cv_ximgproc_DisparityWLSFilter_setLambda_double : entry_point :=
  {| ep_ret := CResult_void;
     ep_params := [(CPtr "cv::ximgproc::DisparityWLSFilter", "instance");
                   (CDouble, "_lambda")];
     ep_body := Try (CallMethod "instance" "setLambda" [Val "_lambda"]) OkUnit |}.

Definition cv_ximgproc_DisparityWLSFilter_getSigmaColor : entry_point :=
  {| ep_ret := CResult CDouble;
     ep_params := [(CPtr "cv::ximgproc::DisparityWLSFilter", "instance")];
     ep_body := Try (CallMethod "instance" "getSigmaColor" []) OkRet |}.

Definition cv_ximgproc_DisparityWLSFilter_setSigmaColor_double : entry_point :=
  {| ep_ret := CResult_void;
     ep_params := [(CPtr "cv::ximgproc::DisparityWLSFilter", "instance");
                   (CDouble, "_sigma_color")];
     ep_body := Try (CallMethod "instance" "setSigmaColor" [Val "_sigma_color"]) OkUnit |}.

Definition cv_ximgproc_DisparityWLSFilter_getLRCthresh : entry_point :=
  {| ep_ret := CResult CInt;
     ep_params := [(CPtr "cv::ximgproc::DisparityWLSFilter", "instance")];
     ep_body := Try (CallMethod "instance" "getLRCthresh" []) OkRet |}.

Definition cv_ximgproc_DisparityWLSFilter_setLRCthresh_int : entry_point :=
  {| ep_ret := CResult_void;
     ep_params := [(CPtr "cv::ximgproc::DisparityWLSFilter", "instance");
                   (CInt, "_LRC_thresh")];
     ep_body := Try (CallMethod "instance" "setLRCthresh" [Val "_LRC_thresh"]) OkUnit |}.

Definition cv_ximgproc_DisparityWLSFilter_getDepthDiscontinuityRadius : entry_point :=
  {| ep_ret := CResult CInt;
     ep_params := [(CPtr "cv::ximgproc::DisparityWLSFilter", "instance")];
     ep_body := Try (CallMethod "instance" "getDepthDiscontinuityRadius" []) OkRet |}.

Definition cv_ximgproc_DisparityWLSFilter_setDepthDiscontinuityRadius_int : entry_point :=
  {| ep_ret := CResult_void;
     ep_params := [(CPtr "cv::ximgproc::DisparityWLSFilter", "instance");
                   (CInt, "_disc_radius")];
     ep_body := Try (CallMethod "instance" "setDepthDiscontinuityRadius" [Val "_disc_radius"]) OkUnit |}.

Definition cv_ximgproc_DisparityWLSFilter_getConfidenceMap : entry_point :=
  {| ep_ret := CResult (CPtr "cv::Mat");
     ep_params := [(CPtr "cv::ximgproc::DisparityWLSFilter", "instance")];
     ep_body := Try (CallMethod "instance" "getConfidenceMap" []) (OkNew "cv::Mat") |}.

Definition cv_ximgproc_DisparityWLSFilter_getROI : entry_point :=
  {| ep_ret := CResult (CNamed "cv::Rect");
     ep_params := [(CPtr "cv::ximgproc::DisparityWLSFilter", "instance")];
     ep_body := Try (CallMethod "instance" "getROI" []) OkRet |}.

Definition cv_ximgproc_EdgeAwareInterpolator_setK_int : entry_point :=
  {| ep_ret := CResult_void;
     ep_params := [(CPtr "cv::ximgproc::EdgeAwareInterpolator", "instance");
                   (CInt, "_k")];
     ep_body := Try (CallMethod "instance" "setK" [Val "_k"]) OkUnit |}.

Definition cv_ximgproc_EdgeAwareInterpolator_getK : entry_point :=
  {| ep_ret := CResult CInt;
     ep_params := [(CPtr "cv::ximgproc::EdgeAwareInterpolator", "instance")];
     ep_body := Try (CallMethod "instance" "getK" []) OkRet |}.

Definition cv_ximgproc_EdgeAwareInterpolator_setSigma_float : entry_point :=
  {| ep_ret := CResult_void;
     ep_params := [(CPtr "cv::ximgproc::EdgeAwareInterpolator", "instance");
                   (CFloat, "_sigma")];
     ep_body := Try (CallMethod "instance" "setSigma" [Val "_sigma"]) OkUnit |}.

Definition cv_ximgproc_EdgeAwareInterpolator_getSigma : entry_point :=
  {| ep_ret := CResult CFloat;
     ep_params := [(CPtr "cv::ximgproc::EdgeAwareInterpolator", "instance")];
     ep_body := Try (CallMethod "instance" "getSigma" []) OkRet |}.

Definition cv_ximgproc_EdgeAwareInterpolator_setLambda_float : entry_point :=
  {| ep_ret := CResult_void;
     ep_params := [(CPtr "cv::ximgproc::EdgeAwareInterpolator", "instance");
                   (CFloat, "_lambda")];
     ep_body := Try (CallMethod "instance" "setLambda" [Val "_lambda"]) OkUnit |}.

Definition cv_ximgproc_EdgeAwareInterpolator_getLambda : entry_point :=
  {| ep_ret := CResult CFloat;
     ep_params := [(CPtr "cv::ximgproc::EdgeAwareInterpolator", "instance")];
     ep_body := Try (CallMethod "instance" "getLambda" []) OkRet |}.

Definition cv_ximgproc_EdgeAwareInterpolator_setUsePostProcessing_bool : entry_point :=
  {| ep_ret := CResult_void;
     ep_params := [(CPtr "cv::ximgproc::EdgeAwareInterpolator", "instance");
                   (CBool, "_use_post_proc")];
     ep_body := Try (CallMethod "instance" "setUsePostProcessing" [Val "_use_post_proc"]) OkUnit |}.

Definition cv_ximgproc_EdgeAwareInterpolator_getUsePostProcessing : entry_point :=
  {| ep_ret := CResult CBool;
     ep_params := [(CPtr "cv::ximgproc::EdgeAwareInterpolator", "instance")];
     ep_body := Try (CallMethod "instance" "getUsePostProcessing" []) OkRet |}.

Definition cv_ximgproc_EdgeAwareInterpolator_setFGSLambda_float : entry_point :=
  {| ep_ret := CResult_void;
     ep_params := [(CPtr "cv::ximgproc::EdgeAwareInterpolator", "instance");
                   (CFloat, "_lambda")];
     ep_body := Try (CallMethod "instance" "setFGSLambda" [Val "_lambda"]) OkUnit |}.

Definition cv_ximgproc_EdgeAwareInterpolator_getFGSLambda : entry_point :=
  {| ep_ret := CResult CFloat;
     ep_params := [(CPtr "cv::ximgproc::EdgeAwareInterpolator", "instance")];
     ep_body := Try (CallMethod "instance" "getFGSLambda" []) OkRet |}.

Definition cv_ximgproc_EdgeAwareInterpolator_setFGSSigma_float : entry_point :=
  {| ep_ret := CResult_void;
     ep_params := [(CPtr "cv::ximgproc::EdgeAwareInterpolator", "instance");
                   (CFloat, "_sigma")];
     ep_body := Try (CallMethod "instance" "setFGSSigma" [Val "_sigma"]) OkUnit |}.

Definition cv_ximgproc_EdgeAwareInterpolator_getFGSSigma : entry_point :=
  {| ep_ret := CResult CFloat;
     ep_params := [(CPtr "cv::ximgproc::EdgeAwareInterpolator", "instance")];
     ep_body := Try (CallMethod "instance" "getFGSSigma" []) OkRet |}.

Definition cv_ximgproc_FastGlobalSmootherFilter_filter_const__InputArrayR_const__OutputArrayR : entry_point :=
  {| ep_ret := CResult_void;
     ep_params := [(CPtr "cv::ximgproc::FastGlobalSmootherFilter", "instance");
                   (CConstPtr "cv::_InputArray", "src");
                   (CConstPtr "cv::_OutputArray", "dst")];
     ep_body := Try (CallMethod "instance" "filter" [Deref "src"; Deref "dst"]) OkUnit |}.

Definition cv_ximgproc_FastLineDetector_detect_const__InputArrayR_const__OutputArrayR : entry_point :=
  {| ep_ret := CResult_void;
     ep_params := [(CPtr "cv::ximgproc::FastLineDetector", "instance");
                   (CConstPtr "cv::_InputArray", "_image");
                   (CConstPtr "cv::_OutputArray", "_lines")];
     ep_body := Try (CallMethod "instance" "detect" [Deref "_image"; Deref "_lines"]) OkUnit |}.

Definition cv_ximgproc_FastLineDetector_drawSegments_const__InputOutputArrayR_const__InputArrayR_bool : entry_point :=
  {| ep_ret := CResult_void;
     ep_params := [(CPtr "cv::ximgproc::FastLineDetector", "instance");
                   (CConstPtr "cv::_InputOutputArray", "_image");
                   (CConstPtr "cv::_InputArray", "lines");
                   (CBool, "draw_arrow")];
     ep_body := Try (CallMethod "instance" "drawSegments" [Deref "_image"; Deref "lines"; Val "draw_arrow"]) OkUnit |}.

Definition cv_ximgproc_GuidedFilter_filter_const__InputArrayR_const__OutputArrayR_int : entry_point :=
  {| ep_ret := CResult_void;
     ep_params := [(CPtr "cv::ximgproc::GuidedFilter", "instance");
                   (CConstPtr "cv::_InputArray", "src");
                   (CConstPtr "cv::_OutputArray", "dst");
                   (CInt, "dDepth")];
     ep_body := Try (CallMethod "instance" "filter" [Deref "src"; Deref "dst"; Val "dDepth"]) OkUnit |}.

Definition cv_ximgproc_RFFeatureGetter_getFeatures_const_const_MatR_MatR_int_int_int_int_int : entry_point :=
  {| ep_ret := CResult_void;
     ep_params := [(CConstPtr "cv::ximgproc::RFFeatureGetter", "instance");
                   (CConstPtr "cv::Mat", "src");
                   (CPtr "cv::Mat", "features");
                   (CInt, "gnrmRad");
                   (CInt, "gsmthRad");
                   (CInt, "shrink");
                   (CInt, "outNum");
                   (CInt, "gradNum")];
     ep_body := Try (CallMethod "instance" "getFeatures" [Deref "src"; Deref "features"; Val "gnrmRad"; Val "gsmthRad"; Val "shrink"; Val "outNum"; Val "gradNum"]) OkUnit |}.

Definition cv_ximgproc_SparseMatchInterpolator_interpolate_const__InputArrayR_const__InputArrayR_const__InputArrayR_const__InputArrayR_const__OutputArrayR : entry_point :=
  {| ep_ret := CResult_void;
     ep_params := [(CPtr "cv::ximgproc::SparseMatchInterpolator", "instance");
                   (CConstPtr "cv::_InputArray", "from_image");
                   (CConstPtr "cv::_InputArray", "from_points");
                   (CConstPtr "cv::_InputArray", "to_image");
                   (CConstPtr "cv::_InputArray", "to_points");
                   (CConstPtr "cv::_OutputArray", "dense_flow")];
     ep_body := Try (CallMethod "instance" "interpolate" [Deref "from_image"; Deref "from_points"; Deref "to_image"; Deref "to_points"; Deref "dense_flow"]) OkUnit |}.

Definition cv_ximgproc_StructuredEdgeDetection_detectEdges_const_const_MatR_MatR : entry_point :=
  {| ep_ret := CResult_void;
     ep_params := [(CConstPtr "cv::ximgproc::StructuredEdgeDetection", "instance");
                   (CConstPtr "cv::Mat", "src");
                   (CPtr "cv::Mat", "dst")];
     ep_body := Try (CallMethod "instance" "detectEdges" [Deref "src"; Deref "dst"]) OkUnit |}.

Definition cv_ximgproc_SuperpixelLSC_getNumberOfSuperpixels_const : entry_point :=
  {| ep_ret := CResult CInt;
     ep_params := [(CConstPtr "cv::ximgproc::SuperpixelLSC", "instance")];
     ep_body := Try (CallMethod "instance" "getNumberOfSuperpixels" []) OkRet |}.

Definition cv_ximgproc_SuperpixelLSC_iterate_int : entry_point :=
  {| ep_ret := CResult_void;
     ep_params := [(CPtr "cv::ximgproc::SuperpixelLSC", "instance");
                   (CInt, "num_iterations")];
     ep_body := Try (CallMethod "instance" "iterate" [Val "num_iterations"]) OkUnit |}.

Definition cv_ximgproc_SuperpixelLSC_getLabels_const_const__OutputArrayR : entry_point :=
  {| ep_ret := CResult_void;
     ep_params := [(CConstPtr "cv::ximgproc::SuperpixelLSC", "instance");
                   (CConstPtr "cv::_OutputArray", "labels_out")];
     ep_body := Try (CallMethod "instance" "getLabels" [Deref "labels_out"]) OkUnit |}.

Definition cv_ximgproc_SuperpixelLSC_getLabelContourMask_const_const__OutputArrayR_bool : entry_point :=
  {| ep_ret := CResult_void;
     ep_params := [(CConstPtr "cv::ximgproc::SuperpixelLSC", "instance");
                   (CConstPtr "cv::_OutputArray", "image");
                   (CBool, "thick_line")];
     ep_body := Try (CallMethod "instance" "getLabelContourMask" [Deref "image"; Val "thick_line"]) OkUnit |}.

Definition cv_ximgproc_SuperpixelLSC_enforceLabelConnectivity_int : entry_point :=
  {| ep_ret := CResult_void;
     ep_params := [(CPtr "cv::ximgproc::SuperpixelLSC", "instance");
                   (CInt, "min_element_size")];
     ep_body := Try (CallMethod "instance" "enforceLabelConnectivity" [Val "min_element_size"]) OkUnit |}.

Definition cv_ximgproc_SuperpixelSEEDS_getNumberOfSuperpixels : entry_point :=
  {| ep_ret := CResult CInt;
     ep_params := [(CPtr "cv::ximgproc::SuperpixelSEEDS", "instance")];
     ep_body := Try (CallMethod "instance" "getNumberOfSuperpixels" []) OkRet |}.

Definition cv_ximgproc_SuperpixelSEEDS_iterate_const__InputArrayR_int : entry_point :=
  {| ep_ret := CResult_void;
     ep_params := [(CPtr "cv::ximgproc::SuperpixelSEEDS", "instance");
                   (CConstPtr "cv::_InputArray", "img");
                   (CInt, "num_iterations")];
     ep_body := Try (CallMethod "instance" "iterate" [Deref "img"; Val "num_iterations"]) OkUnit |}.

Definition cv_ximgproc_SuperpixelSEEDS_getLabels_const__OutputArrayR : entry_point :=
  {| ep_ret := CResult_void;
     ep_params := [(CPtr "cv::ximgproc::SuperpixelSEEDS", "instance");
                   (CConstPtr "cv::_OutputArray", "labels_out")];
     ep_body := Try (CallMethod "instance" "getLabels" [Deref "labels_out"]) OkUnit |}.

Definition cv_ximgproc_SuperpixelSEEDS_getLabelContourMask_const__OutputArrayR_bool : entry_point :=
  {| ep_ret := CResult_void;
     ep_params := [(CPtr "cv::ximgproc::SuperpixelSEEDS", "instance");
                   (CConstPtr "cv::_OutputArray", "image");
                   (CBool, "thick_line")];
     ep_body := Try (CallMethod "instance" "getLabelContourMask" [Deref "image"; Val "thick_line"]) OkUnit |}.

Definition cv_ximgproc_SuperpixelSLIC_getNumberOfSuperpixels_const : entry_point :=
  {| ep_ret := CResult CInt;
     ep_params := [(CConstPtr "cv::ximgproc::SuperpixelSLIC", "instance")];
     ep_body := Try (CallMethod "instance" "getNumberOfSuperpixels" []) OkRet |}.

Definition cv_ximgproc_SuperpixelSLIC_iterate_int : entry_point :=
  {| ep_ret := CResult_void;
     ep_params := [(CPtr "cv::ximgproc::SuperpixelSLIC", "instance");
                   (CInt, "num_iterations")];
     ep_body := Try (CallMethod "instance" "iterate" [Val "num_iterations"]) OkUnit |}.

Definition cv_ximgproc_SuperpixelSLIC_getLabels_const_const__OutputArrayR : entry_point :=
  {| ep_ret := CResult_void;
     ep_params := [(CConstPtr "cv::ximgproc::SuperpixelSLIC", "instance");
                   (CConstPtr "cv::_OutputArray", "labels_out")];
     ep_body := Try (CallMethod "instance" "getLabels" [Deref "labels_out"]) OkUnit |}.

Definition cv_ximgproc_SuperpixelSLIC_getLabelContourMask_const_const__OutputArrayR_bool : entry_point :=
  {| ep_ret := CResult_void;
     ep_params := [(CConstPtr "cv::ximgproc::SuperpixelSLIC", "instance");
                   (CConstPtr "cv::_OutputArray", "image");
                   (CBool, "thick_line")];
     ep_body := Try (CallMethod "instance" "getLabelContourMask" [Deref "image"; Val "thick_line"]) OkUnit |}.

Definition cv_ximgproc_SuperpixelSLIC_enforceLabelConnectivity_int : entry_point :=
  {| ep_ret := CResult_void;
     ep_params := [(CPtr "cv::ximgproc::SuperpixelSLIC", "instance");
                   (CInt, "min_element_size")];
     ep_body := Try (CallMethod "instance" "enforceLabelConnectivity" [Val "min_element_size"]) OkUnit |}.

Definition cv_ximgproc_segmentation_GraphSegmentation_processImage_const__InputArrayR_const__OutputArrayR : entry_point :=
  {| ep_ret := CResult_void;
     ep_params := [(CPtr "cv::ximgproc::segmentation::GraphSegmentation", "instance");
                   (CConstPtr "cv::_InputArray", "src");
                   (CConstPtr "cv::_OutputArray", "dst")];
     ep_body := Try (CallMethod "instance" "processImage" [Deref "src"; Deref "dst"]) OkUnit |}.

Definition cv_ximgproc_segmentation_GraphSegmentation_setSigma_double : entry_point :=
  {| ep_ret := CResult_void;
     ep_params := [(CPtr "cv::ximgproc::segmentation::GraphSegmentation", "instance");
                   (CDouble, "sigma")];
     ep_body := Try (CallMethod "instance" "setSigma" [Val "sigma"]) OkUnit |}.

Definition cv_ximgproc_segmentation_GraphSegmentation_getSigma : entry_point :=
  {| ep_ret := CResult CDouble;
     ep_params := [(CPtr "cv::ximgproc::segmentation::GraphSegmentation", "instance")];
     ep_body := Try (CallMethod "instance" "getSigma" []) OkRet |}.

Definition cv_ximgproc_segmentation_GraphSegmentation_setK_float : entry_point :=
  {| ep_ret := CResult_void;
     ep_params := [(CPtr "cv::ximgproc::segmentation::GraphSegmentation", "instance");
                   (CFloat, "k")];
     ep_body := Try (CallMethod "instance" "setK" [Val "k"]) OkUnit |}.

Definition cv_ximgproc_segmentation_GraphSegmentation_getK : entry_point :=
  {| ep_ret := CResult CFloat;
     ep_params := [(CPtr "cv::ximgproc::segmentation::GraphSegmentation", "instance")];
     ep_body := Try (CallMethod "instance" "getK" []) OkRet |}.

Definition cv_ximgproc_segmentation_GraphSegmentation_setMinSize_int : entry_point :=
  {| ep_ret := CResult_void;
     ep_params := [(CPtr "cv::ximgproc::segmentation::GraphSegmentation", "instance");
                   (CInt, "min_size")];
     ep_body := Try (CallMethod "instance" "setMinSize" [Val "min_size"]) OkUnit |}.

Definition cv_ximgproc_segmentation_GraphSegmentation_getMinSize : entry_point :=
  {| ep_ret := CResult CInt;
     ep_params := [(CPtr "cv::ximgproc::segmentation::GraphSegmentation", "instance")];
     ep_body := Try (CallMethod "instance" "getMinSize" []) OkRet |}.

Definition cv_ximgproc_segmentation_SelectiveSearchSegmentation_setBaseImage_const__InputArrayR : entry_point :=
  {| ep_ret := CResult_void;
     ep_params := [(CPtr "cv::ximgproc::segmentation::SelectiveSearchSegmentation", "instance");
                   (CConstPtr "cv::_InputArray", "img")];
     ep_body := Try (CallMethod "instance" "setBaseImage" [Deref "img"]) OkUnit |}.

Definition cv_ximgproc_segmentation_SelectiveSearchSegmentation_switchToSingleStrategy_int_float : entry_point :=
  {| ep_ret := CResult_void;
     ep_params := [(CPtr "cv::ximgproc::segmentation::SelectiveSearchSegmentation", "instance");
                   (CInt, "k");
                   (CFloat, "sigma")];
     ep_body := Try (CallMethod "instance" "switchToSingleStrategy" [Val "k"; Val "sigma"]) OkUnit |}.

Definition cv_ximgproc_segmentation_SelectiveSearchSegmentation_switchToSelectiveSearchFast_int_int_float : entry_point :=
  {| ep_ret := CResult_void;
     ep_params := [(CPtr "cv::ximgproc::segmentation::SelectiveSearchSegmentation", "instance");
                   (CInt, "base_k");
                   (CInt, "inc_k");
                   (CFloat, "sigma")];
     ep_body := Try (CallMethod "instance" "switchToSelectiveSearchFast" [Val "base_k"; Val "inc_k"; Val "sigma"]) OkUnit |}.

Definition cv_ximgproc_segmentation_SelectiveSearchSegmentation_switchToSelectiveSearchQuality_int_int_float : entry_point :=
  {| ep_ret := CResult_void;
     ep_params := [(CPtr "cv::ximgproc::segmentation::SelectiveSearchSegmentation", "instance");
                   (CInt, "base_k");
                   (CInt, "inc_k");
                   (CFloat, "sigma")];
     ep_body := Try (CallMethod "instance" "switchToSelectiveSearchQuality" [Val "base_k"; Val "inc_k"; Val "sigma"]) OkUnit |}.

Definition cv_ximgproc_segmentation_SelectiveSearchSegmentation_addImage_const__InputArrayR : entry_point :=
  {| ep_ret := CResult_void;
     ep_params := [(CPtr "cv::ximgproc::segmentation::SelectiveSearchSegmentation", "instance");
                   (CConstPtr "cv::_InputArray", "img")];
     ep_body := Try (CallMethod "instance" "addImage" [Deref "img"]) OkUnit |}.

Definition cv_ximgproc_segmentation_SelectiveSearchSegmentation_clearImages : entry_point :=
  {| ep_ret := CResult_void;
     ep_params := [(CPtr "cv::ximgproc::segmentation::SelectiveSearchSegmentation", "instance")];
     ep_body := Try (CallMethod "instance" "clearImages" []) OkUnit |}.

Definition cv_ximgproc_segmentation_SelectiveSearchSegmentation_addGraphSegmentation_Ptr_GraphSegmentation_ : entry_point :=
  {| ep_ret := CResult_void;
     ep_params := [(CPtr "cv::ximgproc::segmentation::SelectiveSearchSegmentation", "instance");
                   (CPtr "cv::Ptr<cv::ximgproc::segmentation::GraphSegmentation>", "g")];
     ep_body := Try (CallMethod "instance" "addGraphSegmentation" [Deref "g"]) OkUnit |}.

Definition cv_ximgproc_segmentation_SelectiveSearchSegmentation_clearGraphSegmentations : entry_point :=
  {| ep_ret := CResult_void;
     ep_params := [(CPtr "cv::ximgproc::segmentation::SelectiveSearchSegmentation", "instance")];
     ep_body := Try (CallMethod "instance" "clearGraphSegmentations" []) OkUnit |}.

Definition cv_ximgproc_segmentation_SelectiveSearchSegmentation_addStrategy_Ptr_SelectiveSearchSegmentationStrategy_ : entry_point :=
  {| ep_ret := CResult_void;
     ep_params := [(CPtr "cv::ximgproc::segmentation::SelectiveSearchSegmentation", "instance");
                   (CPtr "cv::Ptr<cv::ximgproc::segmentation::SelectiveSearchSegmentationStrategy>", "s")];
     ep_body := Try (CallMethod "instance" "addStrategy" [Deref "s"]) OkUnit |}.

Definition cv_ximgproc_segmentation_SelectiveSearchSegmentation_clearStrategies : entry_point :=
  {| ep_ret := CResult_void;
     ep_params := [(CPtr "cv::ximgproc::segmentation::SelectiveSearchSegmentation", "instance")];
     ep_body := Try (CallMethod "instance" "clearStrategies" []) OkUnit |}.

Definition cv_ximgproc_segmentation_SelectiveSearchSegmentation_process_vector_Rect_R : entry_point :=
  {| ep_ret := CResult_void;
     ep_params := [(CPtr "cv::ximgproc::segmentation::SelectiveSearchSegmentation", "instance");
                   (CPtr "std::vector<cv::Rect>", "rects")];
     ep_body := Try (CallMethod "instance" "process" [Deref "rects"]) OkUnit |}.

Definition cv_ximgproc_segmentation_SelectiveSearchSegmentationStrategy_setImage_const__InputArrayR_const__InputArrayR_const__InputArrayR_int : entry_point :=
  {| ep_ret := CResult_void;
     ep_params := [(CPtr "cv::ximgproc::segmentation::SelectiveSearchSegmentationStrategy", "instance");
                   (CConstPtr "cv::_InputArray", "img");
                   (CConstPtr "cv::_InputArray", "regions");
                   (CConstPtr "cv::_InputArray", "sizes");
                   (CInt, "image_id")];
     ep_body := Try (CallMethod "instance" "setImage" [Deref "img"; Deref "regions"; Deref "sizes"; Val "image_id"]) OkUnit |}.

Definition cv_ximgproc_segmentation_SelectiveSearchSegmentationStrategy_get_int_int : entry_point :=
  {| ep_ret := CResult CFloat;
     ep_params := [(CPtr "cv::ximgproc::segmentation::SelectiveSearchSegmentationStrategy", "instance");
                   (CInt, "r1");
                   (CInt, "r2")];
     ep_body := Try (CallMethod "instance" "get" [Val "r1"; Val "r2"]) OkRet |}.

Definition cv_ximgproc_segmentation_SelectiveSearchSegmentationStrategy_merge_int_int : entry_point :=
  {| ep_ret := CResult_void;
     ep_params := [(CPtr "cv::ximgproc::segmentation::SelectiveSearchSegmentationStrategy", "instance");
                   (CInt, "r1");
                   (CInt, "r2")];
     ep_body := Try (CallMethod "instance" "merge" [Val "r1"; Val "r2"]) OkUnit |}.

Definition cv_ximgproc_segmentation_SelectiveSearchSegmentationStrategyMultiple_addStrategy_Ptr_SelectiveSearchSegmentationStrategy__float : entry_point :=
  {| ep_ret := CResult_void;
     ep_params := [(CPtr "cv::ximgproc::segmentation::SelectiveSearchSegmentationStrategyMultiple", "instance");
                   (CPtr "cv::Ptr<cv::ximgproc::segmentation::SelectiveSearchSegmentationStrategy>", "g");
                   (CFloat, "weight")];
     ep_body := Try (CallMethod "instance" "addStrategy" [Deref "g"; Val "weight"]) OkUnit |}.

Definition cv_ximgproc_segmentation_SelectiveSearchSegmentationStrategyMultiple_clearStrategies : entry_point :=
  {| ep_ret := CResult_void;
     ep_params := [(CPtr "cv::ximgproc::segmentation::SelectiveSearchSegmentationStrategyMultiple", "instance")];
     ep_body := Try (CallMethod "instance" "clearStrategies" []) OkUnit |}.

Definition entry_points : list entry_point :=
  [ cv_ximgproc_FastHoughTransform_const__InputArrayR_const__OutputArrayR_int_int_int_int;
    cv_ximgproc_GradientDericheX_const__InputArrayR_const__OutputArrayR_double_double;
    cv_ximgproc_GradientDericheY_const__InputArrayR_const__OutputArrayR_double_double;
    cv_ximgproc_GradientPaillouX_const__InputArrayR_const__OutputArrayR_double_double;
    cv_ximgproc_GradientPaillouY_const__InputArrayR_const__OutputArrayR_double_double;
    cv_ximgproc_HoughPoint2Line_const_PointR_const__InputArrayR_int_int_int;
    cv_ximgproc_amFilter_const__InputArrayR_const__InputArrayR_const__OutputArrayR_double_double_bool;
    cv_ximgproc_bilateralTextureFilter_const__InputArrayR_const__OutputArrayR_int_int_double_double;
    cv_ximgproc_computeBadPixelPercent_const__InputArrayR_const__InputArrayR_Rect_int;
    cv_ximgproc_computeMSE_const__InputArrayR_const__InputArrayR_Rect;
    cv_ximgproc_covarianceEstimation_const__InputArrayR_const__OutputArrayR_int_int;
    cv_ximgproc_createAMFilter_double_double_bool;
    cv_ximgproc_createDTFilter_const__InputArrayR_double_double_int_int;
    cv_ximgproc_createDisparityWLSFilterGeneric_bool;
    cv_ximgproc_createDisparityWLSFilter_Ptr_StereoMatcher_;
    cv_ximgproc_createEdgeAwareInterpolator;
    cv_ximgproc_createFastGlobalSmootherFilter_const__InputArrayR_double_double_double_int;
    cv_ximgproc_createFastLineDetector_int_float_double_double_int_bool;
    cv_ximgproc_createGuidedFilter_const__InputArrayR_int_double;
    cv_ximgproc_createRFFeatureGetter;
    cv_ximgproc_createRightMatcher_Ptr_StereoMatcher_;
    cv_ximgproc_createStructuredEdgeDetection_const_StringR_Ptr_RFFeatureGetter_;
    cv_ximgproc_createSuperpixelLSC_const__InputArrayR_int_float;
    cv_ximgproc_createSuperpixelSEEDS_int_int_int_int_int_int_int_bool;
    cv_ximgproc_createSuperpixelSLIC_const__InputArrayR_int_int_float;
    cv_ximgproc_dtFilter_const__InputArrayR_const__InputArrayR_const__OutputArrayR_double_double_int_int;
    cv_ximgproc_fastGlobalSmootherFilter_const__InputArrayR_const__InputArrayR_const__OutputArrayR_double_double_double_int;
    cv_ximgproc_getDisparityVis_const__InputArrayR_const__OutputArrayR_double;
    cv_ximgproc_guidedFilter_const__InputArrayR_const__InputArrayR_const__OutputArrayR_int_double_int;
    cv_ximgproc_jointBilateralFilter_const__InputArrayR_const__InputArrayR_const__OutputArrayR_int_double_double_int;
    cv_ximgproc_l0Smooth_const__InputArrayR_const__OutputArrayR_double_double;
    cv_ximgproc_niBlackThreshold_const__InputArrayR_const__OutputArrayR_double_int_int_double;
    cv_ximgproc_readGT_String_const__OutputArrayR;
    cv_ximgproc_rollingGuidanceFilter_const__InputArrayR_const__OutputArrayR_int_double_double_int_int;
    cv_ximgproc_segmentation_createGraphSegmentation_double_float_int;
    cv_ximgproc_segmentation_createSelectiveSearchSegmentation;
    cv_ximgproc_segmentation_createSelectiveSearchSegmentationStrategyColor;
    cv_ximgproc_segmentation_createSelectiveSearchSegmentationStrategyFill;
    cv_ximgproc_segmentation_createSelectiveSearchSegmentationStrategyMultiple;
    cv_ximgproc_segmentation_createSelectiveSearchSegmentationStrategyMultiple_Ptr_SelectiveSearchSegmentationStrategy_;
    cv_ximgproc_segmentation_createSelectiveSearchSegmentationStrategyMultiple_Ptr_SelectiveSearchSegmentationStrategy__Ptr_SelectiveSearchSegmentationStrategy_;
    cv_ximgproc_segmentation_createSelectiveSearchSegmentationStrategyMultiple_Ptr_SelectiveSearchSegmentationStrategy__Ptr_SelectiveSearchSegmentationStrategy__Ptr_SelectiveSearchSegmentationStrategy_;
    cv_ximgproc_segmentation_createSelectiveSearchSegmentationStrategyMultiple_Ptr_SelectiveSearchSegmentationStrategy__Ptr_SelectiveSearchSegmentationStrategy__Ptr_SelectiveSearchSegmentationStrategy__Ptr_SelectiveSearchSegmentationStrategy_;
    cv_ximgproc_segmentation_createSelectiveSearchSegmentationStrategySize;
    cv_ximgproc_segmentation_createSelectiveSearchSegmentationStrategyTexture;
    cv_ximgproc_thinning_const__InputArrayR_const__OutputArrayR_int;
    cv_ximgproc_weightedMedianFilter_const__InputArrayR_const__InputArrayR_const__OutputArrayR_int_double_WMFWeightType_Mat;
    cv_ximgproc_AdaptiveManifoldFilter_filter_const__InputArrayR_const__OutputArrayR_const__InputArrayR;
    cv_ximgproc_AdaptiveManifoldFilter_collectGarbage;
    cv_ximgproc_AdaptiveManifoldFilter_create;
    cv_ximgproc_AdaptiveManifoldFilter_getSigmaS_const;
    cv_ximgproc_AdaptiveManifoldFilter_setSigmaS_double;
    cv_ximgproc_AdaptiveManifoldFilter_getSigmaR_const;
    cv_ximgproc_AdaptiveManifoldFilter_setSigmaR_double;
    cv_ximgproc_AdaptiveManifoldFilter_getTreeHeight_const;
    cv_ximgproc_AdaptiveManifoldFilter_setTreeHeight_int;
    cv_ximgproc_AdaptiveManifoldFilter_getPCAIterations_const;
    cv_ximgproc_AdaptiveManifoldFilter_setPCAIterations_int;
    cv_ximgproc_AdaptiveManifoldFilter_getAdjustOutliers_const;
    cv_ximgproc_AdaptiveManifoldFilter_setAdjustOutliers_bool;
    cv_ximgproc_AdaptiveManifoldFilter_getUseRNG_const;
    cv_ximgproc_AdaptiveManifoldFilter_setUseRNG_bool;
    cv_ximgproc_DTFilter_filter_const__InputArrayR_const__OutputArrayR_int;
    cv_ximgproc_DisparityFilter_filter_const__InputArrayR_const__InputArrayR_const__OutputArrayR_const__InputArrayR_Rect_const__InputArrayR;
    cv_ximgproc_DisparityWLSFilter_getLambda;
    cv_ximgproc_DisparityWLSFilter_setLambda_double;
    cv_ximgproc_DisparityWLSFilter_getSigmaColor;
    cv_ximgproc_DisparityWLSFilter_setSigmaColor_double;
    cv_ximgproc_DisparityWLSFilter_getLRCthresh;
    cv_ximgproc_DisparityWLSFilter_setLRCthresh_int;
    cv_ximgproc_DisparityWLSFilter_getDepthDiscontinuityRadius;
    cv_ximgproc_DisparityWLSFilter_setDepthDiscontinuityRadius_int;
    cv_ximgproc_DisparityWLSFilter_getConfidenceMap;
    cv_ximgproc_DisparityWLSFilter_getROI;
    cv_ximgproc_EdgeAwareInterpolator_setK_int;
    cv_ximgproc_EdgeAwareInterpolator_getK;
    cv_ximgproc_EdgeAwareInterpolator_setSigma_float;
    cv_ximgproc_EdgeAwareInterpolator_getSigma;
    cv_ximgproc_EdgeAwareInterpolator_setLambda_float;
    cv_ximgproc_EdgeAwareInterpolator_getLambda;
    cv_ximgproc_EdgeAwareInterpolator_setUsePostProcessing_bool;
    cv_ximgproc_EdgeAwareInterpolator_getUsePostProcessing;
    cv_ximgproc_EdgeAwareInterpolator_setFGSLambda_float;
    cv_ximgproc_EdgeAwareInterpolator_getFGSLambda;
    cv_ximgproc_EdgeAwareInterpolator_setFGSSigma_float;
    cv_ximgproc_EdgeAwareInterpolator_getFGSSigma;
    cv_ximgproc_FastGlobalSmootherFilter_filter_const__InputArrayR_const__OutputArrayR;
    cv_ximgproc_FastLineDetector_detect_const__InputArrayR_const__OutputArrayR;
    cv_ximgproc_FastLineDetector_drawSegments_const__InputOutputArrayR_const__InputArrayR_bool;
    cv_ximgproc_GuidedFilter_filter_const__InputArrayR_const__OutputArrayR_int;
    cv_ximgproc_RFFeatureGetter_getFeatures_const_const_MatR_MatR_int_int_int_int_int;
    cv_ximgproc_SparseMatchInterpolator_interpolate_const__InputArrayR_const__InputArrayR_const__InputArrayR_const__InputArrayR_const__OutputArrayR;
    cv_ximgproc_StructuredEdgeDetection_detectEdges_const_const_MatR_MatR;
    cv_ximgproc_SuperpixelLSC_getNumberOfSuperpixels_const;
    cv_ximgproc_SuperpixelLSC_iterate_int;
    cv_ximgproc_SuperpixelLSC_getLabels_const_const__OutputArrayR;
    cv_ximgproc_SuperpixelLSC_getLabelContourMask_const_const__OutputArrayR_bool;
    cv_ximgproc_SuperpixelLSC_enforceLabelConnectivity_int;
    cv_ximgproc_SuperpixelSEEDS_getNumberOfSuperpixels;
    cv_ximgproc_SuperpixelSEEDS_iterate_const__InputArrayR_int;
    cv_ximgproc_SuperpixelSEEDS_getLabels_const__OutputArrayR;
    cv_ximgproc_SuperpixelSEEDS_getLabelContourMask_const__OutputArrayR_bool;
    cv_ximgproc_SuperpixelSLIC_getNumberOfSuperpixels_const;
    cv_ximgproc_SuperpixelSLIC_iterate_int;
    cv_ximgproc_SuperpixelSLIC_getLabels_const_const__OutputArrayR;
    cv_ximgproc_SuperpixelSLIC_getLabelContourMask_const_const__OutputArrayR_bool;
    cv_ximgproc_SuperpixelSLIC_enforceLabelConnectivity_int;
    cv_ximgproc_segmentation_GraphSegmentation_processImage_const__InputArrayR_const__OutputArrayR;
    cv_ximgproc_segmentation_GraphSegmentation_setSigma_double;
    cv_ximgproc_segmentation_GraphSegmentation_getSigma;
    cv_ximgproc_segmentation_GraphSegmentation_setK_float;
    cv_ximgproc_segmentation_GraphSegmentation_getK;
    cv_ximgproc_segmentation_GraphSegmentation_setMinSize_int;
    cv_ximgproc_segmentation_GraphSegmentation_getMinSize;
    cv_ximgproc_segmentation_SelectiveSearchSegmentation_setBaseImage_const__InputArrayR;
    cv_ximgproc_segmentation_SelectiveSearchSegmentation_switchToSingleStrategy_int_float;
    cv_ximgproc_segmentation_SelectiveSearchSegmentation_switchToSelectiveSearchFast_int_int_float;
    cv_ximgproc_segmentation_SelectiveSearchSegmentation_switchToSelectiveSearchQuality_int_int_float;
    cv_ximgproc_segmentation_SelectiveSearchSegmentation_addImage_const__InputArrayR;
    cv_ximgproc_segmentation_SelectiveSearchSegmentation_clearImages;
    cv_ximgproc_segmentation_SelectiveSearchSegmentation_addGraphSegmentation_Ptr_GraphSegmentation_;
    cv_ximgproc_segmentation_SelectiveSearchSegmentation_clearGraphSegmentations;
    cv_ximgproc_segmentation_SelectiveSearchSegmentation_addStrategy_Ptr_SelectiveSearchSegmentationStrategy_;
    cv_ximgproc_segmentation_SelectiveSearchSegmentation_clearStrategies;
    cv_ximgproc_segmentation_SelectiveSearchSegmentation_process_vector_Rect_R;
    cv_ximgproc_segmentation_SelectiveSearchSegmentationStrategy_setImage_const__InputArrayR_const__InputArrayR_const__InputArrayR_int;
    cv_ximgproc_segmentation_SelectiveSearchSegmentationStrategy_get_int_int;
    cv_ximgproc_segmentation_SelectiveSearchSegmentationStrategy_merge_int_int;
    cv_ximgproc_segmentation_SelectiveSearchSegmentationStrategyMultiple_addStrategy_Ptr_SelectiveSearchSegmentationStrategy__float;
    cv_ximgproc_segmentation_SelectiveSearchSegmentationStrategyMultiple_clearStrategies ].

End ximgproc.

(** The boundary surface made of the two files. *)
Definition entry_points : list entry_point :=
  line_descriptor.entry_points ++ ximgproc.entry_points.

(** ** Signatures and bodies agree *)

Global Instance ctype_eq_dec : EqDecision ctype.
Proof. solve_decision. Defined.
Global Instance rtype_eq_dec : EqDecision rtype.
Proof. solve_decision. Defined.

Definition is_pointer (T : ctype) : bool :=
  match T with
  | CPtr _ | CConstPtr _ => true
  | _ => false
  end.

(** The class a field belongs to and its C type, as the accessors'
    signatures give them. *)
Definition field_class (f : field) : string :=
  match f with
  | f_numOfOctave_ | f_widthOfBand_ | f_reductionRatio | f_ksize_ =>
      "cv::line_descriptor::BinaryDescriptor::Params"
  | _ => "cv::line_descriptor::KeyLine"
  end.

Definition field_type (f : field) : ctype :=
  match f with
  | f_numOfOctave_ | f_widthOfBand_ | f_reductionRatio | f_ksize_
  | f_class_id | f_octave | f_numOfPixels => CInt
  | f_pt => CNamed "cv::Point2f"
  | _ => CFloat
  end.

(** An object of one of the two classes whose fields the layer accesses:
    what a valid handle of class [cls] points to. *)
Definition is_struct (cls : string) (obj : value) : Prop :=
  match obj with
  | VParams _ => cls = "cv::line_descriptor::BinaryDescriptor::Params"
  | VKeyLine _ => cls = "cv::line_descriptor::KeyLine"
  | _ => False
  end.

(** A C [int] has 32 bits. *)
Definition int_range (n : Z) : Prop := -2147483648 ≤ n ≤ 2147483647.

(** The values of a C type that the field accessors pass around. *)
Definition has_type (v : value) (T : ctype) : Prop :=
  match v with
  | VInt n => T = CInt ∧ int_range n
  | VFloat _ => T = CFloat
  | VPoint2f _ => T = CNamed "cv::Point2f"
  | _ => False
  end.

(** The shapes of the generated functions: the declared return type and the
    parameter list fit the body.
    - [delete instance;] in a [void] function of one pointer;
    - a field read in a [Result<T>] function of one pointer to the class,
      [T] the type of the field;
    - a field write in a [Result_void] function of the pointer and the value
      (for [pt], a pointer to the value);
    - [new T(...)] returned as it is, in a [Result<T*>] function;
    - a forwarded call whose result is dropped ([Result_void]), returned by
      value ([Result<T>], [T] no pointer) or boxed ([Result<T*>]). *)
Definition well_formed (e : entry_point) : bool :=
  match ep_body e with
  | Delete inst =>
      match ep_ret e, ep_params e with
      | Cvoid, [(CPtr _, x)] => bool_decide (x = inst)
      | _, _ => false
      end
  | Try (Load inst f) w =>
      match w, ep_ret e, ep_params e with
      | OkRet, CResult T, [(CConstPtr cls, x)] =>
          bool_decide (x = inst ∧ cls = field_class f ∧ T = field_type f)
      | _, _, _ => false
      end
  | Try (Store inst f rhs) w =>
      match w, ep_ret e, ep_params e with
      | OkUnit, CResult_void, [(CPtr cls, x); (T, y)] =>
          bool_decide (x = inst ∧ x ≠ y ∧ cls = field_class f) &&
          match rhs with
          | Val val => bool_decide (y = val ∧ T = field_type f)
          | Deref val =>
              match T, field_type f with
              | CConstPtr c, CNamed c' => bool_decide (y = val ∧ c = c')
              | _, _ => false
              end
          | Str _ => false
          end
      | _, _, _ => false
      end
  | Try (New cls _) w =>
      match w, ep_ret e with
      | OkRet, CResult (CPtr T) => bool_decide (cls = T)
      | _, _ => false
      end
  | Try (CallFree _ _ as op) w | Try (CallMethod _ _ _ as op) w =>
      match op with
      | CallMethod inst _ _ =>
          bool_decide (is_Some (type_of inst (ep_params e) ≫= pointee))
      | _ => true
      end &&
      match w, ep_ret e with
      | OkUnit, CResult_void => true
      | OkRet, CResult T => negb (is_pointer T)
      | OkNew T, CResult (CPtr T') => bool_decide (T = T')
      | _, _ => false
      end
  end.

(** ** Vocabulary of the properties *)

(** The reply of a guarded body, from the outcome of its operation. *)
Definition guarded_reply (w : wrap) (o : outcome value) : outcome reply :=
  match o with
  | Returns ret h1 =>
      match w with
      | OkUnit => Returns (Envelope (Ok VVoid)) h1
      | OkRet => Returns (Envelope (Ok ret)) h1
      | OkNew _ =>
          Returns (Envelope (Ok (VPtr (fresh_handle h1)))) (<[fresh_handle h1 := ret]> h1)
      end
  | Throws ex h1 => Returns (Envelope (Err (error_of ex))) h1
  | Undefined => Undefined
  end.

(** A native library that answers every call by returning nothing, and one
    that answers every call with the same exception. *)
Definition quiet_library : callee → list value → M value :=
  λ _ _, mret VVoid.
Definition failing_library (ex : exception) : callee → list value → M value :=
  λ _ _ h, Throws ex h.

(** What the caller holds after a normal return of the native operation with
    the value [v] on the heap [h1], by the declared return type: nothing for
    [Result_void], [v] itself for a plain value, and for [Result<T*>] a
    handle that is not null, was not in use, and behind which [v] now
    lives. *)
Definition delivered (R : rtype) (v : value) (h1 : heap) (payload : value) (h2 : heap)
  : Prop :=
  match R with
  | CResult T =>
      if is_pointer T
      then ∃ a : handle,
             payload = VPtr a ∧ a ≠ nullptr ∧ h1 !! a = None ∧ h2 = <[a := v]> h1
      else payload = v ∧ h2 = h1
  | _ => payload = VVoid ∧ h2 = h1
  end.

(** C2 as the spec states it: whatever entry point is called, what comes
    back is an envelope. *)
Definition every_reply_is_an_envelope : Prop :=
  ∀ (native : callee → list value → M value) e args h r h',
    e ∈ entry_points →
    run native e args h = Returns r h' →
    ∃ env, r = Envelope env.

(** The value a set accessor assigns, given its second argument: the
    argument itself, or the object behind it when the accessor takes a
    pointer to the value ([instance->pt = *val]). *)
Definition assigned (rhs : arg) (x : value) (h : heap) : option value :=
  match rhs with
  | Deref _ => match x with VPtr p => deref p h | _ => None end
  | _ => Some x
  end.

(** The type [T] behind the new owned handle [T*] that a construction entry
    point returns: the class it builds with [new], or the type of the cell
    it boxes the native result into. *)
Definition constructs (e : entry_point) : option string :=
  match ep_body e with
  | Try (New cls _) OkRet => Some cls
  | Try _ (OkNew T) => Some T
  | _ => None
  end.

(** The type [T] behind the handle [T*] that a destruction entry point
    takes. *)
Definition destroys (e : entry_point) : option string :=
  match ep_body e with
  | Delete inst => type_of inst (ep_params e) ≫= pointee
  | Try _ _ => None
  end.

(** The destruction entry point of the source for [T], if there is one. *)
Definition source_destructor (T : string) : option entry_point :=
  snd <$> list_find (λ d, destroys d = Some T) entry_points.

(** The types the factories box: every [T] of a [new T(ret)] in the source. *)
Definition boxed_types : list string :=
  omap (λ e, match ep_body e with
             | Try _ (OkNew T) => Some T
             | _ => None
             end) entry_points.

(** Modelled from the spec: the destruction entry point of a boxed handle
    ([cv::Ptr<T>*], [cv::Mat*]).  None is in the two source files; both
    include a generated header ([line_descriptor_types.hpp],
    [ximgproc_types.hpp]) that is not among them.  By the spec the layer
    provides paired constructor and destructor entry points for every owned
    native object, and a destruction entry point takes the handle and
    releases it unconditionally; the model gives it the shape of the
    destruction entry points that the source does show. *)
Definition handle_destructor (T : string) : entry_point :=
  {| ep_ret := Cvoid;
     ep_params := [(CPtr T, "instance")];
     ep_body := Delete "instance" |}.

(** Modelled from the spec: the destruction entry points of the generated
    headers, one for each boxed type. *)
Definition types_hpp_entry_points : list entry_point :=
  handle_destructor <$> boxed_types.

Global Instance arg_eq_dec : EqDecision arg.
Proof. solve_decision. Defined.
Global Instance operation_eq_dec : EqDecision operation.
Proof. solve_decision. Defined.
Global Instance wrap_eq_dec : EqDecision wrap.
Proof. solve_decision. Defined.
Global Instance body_eq_dec : EqDecision body.
Proof. solve_decision. Defined.
Global Instance entry_point_eq_dec : EqDecision entry_point.
Proof. solve_decision. Defined.

(** The pairs of accessors of a field, by their names in the source: the
    [setProp] entry point of a field with its [getProp] entry point. *)
Definition field_accessors : list (entry_point * entry_point) :=
  [ (line_descriptor.cv_line_descriptor_BinaryDescriptor_Params_setPropNumOfOctave__int,
     line_descriptor.cv_line_descriptor_BinaryDescriptor_Params_getPropNumOfOctave__const);
    (line_descriptor.cv_line_descriptor_BinaryDescriptor_Params_setPropWidthOfBand__int,
     line_descriptor.cv_line_descriptor_BinaryDescriptor_Params_getPropWidthOfBand__const);
    (line_descriptor.cv_line_descriptor_BinaryDescriptor_Params_setPropReductionRatio_int,
     line_descriptor.cv_line_descriptor_BinaryDescriptor_Params_getPropReductionRatio_const);
    (line_descriptor.cv_line_descriptor_BinaryDescriptor_Params_setPropKsize__int,
     line_descriptor.cv_line_descriptor_BinaryDescriptor_Params_getPropKsize__const);
    (line_descriptor.cv_line_descriptor_KeyLine_setPropAngle_float,
     line_descriptor.cv_line_descriptor_KeyLine_getPropAngle_const);
    (line_descriptor.cv_line_descriptor_KeyLine_setPropClass_id_int,
     line_descriptor.cv_line_descriptor_KeyLine_getPropClass_id_const);
    (line_descriptor.cv_line_descriptor_KeyLine_setPropOctave_int,
     line_descriptor.cv_line_descriptor_KeyLine_getPropOctave_const);
    (line_descriptor.cv_line_descriptor_KeyLine_setPropPt_Point2f,
     line_descriptor.cv_line_descriptor_KeyLine_getPropPt_const);
    (line_descriptor.cv_line_descriptor_KeyLine_setPropResponse_float,
     line_descriptor.cv_line_descriptor_KeyLine_getPropResponse_const);
    (line_descriptor.cv_line_descriptor_KeyLine_setPropSize_float,
     line_descriptor.cv_line_descriptor_KeyLine_getPropSize_const);
    (line_descriptor.cv_line_descriptor_KeyLine_setPropStartPointX_float,
     line_descriptor.cv_line_descriptor_KeyLine_getPropStartPointX_const);
    (line_descriptor.cv_line_descriptor_KeyLine_setPropStartPointY_float,
     line_descriptor.cv_line_descriptor_KeyLine_getPropStartPointY_const);
    (line_descriptor.cv_line_descriptor_KeyLine_setPropEndPointX_float,
     line_descriptor.cv_line_descriptor_KeyLine_getPropEndPointX_const);
    (line_descriptor.cv_line_descriptor_KeyLine_setPropEndPointY_float,
     line_descriptor.cv_line_descriptor_KeyLine_getPropEndPointY_const);
    (line_descriptor.cv_line_descriptor_KeyLine_setPropSPointInOctaveX_float,
     line_descriptor.cv_line_descriptor_KeyLine_getPropSPointInOctaveX_const);
    (line_descriptor.cv_line_descriptor_KeyLine_setPropSPointInOctaveY_float,
     line_descriptor.cv_line_descriptor_KeyLine_getPropSPointInOctaveY_const);
    (line_descriptor.cv_line_descriptor_KeyLine_setPropEPointInOctaveX_float,
     line_descriptor.cv_line_descriptor_KeyLine_getPropEPointInOctaveX_const);
    (line_descriptor.cv_line_descriptor_KeyLine_setPropEPointInOctaveY_float,
     line_descriptor.cv_line_descriptor_KeyLine_getPropEPointInOctaveY_const);
    (line_descriptor.cv_line_descriptor_KeyLine_setPropLineLength_float,
     line_descriptor.cv_line_descriptor_KeyLine_getPropLineLength_const);
    (line_descriptor.cv_line_descriptor_KeyLine_setPropNumOfPixels_int,
     line_descriptor.cv_line_descriptor_KeyLine_getPropNumOfPixels_const) ].

(** What the first parameter of an accessor points to, by the signature:
    an object of the class the parameter is declared a pointer to. *)
Definition points_to_instance (e : entry_point) (obj : value) : Prop :=
  match ep_params e with
  | (T, _) :: _ =>
      match pointee T with
      | Some cls => is_struct cls obj
      | None => False
      end
  | [] => False
  end.

(** The value a set accessor is passed, by the signature: its second
    argument, or the object behind it when the second parameter is declared
    a pointer. *)
Definition passed_value (s : entry_point) (x : value) (h : heap) : option value :=
  match ep_params s with
  | [_; (T, _)] =>
      if is_pointer T
      then match x with VPtr p => deref p h | _ => None end
      else Some x
  | _ => None
  end.

(** A value of the type a get accessor is declared to return. *)
Definition has_payload_type (g : entry_point) (v : value) : Prop :=
  match ep_ret g with
  | CResult T => has_type v T
  | _ => False
  end.

(** Membership in the table, by position. *)
Ltac in_table :=
  lazymatch goal with
  | |- _ ∈ entry_points =>
      let rec go n fuel :=
        lazymatch fuel with
        | S ?fuel' =>
            first [ apply (list_elem_of_lookup_2 _ n); reflexivity | go (S n) fuel' ]
        | _ => fail "not an entry point of the table"
        end in
      let len := eval compute in (length entry_points) in
      go 0%nat len
  end.

(** * Properties *)

(** ** The table *)

Lemma entry_points_well_formed e : e ∈ entry_points → well_formed e = true.
Proof.
  intros He. apply list_elem_of_In in He. revert e He.
  apply forallb_forall. vm_compute. reflexivity.
Qed.

(** How many entry points the two files hold. *)
Example entry_points_count :
  length line_descriptor.entry_points = 89%nat ∧
  length ximgproc.entry_points = 130%nat.
Proof. split; reflexivity. Qed.

(** ** How a call runs *)

Lemma fresh_handle_not_null (h : heap) : fresh_handle h ≠ nullptr.
Proof.
  unfold fresh_handle. intros E.
  apply (is_fresh ({[nullptr]} ∪ dom h)). rewrite E. set_solver.
Qed.

Lemma fresh_handle_unused (h : heap) : h !! fresh_handle h = None.
Proof.
  apply not_elem_of_dom. intros E.
  apply (is_fresh ({[nullptr]} ∪ dom h)). fold (fresh_handle h). set_solver.
Qed.

Lemma deref_valid (a : handle) (h : heap) obj :
  a ≠ nullptr → h !! a = Some obj → deref a h = Some obj.
Proof. intros Ha Hh. unfold deref. by rewrite decide_False. Qed.

Lemma deref_insert_same (a : handle) (h : heap) obj :
  a ≠ nullptr → deref a (<[a := obj]> h) = Some obj.
Proof. intros Ha. unfold deref. rewrite decide_False by done. apply lookup_insert_eq. Qed.

Lemma native_invocation_inv e args c vs :
  native_invocation e args = Some (c, vs) →
  ∃ op w ρ, ep_body e = Try op w ∧ bind_params (ep_params e) args = Some ρ ∧
            invocation (ep_params e) ρ op = Some (c, vs).
Proof.
  unfold native_invocation. destruct (ep_body e) as [op w|]; [|done].
  destruct (bind_params _ _) as [ρ|]; [|done]. simpl. eauto 6.
Qed.

Section Runs.

Variable native : callee → list value → M value.

Lemma exec_try ps ρ op w h :
  exec native ps ρ (Try op w) h = guarded_reply w (do_op native ps ρ op h).
Proof.
  unfold exec, guarded_reply, fmap, M_fmap, OCVRS_CATCH, mbind, M_bind, mret, M_ret.
  destruct (do_op native ps ρ op h) as [ret h1|ex h1|]; [|done..].
  destruct w; done.
Qed.

Lemma do_op_call ps ρ op c vs h :
  invocation ps ρ op = Some (c, vs) →
  do_op native ps ρ op h =
    match op with
    | New _ _ =>
        match native c vs h with
        | Returns obj h1 =>
            Returns (VPtr (fresh_handle h1)) (<[fresh_handle h1 := obj]> h1)
        | Throws ex h1 => Throws ex h1
        | Undefined => Undefined
        end
    | _ => native c vs h
    end.
Proof.
  intros Hi. destruct op; try discriminate;
    unfold do_op, mbind, M_bind, lift; rewrite Hi; done.
Qed.

(** Only the wrapped library throws: an operation from which an exception
    escapes has called it, and the exception is the library's. *)
Lemma do_op_throws ps ρ op h ex h1 :
  do_op native ps ρ op h = Throws ex h1 →
  ∃ c vs, invocation ps ρ op = Some (c, vs) ∧ native c vs h = Throws ex h1.
Proof.
  destruct (invocation ps ρ op) as [[c vs]|] eqn:Hi.
  - rewrite (do_op_call _ _ _ _ _ _ Hi). intros Hd. exists c, vs. split; [done|].
    destruct op; try done. destruct (native c vs h); congruence.
  - intros Hd. exfalso. revert Hd.
    destruct op; unfold do_op, mbind, M_bind, lift; try (rewrite Hi; done).
    + unfold read, lift. repeat case_match; congruence.
    + destruct rhs; simpl;
        unfold mbind, M_bind, read, write, lift, mret, M_ret;
        repeat case_match; congruence.
Qed.

Lemma run_try e args ρ op w h :
  ep_body e = Try op w →
  bind_params (ep_params e) args = Some ρ →
  run native e args h = guarded_reply w (do_op native (ep_params e) ρ op h).
Proof. intros Hb Hρ. unfold run. rewrite Hρ, Hb. apply exec_try. Qed.

Lemma run_delete_replies e inst args h :
  ep_body e = Delete inst →
  run native e args h = Undefined ∨ ∃ h', run native e args h = Returns Bare h'.
Proof.
  intros Hb. unfold run. destruct (bind_params _ _); [|by left]. rewrite Hb.
  unfold exec, mbind, M_bind, lift, cpp_delete, mret, M_ret.
  repeat case_match; simplify_eq; eauto.
Qed.

(** No exception crosses the boundary. *)
Lemma run_no_throw e args h ex h' : run native e args h ≠ Throws ex h'.
Proof.
  destruct (ep_body e) as [op w|inst] eqn:Hb.
  - unfold run. destruct (bind_params _ _); [|done]. rewrite Hb, exec_try.
    unfold guarded_reply. repeat case_match; congruence.
  - destruct (run_delete_replies e inst args h Hb) as [->|[h1 ->]]; done.
Qed.

(** [delete instance;] on a live object. *)
Lemma run_delete e inst (a : handle) obj (h : heap) :
  well_formed e = true →
  ep_body e = Delete inst →
  a ≠ nullptr →
  h !! a = Some obj →
  run native e [VPtr a] h = Returns Bare (delete a h).
Proof.
  intros He Hb Ha Hh. unfold well_formed in He. rewrite Hb in He.
  unfold run. rewrite Hb.
  destruct (ep_ret e); try done.
  destruct (ep_params e) as [|[[] x] [|]]; try done.
  apply bool_decide_eq_true in He as ->. simpl.
  unfold mbind, M_bind, lift, lookup_ptr, cpp_delete. simpl.
  rewrite String.eqb_refl, decide_False, Hh by done. done.
Qed.

Lemma run_getter e inst f a h :
  well_formed e = true →
  ep_body e = Try (Load inst f) OkRet →
  run native e [VPtr a] h =
    match deref a h ≫= load_field f with
    | Some v => Returns (Envelope (Ok v)) h
    | None => Undefined
    end.
Proof.
  intros He Hb. unfold well_formed in He. rewrite Hb in He. unfold run.
  destruct (ep_ret e); try done.
  destruct (ep_params e) as [|[[] x] [|]]; try done.
  apply bool_decide_eq_true in He as (-> & _ & _). simpl.
  rewrite Hb, exec_try. unfold do_op, mbind, M_bind, lift, lookup_ptr, read, lift.
  simpl. rewrite String.eqb_refl.
  destruct (deref a h) as [obj|]; [|done]. simpl.
  destruct (load_field f obj); done.
Qed.

Lemma run_setter e inst f rhs a x h :
  well_formed e = true →
  ep_body e = Try (Store inst f rhs) OkUnit →
  run native e [VPtr a; x] h =
    match assigned rhs x h, deref a h with
    | Some v, Some obj =>
        match store_field f v obj with
        | Some obj' => Returns (Envelope (Ok VVoid)) (<[a := obj']> h)
        | None => Undefined
        end
    | _, _ => Undefined
    end.
Proof.
  intros He Hb. unfold well_formed in He. rewrite Hb in He. unfold run.
  destruct (ep_ret e); try done.
  destruct (ep_params e) as [|[[] x1] [|[T y] [|]]]; try done.
  apply andb_prop in He as [He1 He2].
  apply bool_decide_eq_true in He1 as (-> & Hne & _).
  assert (String.eqb y inst = false) as Hyi by (apply String.eqb_neq; congruence).
  simpl. rewrite Hb, exec_try.
  destruct rhs as [val|val|val]; [| |done].
  - apply bool_decide_eq_true in He2 as [-> _].
    unfold do_op, eval_rvalue, eval_actual, mbind, M_bind, lift, lookup_ptr, read,
      write, lift, mret, M_ret.
    simpl. rewrite String.eqb_refl, Hyi, String.eqb_refl.
    destruct (deref a h) as [obj|] eqn:Hd; [|done].
    destruct (store_field f x obj); simpl; rewrite ?Hd; done.
  - destruct T; try done. destruct (field_type f); try done.
    apply bool_decide_eq_true in He2 as [-> _].
    unfold do_op, eval_rvalue, mbind, M_bind, lift, lookup_ptr, read, write, lift,
      mret, M_ret.
    simpl. rewrite String.eqb_refl, Hyi, String.eqb_refl.
    destruct x as [| | | | | | |p| | | |]; try done.
    destruct (deref p h) as [v|]; [|done].
    destruct (deref a h) as [obj|] eqn:Hd; [|done].
    destruct (store_field f v obj); simpl; rewrite ?Hd; done.
Qed.

(** A reply of an accessor says how it was called. *)
Lemma getter_args e inst f args h r h' :
  well_formed e = true →
  ep_body e = Try (Load inst f) OkRet →
  run native e args h = Returns r h' →
  ∃ a, args = [VPtr a].
Proof.
  intros He Hb. unfold well_formed in He. rewrite Hb in He. unfold run.
  destruct (ep_ret e); try done.
  destruct (ep_params e) as [|[[] x] [|]]; try done.
  apply bool_decide_eq_true in He as (-> & _ & _).
  destruct args as [|v [|]]; try done. simpl.
  rewrite Hb, exec_try. unfold do_op, mbind, M_bind, lift, lookup_ptr.
  simpl. rewrite String.eqb_refl. destruct v; try done. eauto.
Qed.

Lemma setter_args e inst f rhs args h r h' :
  well_formed e = true →
  ep_body e = Try (Store inst f rhs) OkUnit →
  run native e args h = Returns r h' →
  ∃ a x, args = [VPtr a; x].
Proof.
  intros He Hb. unfold well_formed in He. rewrite Hb in He. unfold run.
  destruct (ep_ret e); try done.
  destruct (ep_params e) as [|[[] x1] [|[T y] [|]]]; try done.
  apply andb_prop in He as [He1 He2].
  apply bool_decide_eq_true in He1 as (-> & Hne & _).
  destruct args as [|v [|x [|]]]; try done. simpl.
  rewrite Hb, exec_try. unfold do_op, mbind, M_bind, lift, lookup_ptr.
  simpl. rewrite String.eqb_refl. destruct v; try done. eauto.
Qed.

End Runs.

(** ** Fields *)

Lemma load_field_defined f obj :
  is_struct (field_class f) obj → is_Some (load_field f obj).
Proof. destruct obj; try done; destruct f; simpl; intros; simplify_eq; eauto. Qed.

Lemma store_field_defined f v obj :
  is_struct (field_class f) obj → has_type v (field_type f) →
  is_Some (store_field f v obj).
Proof.
  destruct obj; try done; destruct f; simpl; intros; simplify_eq;
    destruct v; simpl in *; try done; destruct_and?; simplify_eq; eauto.
Qed.

Lemma load_store_same f v obj obj' :
  store_field f v obj = Some obj' → load_field f obj' = Some v.
Proof.
  destruct obj as [| | | | | | | | |p|k|]; try done.
  - destruct f, v; simpl; intros; simplify_eq; done.
  - destruct k, f, v; simpl; intros; simplify_eq; done.
Qed.

Lemma load_store_other f f' v obj obj' :
  store_field f v obj = Some obj' → f' ≠ f → load_field f' obj' = load_field f' obj.
Proof.
  destruct obj as [| | | | | | | | |p|k|]; try done.
  - destruct f, v; simpl; intros; simplify_eq; destruct f'; done.
  - destruct k, f, v; simpl; intros; simplify_eq; destruct f'; done.
Qed.

Lemma store_field_class f v cls obj obj' :
  store_field f v obj = Some obj' → is_struct cls obj → is_struct cls obj'.
Proof.
  destruct obj as [| | | | | | | | |p|k|]; try done;
    destruct f, v; simpl; intros; simplify_eq; done.
Qed.

(** Every field of the two structs has its pair of accessors in the table. *)
Lemma every_field_has_its_accessors f :
  ∃ s g inst_s inst_g rhs,
    s ∈ entry_points ∧ g ∈ entry_points ∧
    ep_body s = Try (Store inst_s f rhs) OkUnit ∧
    ep_body g = Try (Load inst_g f) OkRet.
Proof.
  pose (is_setter := λ e, match ep_body e with
                          | Try (Store _ f' _) OkUnit => bool_decide (f' = f)
                          | _ => false
                          end).
  pose (is_getter := λ e, match ep_body e with
                          | Try (Load _ f') OkRet => bool_decide (f' = f)
                          | _ => false
                          end).
  destruct (list_find (λ e, is_setter e = true) entry_points) as [[i s]|] eqn:Hs;
    [|destruct f; vm_compute in Hs; discriminate].
  destruct (list_find (λ e, is_getter e = true) entry_points) as [[j g]|] eqn:Hg;
    [|destruct f; vm_compute in Hg; discriminate].
  apply list_find_Some in Hs as (Hi & Hs & _).
  apply list_find_Some in Hg as (Hj & Hg & _).
  unfold is_setter in Hs. unfold is_getter in Hg.
  destruct (ep_body s) as [[| | | |inst_s fs rhs] []|] eqn:Hbs; try done.
  destruct (ep_body g) as [[| | |inst_g fg|] []|] eqn:Hbg; try done.
  apply bool_decide_eq_true in Hs as ->. apply bool_decide_eq_true in Hg as ->.
  exists s, g, inst_s, inst_g, rhs.
  split_and!; [by eapply list_elem_of_lookup_2 | by eapply list_elem_of_lookup_2 | done..].
Qed.

(** A set accessor, then the get accessor of the same field. *)
Lemma setter_then_getter
    (native : callee → list value → M value)
    s g inst_s inst_g f rhs (a : handle) obj x v (h : heap) :
  well_formed s = true →
  well_formed g = true →
  ep_body s = Try (Store inst_s f rhs) OkUnit →
  ep_body g = Try (Load inst_g f) OkRet →
  a ≠ nullptr →
  h !! a = Some obj →
  is_struct (field_class f) obj →
  assigned rhs x h = Some v →
  has_type v (field_type f) →
  ∃ h', run native s [VPtr a; x] h = Returns (Envelope (Ok VVoid)) h' ∧
        run native g [VPtr a] h' = Returns (Envelope (Ok v)) h'.
Proof.
  intros Hs Hg Hbs Hbg Ha Hh Hobj Hv Hty.
  destruct (store_field_defined f v obj Hobj Hty) as [obj' Hst].
  exists (<[a := obj']> h). split.
  - rewrite (run_setter native s inst_s f rhs a x h Hs Hbs), Hv.
    rewrite (deref_valid a h obj Ha Hh), Hst. done.
  - rewrite (run_getter native g inst_g f a _ Hg Hbg).
    rewrite (deref_insert_same a h obj' Ha). simpl.
    rewrite (load_store_same f v obj obj' Hst). done.
Qed.

(** The pair that takes the value through a pointer, with the point read
    from the caller's own object. *)
Example set_then_get_pt :
  let k := KeyLine.mk (FloatBits 0) 0 0 (Point2f.mk (FloatBits 0) (FloatBits 0))
             (FloatBits 0) (FloatBits 0) (FloatBits 0) (FloatBits 0) (FloatBits 0)
             (FloatBits 0) (FloatBits 0) (FloatBits 0) (FloatBits 0) (FloatBits 0)
             (FloatBits 0) 0 in
  let q := Point2f.mk (FloatBits 1065353216) (FloatBits 2143289344) in
  let h : heap := <[ 8%N := VKeyLine k ]> {[ 24%N := VPoint2f q ]} in
  ∃ h',
    run quiet_library line_descriptor.cv_line_descriptor_KeyLine_setPropPt_Point2f
        [VPtr 8%N; VPtr 24%N] h = Returns (Envelope (Ok VVoid)) h' ∧
    run quiet_library line_descriptor.cv_line_descriptor_KeyLine_getPropPt_const
        [VPtr 8%N] h' = Returns (Envelope (Ok (VPoint2f q))) h'.
Proof.
  intros k q h.
  apply (setter_then_getter quiet_library _ _
           "instance" "instance" f_pt (Deref "val") 8%N (VKeyLine k) (VPtr 24%N));
    first [ reflexivity | discriminate ].
Qed.

(** ** Construction and destruction in the source *)

(** A class that an entry point builds with [new] has its [delete] entry
    point in the same source. *)
Lemma raw_constructor_has_source_destructor e cls actuals :
  e ∈ entry_points →
  ep_body e = Try (New cls actuals) OkRet →
  ∃ d, d ∈ entry_points ∧ destroys d = Some cls.
Proof.
  intros He Hb.
  assert (is_Some (source_destructor cls)) as [d Hd].
  { pose (check := λ e, match ep_body e with
                        | Try (New cls _) OkRet => bool_decide (is_Some (source_destructor cls))
                        | _ => true
                        end).
    assert (check e = true) as Hc.
    { apply list_elem_of_In in He. revert e He Hb. intros e He _. revert e He.
      apply forallb_forall. vm_compute. reflexivity. }
    unfold check in Hc. rewrite Hb in Hc. by apply bool_decide_eq_true in Hc. }
  unfold source_destructor in Hd.
  destruct (list_find _ entry_points) as [[i d']|] eqn:Hf; [|done].
  simpl in Hd. simplify_eq.
  apply list_find_Some in Hf as (Hi & Hdes & _).
  exists d. split; [by eapply list_elem_of_lookup_2 | done].
Qed.

(** No entry point of the two files takes a boxed handle to delete it: the
    destruction entry points of those handles are not in this source. *)
Lemma boxed_handles_have_no_source_destructor T d :
  T ∈ boxed_types → d ∈ entry_points → destroys d ≠ Some T.
Proof.
  intros HT Hd.
  pose (check := λ T, forallb (λ d, negb (bool_decide (destroys d = Some T))) entry_points).
  assert (check T = true) as Hc.
  { apply list_elem_of_In in HT. revert T HT.
    apply forallb_forall. vm_compute. reflexivity. }
  unfold check in Hc. rewrite forallb_forall in Hc.
  apply list_elem_of_In, Hc, negb_true_iff, bool_decide_eq_false in Hd. done.
Qed.

Example boxed_types_count : length boxed_types = 31%nat.
Proof. reflexivity. Qed.

(** ** Entry points as programs *)

(** What the table and [run] make of some of the functions, next to their
    C++ text. *)
Section Readings.

Ltac read_off :=
  unfold run, fmap, M_fmap, OCVRS_CATCH, mbind, M_bind, mret, M_ret; simpl;
  unfold fmap, M_fmap, OCVRS_CATCH, mbind, M_bind, mret, M_ret, lift, read, write, lift;
  simpl; repeat case_match; simplify_eq; reflexivity.

Variable native : callee → list value → M value.

(** [try { instance->detect( *image, *keypoints, *mask ); return Ok(); }
     OCVRS_CATCH(OCVRS_TYPE(Result_void))] *)
Example read_detect instance image keypoints mask h :
  run native
    line_descriptor.cv_line_descriptor_BinaryDescriptor_detect_const_MatR_vector_KeyLine_R_const_MatR
    [VPtr instance; VPtr image; VPtr keypoints; VPtr mask] h
  = (Envelope <$>
       OCVRS_CATCH
         (native (Method "cv::line_descriptor::BinaryDescriptor" "detect")
                 [VPtr instance; VPtr image; VPtr keypoints; VPtr mask];;
          mret (Ok VVoid))) h.
Proof. read_off. Qed.

(** [try { double ret = cv::ximgproc::computeMSE( *GT, *src, *ROI );
           return Ok(ret); } OCVRS_CATCH(OCVRS_TYPE(Result<double>))] *)
Example read_computeMSE GT src ROI h :
  run native ximgproc.cv_ximgproc_computeMSE_const__InputArrayR_const__InputArrayR_Rect
    [VPtr GT; VPtr src; VPtr ROI] h
  = (Envelope <$>
       OCVRS_CATCH
         (ret ← native (Function "cv::ximgproc::computeMSE") [VPtr GT; VPtr src; VPtr ROI];
          mret (Ok ret))) h.
Proof. read_off. Qed.

(** [try { cv::Ptr<cv::ximgproc::DTFilter> ret =
             cv::ximgproc::createDTFilter( *guide, sigmaSpatial, sigmaColor, mode, numIters );
           return Ok(new cv::Ptr<cv::ximgproc::DTFilter>(ret)); }
     OCVRS_CATCH(...)] *)
Example read_createDTFilter guide sigmaSpatial sigmaColor mode numIters h :
  run native ximgproc.cv_ximgproc_createDTFilter_const__InputArrayR_double_double_int_int
    [VPtr guide; VDouble sigmaSpatial; VDouble sigmaColor; VInt mode; VInt numIters] h
  = (Envelope <$>
       OCVRS_CATCH
         (ret ← native (Function "cv::ximgproc::createDTFilter")
                  [VPtr guide; VDouble sigmaSpatial; VDouble sigmaColor;
                   VInt mode; VInt numIters];
          a ← alloc ret;
          mret (Ok (VPtr a)))) h.
Proof. read_off. Qed.

(** [try { cv::line_descriptor::KeyLine* ret = new cv::line_descriptor::KeyLine();
           return Ok(ret); } OCVRS_CATCH(...)] *)
Example read_KeyLine_KeyLine h :
  run native line_descriptor.cv_line_descriptor_KeyLine_KeyLine [] h
  = (Envelope <$>
       OCVRS_CATCH
         (obj ← native (Constructor "cv::line_descriptor::KeyLine") [];
          ret ← alloc obj;
          mret (Ok (VPtr ret)))) h.
Proof. read_off. Qed.

(** [try { int ret = instance->numOfOctave_; return Ok(ret); } OCVRS_CATCH(...)] *)
Example read_getPropNumOfOctave_ instance h :
  run native
    line_descriptor.cv_line_descriptor_BinaryDescriptor_Params_getPropNumOfOctave__const
    [VPtr instance] h
  = (Envelope <$>
       OCVRS_CATCH
         (obj ← read instance;
          ret ← lift (load_field f_numOfOctave_ obj);
          mret (Ok ret))) h.
Proof. read_off. Qed.

(** [try { instance->numOfOctave_ = val; return Ok(); } OCVRS_CATCH(...)] *)
Example read_setPropNumOfOctave_ instance val h :
  run native
    line_descriptor.cv_line_descriptor_BinaryDescriptor_Params_setPropNumOfOctave__int
    [VPtr instance; VInt val] h
  = (Envelope <$>
       OCVRS_CATCH
         (obj ← read instance;
          obj' ← lift (store_field f_numOfOctave_ (VInt val) obj);
          write instance obj';;
          mret (Ok VVoid))) h.
Proof. read_off. Qed.

(** [delete instance;] *)
Example read_BinaryDescriptor_delete instance h :
  run native line_descriptor.cv_BinaryDescriptor_delete [VPtr instance] h
  = (cpp_delete instance;; mret Bare) h.
Proof. reflexivity. Qed.

End Readings.

(** ** The guarded call *)

(** C1: when the native operation an entry point forwards to throws, the
    caller gets the error arm of the envelope, made from that exception, on
    the heap the library left behind; no call of an entry point ever leaves
    by an exception, and the reply to this one is not a success. *)
Theorem native_exception_becomes_error_result
    (native : callee → list value → M value) e args h c vs ex h1 :
  e ∈ entry_points →
  native_invocation e args = Some (c, vs) →
  native c vs h = Throws ex h1 →
  run native e args h = Returns (Envelope (Err (error_of ex))) h1 ∧
  (∀ args' h' ex' h'', run native e args' h' ≠ Throws ex' h'') ∧
  (∀ payload h', run native e args h ≠ Returns (Envelope (Ok payload)) h').
Proof.
  intros _ Hi Hn.
  destruct (native_invocation_inv _ _ _ _ Hi) as (op & w & ρ & Hb & Hρ & Hop).
  assert (run native e args h = Returns (Envelope (Err (error_of ex))) h1) as Hrun.
  { rewrite (run_try _ _ _ _ _ _ _ Hb Hρ), (do_op_call _ _ _ _ _ _ _ Hop).
    destruct op; try discriminate; rewrite Hn; done. }
  split; [done|]. split.
  - intros args' h' ex' h''. apply run_no_throw.
  - intros payload h'. rewrite Hrun. congruence.
Qed.

Lemma native_exception_becomes_error_result_witness :
  run (failing_library (mkException (Some (-215)) "empty source image"))
      ximgproc.cv_ximgproc_FastHoughTransform_const__InputArrayR_const__OutputArrayR_int_int_int_int
      [VPtr 1%N; VPtr 2%N; VInt 4; VInt 6; VInt 2; VInt 1] ∅
  = Returns (Envelope (Err (mkError (Some (-215)) "empty source image"))) ∅.
Proof.
  refine (proj1 (native_exception_becomes_error_result
            (failing_library (mkException (Some (-215)) "empty source image"))
            ximgproc.cv_ximgproc_FastHoughTransform_const__InputArrayR_const__OutputArrayR_int_int_int_int
            [VPtr 1%N; VPtr 2%N; VInt 4; VInt 6; VInt 2; VInt 1] ∅
            (Function "cv::ximgproc::FastHoughTransform")
            [VPtr 1%N; VPtr 2%N; VInt 4; VInt 6; VInt 2; VInt 1]
            (mkException (Some (-215)) "empty source image") ∅ _ _ _)).
  - in_table.
  - reflexivity.
  - reflexivity.
Defined.

(** C4: when the native operation an entry point forwards to returns
    normally, the caller gets the success arm; its payload is the returned
    value, copied for a plain value, or a newly allocated handle that holds
    the returned object. *)
Theorem native_return_becomes_success
    (native : callee → list value → M value) e args h c vs v h1 :
  e ∈ entry_points →
  native_invocation e args = Some (c, vs) →
  native c vs h = Returns v h1 →
  ∃ payload h2,
    run native e args h = Returns (Envelope (Ok payload)) h2 ∧
    delivered (ep_ret e) v h1 payload h2.
Proof.
  intros He Hi Hn. apply entry_points_well_formed in He.
  destruct (native_invocation_inv _ _ _ _ Hi) as (op & w & ρ & Hb & Hρ & Hop).
  rewrite (run_try _ _ _ _ _ _ _ Hb Hρ), (do_op_call _ _ _ _ _ _ _ Hop).
  unfold well_formed in He. rewrite Hb in He. unfold delivered.
  pose proof (fresh_handle_not_null h1) as Hnn.
  pose proof (fresh_handle_unused h1) as Hun.
  destruct op; try discriminate; rewrite Hn; simpl;
    destruct w as [| |Tn], (ep_ret e) as [| |R]; simpl in He; try discriminate;
    try (apply andb_prop in He as [_ He]); try discriminate;
    try (destruct R; simpl in He; try discriminate; simpl); eauto 8.
Qed.

Lemma native_return_becomes_success_witness :
  ∃ payload h2,
    run (λ _ _, mret (VNative "cv::Ptr<cv::ximgproc::DTFilter>" [7]))
      ximgproc.cv_ximgproc_createDTFilter_const__InputArrayR_double_double_int_int
      [VPtr 1%N; VDouble (DoubleBits 0); VDouble (DoubleBits 0); VInt 0; VInt 3] ∅
    = Returns (Envelope (Ok payload)) h2 ∧
    delivered (CResult (CPtr "cv::Ptr<cv::ximgproc::DTFilter>"))
      (VNative "cv::Ptr<cv::ximgproc::DTFilter>" [7]) ∅ payload h2.
Proof.
  refine (native_return_becomes_success
            (λ _ _, mret (VNative "cv::Ptr<cv::ximgproc::DTFilter>" [7]))
            ximgproc.cv_ximgproc_createDTFilter_const__InputArrayR_double_double_int_int
            [VPtr 1%N; VDouble (DoubleBits 0); VDouble (DoubleBits 0); VInt 0; VInt 3] ∅
            (Function "cv::ximgproc::createDTFilter")
            [VPtr 1%N; VDouble (DoubleBits 0); VDouble (DoubleBits 0); VInt 0; VInt 3]
            (VNative "cv::Ptr<cv::ximgproc::DTFilter>" [7]) ∅ _ _ _).
  - in_table.
  - reflexivity.
  - reflexivity.
Defined.

(** A plain value comes back as it is: [computeMSE] on a library that
    answers with a number. *)
Example computeMSE_returns_the_number :
  run (λ _ _, mret (VDouble (DoubleBits 4607182418800017408)))
      ximgproc.cv_ximgproc_computeMSE_const__InputArrayR_const__InputArrayR_Rect
      [VPtr 1%N; VPtr 2%N; VPtr 3%N] ∅
  = Returns (Envelope (Ok (VDouble (DoubleBits 4607182418800017408)))) ∅.
Proof. reflexivity. Qed.

(** ** The envelope *)

(** C8: an envelope that an entry point returns has exactly one arm, the
    success value or the error record; an error record comes from an
    exception of the native operation the call forwarded to, and carries
    that exception's code and message. *)
Theorem returned_envelope_has_one_arm
    (native : callee → list value → M value) e args h env h' :
  e ∈ entry_points →
  run native e args h = Returns (Envelope env) h' →
  ((is_Some (success_arm env) ∧ error_arm env = None) ∨
   (success_arm env = None ∧ is_Some (error_arm env))) ∧
  (∀ err, error_arm env = Some err →
     ∃ c vs ex h1,
       native_invocation e args = Some (c, vs) ∧
       native c vs h = Throws ex h1 ∧
       error_code err = exc_code ex ∧ error_msg err = exc_what ex).
Proof.
  intros _ Hrun. split.
  - destruct env; simpl; eauto.
  - intros err Harm. destruct env as [|err0]; [done|]. simplify_eq/=.
    unfold run in Hrun. unfold native_invocation.
    destruct (bind_params (ep_params e) args) as [ρ|]; [|done].
    destruct (ep_body e) as [op w|inst].
    + rewrite exec_try in Hrun.
      destruct (do_op native (ep_params e) ρ op h) as [ret h1|ex h1|] eqn:Hop.
      * destruct w; done.
      * simpl in Hrun. simplify_eq.
        apply do_op_throws in Hop as (c & vs & Hi & Hn).
        exists c, vs, ex, h'. done.
      * done.
    + exfalso. revert Hrun.
      unfold exec, mbind, M_bind, lift, cpp_delete, mret, M_ret.
      repeat case_match; congruence.
Qed.

Lemma returned_envelope_has_one_arm_witness :
  ((is_Some (success_arm (T:=value) (Err (mkError None "bad allocation"))) ∧
    error_arm (T:=value) (Err (mkError None "bad allocation")) = None) ∨
   (success_arm (T:=value) (Err (mkError None "bad allocation")) = None ∧
    is_Some (error_arm (T:=value) (Err (mkError None "bad allocation"))))) ∧
  (∀ err, error_arm (T:=value) (Err (mkError None "bad allocation")) = Some err →
     ∃ c vs ex h1,
       native_invocation
         line_descriptor.cv_line_descriptor_drawKeylines_const_MatR_const_vector_KeyLine_R_MatR_const_ScalarR_int
         [VPtr 1%N; VPtr 2%N; VPtr 3%N; VPtr 4%N; VInt 0] = Some (c, vs) ∧
       failing_library (mkException None "bad allocation") c vs ∅ = Throws ex h1 ∧
       error_code err = exc_code ex ∧ error_msg err = exc_what ex).
Proof.
  refine (returned_envelope_has_one_arm
            (failing_library (mkException None "bad allocation"))
            line_descriptor.cv_line_descriptor_drawKeylines_const_MatR_const_vector_KeyLine_R_MatR_const_ScalarR_int
            [VPtr 1%N; VPtr 2%N; VPtr 3%N; VPtr 4%N; VInt 0] ∅
            (Err (mkError None "bad allocation")) ∅ _ _).
  - in_table.
  - reflexivity.
Defined.

(** ** Which entry points return an envelope *)

(** C2, refuted: [cv_BinaryDescriptor_delete] is declared [void] and hands
    nothing back. *)
Lemma delete_returns_no_envelope : ¬ every_reply_is_an_envelope.
Proof.
  intros Hall.
  destruct (Hall quiet_library line_descriptor.cv_BinaryDescriptor_delete
              [VPtr nullptr] ∅ Bare ∅) as [env Henv].
  - in_table.
  - reflexivity.
  - discriminate.
Qed.

(** C2, amended: an entry point whose body is a guarded call is declared
    with an envelope type and every reply of it is an envelope, of payload
    [()] when the type is [Result_void]; the entry points whose body is a
    [delete] are declared [void] and reply with no envelope. *)
Theorem guarded_entry_points_reply_with_envelopes
    (native : callee → list value → M value) e :
  e ∈ entry_points →
  match ep_body e with
  | Try _ _ =>
      ep_ret e ≠ Cvoid ∧
      ∀ args h r h', run native e args h = Returns r h' →
        ∃ env, r = Envelope env ∧
               (ep_ret e = CResult_void → ∀ v, success_arm env = Some v → v = VVoid)
  | Delete _ =>
      ep_ret e = Cvoid ∧
      ∀ args h r h', run native e args h = Returns r h' → r = Bare
  end.
Proof.
  intros He. apply entry_points_well_formed in He. unfold well_formed in He.
  destruct (ep_body e) as [op w|inst] eqn:Hb.
  - split.
    + intros HR. rewrite HR in He.
      destruct op, w; simpl in He; repeat case_match; try done;
        apply andb_prop in He as [_ He]; done.
    + intros args h r h' Hrun. unfold run in Hrun.
      destruct (bind_params (ep_params e) args) as [ρ|]; [|done].
      rewrite Hb, exec_try in Hrun. unfold guarded_reply in Hrun.
      destruct (do_op native (ep_params e) ρ op h) as [ret h1|ex h1|]; [| |done].
      * destruct w; simplify_eq; (eexists; split; [done|]); intros HR v Hv;
          simplify_eq/=; try done;
          rewrite HR in He; destruct op; simpl in He;
          try discriminate; try (apply andb_prop in He as [_ He]); done.
      * simplify_eq. eexists; split; [done|]. intros _ v Hv. done.
  - split.
    + destruct (ep_ret e); done.
    + intros args h r h' Hrun.
      destruct (run_delete_replies native e inst args h Hb) as [Hu|[h1 Hr]];
        rewrite Hrun in *; by simplify_eq.
Qed.

Lemma guarded_entry_points_reply_with_envelopes_witness :
  ep_ret line_descriptor.cv_line_descriptor_BinaryDescriptor_getNumOfOctaves ≠ Cvoid ∧
  ∀ args h r h',
    run quiet_library line_descriptor.cv_line_descriptor_BinaryDescriptor_getNumOfOctaves
        args h = Returns r h' →
    ∃ env, r = Envelope env ∧
           (ep_ret line_descriptor.cv_line_descriptor_BinaryDescriptor_getNumOfOctaves
            = CResult_void → ∀ v, success_arm env = Some v → v = VVoid).
Proof.
  refine (guarded_entry_points_reply_with_envelopes quiet_library
            line_descriptor.cv_line_descriptor_BinaryDescriptor_getNumOfOctaves _).
  in_table.
Defined.

(** The entry points declared [void]: the six destruction entry points. *)
Example destruction_entry_points :
  filter (λ e, ep_ret e = Cvoid) entry_points =
  [ line_descriptor.cv_BinaryDescriptor_delete;
    line_descriptor.cv_BinaryDescriptor_Params_delete;
    line_descriptor.cv_BinaryDescriptorMatcher_delete;
    line_descriptor.cv_DrawLinesMatchesFlags_delete;
    line_descriptor.cv_KeyLine_delete;
    line_descriptor.cv_LSDDetector_delete ].
Proof. reflexivity. Qed.

(** ** Destruction *)

(** C9: an entry point whose body is [delete instance;], called on the null
    pointer, returns normally and leaves the native heap as it was. *)
Theorem delete_of_null_is_a_no_op
    (native : callee → list value → M value) e inst h :
  e ∈ entry_points →
  ep_body e = Delete inst →
  run native e [VPtr nullptr] h = Returns Bare h.
Proof.
  intros He Hb. apply entry_points_well_formed in He. unfold well_formed in He.
  rewrite Hb in He. unfold run. rewrite Hb.
  destruct (ep_ret e); try done.
  destruct (ep_params e) as [|[[] x] [|]]; try done.
  apply bool_decide_eq_true in He as ->. simpl.
  unfold mbind, M_bind, lift, lookup_ptr. simpl. rewrite String.eqb_refl. done.
Qed.

Lemma delete_of_null_is_a_no_op_witness :
  run quiet_library line_descriptor.cv_LSDDetector_delete [VPtr nullptr]
      {[ 8%N := VNative "cv::line_descriptor::LSDDetector" [] ]}
  = Returns Bare {[ 8%N := VNative "cv::line_descriptor::LSDDetector" [] ]}.
Proof.
  refine (delete_of_null_is_a_no_op quiet_library
            line_descriptor.cv_LSDDetector_delete "instance" _ _ _).
  - in_table.
  - reflexivity.
Defined.

(** C3: for every entry point that hands out a new owned handle, to a class
    it builds with [new] or to a cell it boxes the native result into, there
    is a destruction entry point that takes a handle of that type and
    releases the object behind it.  For a class built with [new] it is an
    entry point of the source; for a boxed handle it is one of the generated
    header, as the spec describes them. *)
Theorem construction_has_paired_destruction
    (native : callee → list value → M value) e T :
  e ∈ entry_points →
  constructs e = Some T →
  ∃ d, d ∈ (entry_points ++ types_hpp_entry_points)%list ∧
       destroys d = Some T ∧
       (∀ (a : handle) obj (h : heap),
          a ≠ nullptr → h !! a = Some obj →
          run native d [VPtr a] h = Returns Bare (delete a h)) ∧
       (∀ cls actuals, ep_body e = Try (New cls actuals) OkRet → d ∈ entry_points).
Proof.
  intros He Hc. unfold constructs in Hc.
  pose proof (entry_points_well_formed e He) as Hwf.
  destruct (ep_body e) as [op w|] eqn:Hb; [|done].
  destruct w as [| |Tn].
  - destruct op; done.
  - destruct op as [| |cls actuals| |]; try done. simplify_eq.
    destruct (raw_constructor_has_source_destructor e T actuals He Hb) as (d & Hd & Hdes).
    exists d. split; [apply elem_of_app; by left|]. split; [exact Hdes|].
    split; [|intros; exact Hd].
    intros a obj h Ha Hh.
    unfold destroys in Hdes. destruct (ep_body d) as [|inst] eqn:Hbd; [done|].
    by eapply run_delete; [apply entry_points_well_formed| |..].
  - assert (Tn = T) as -> by (destruct op; congruence).
    exists (handle_destructor T). split.
    + apply elem_of_app. right. apply list_elem_of_fmap. exists T. split; [done|].
      apply list_elem_of_omap. exists e. rewrite Hb. done.
    + split; [done|]. split.
      * intros a obj h Ha Hh. by eapply run_delete.
      * intros cls actuals Hop. by simplify_eq.
Qed.

Lemma construction_has_paired_destruction_witness :
  ∃ d, d ∈ (entry_points ++ types_hpp_entry_points)%list ∧
       destroys d = Some "cv::line_descriptor::BinaryDescriptor" ∧
       (∀ (a : handle) obj (h : heap),
          a ≠ nullptr → h !! a = Some obj →
          run quiet_library d [VPtr a] h = Returns Bare (delete a h)) ∧
       (∀ cls actuals,
          ep_body line_descriptor.cv_line_descriptor_BinaryDescriptor_BinaryDescriptor_const_ParamsR
          = Try (New cls actuals) OkRet → d ∈ entry_points).
Proof.
  refine (construction_has_paired_destruction quiet_library
            line_descriptor.cv_line_descriptor_BinaryDescriptor_BinaryDescriptor_const_ParamsR
            "cv::line_descriptor::BinaryDescriptor" _ _).
  - in_table.
  - reflexivity.
Defined.

(** The pair the source shows side by side. *)
Example BinaryDescriptor_pair :
  constructs line_descriptor.cv_line_descriptor_BinaryDescriptor_BinaryDescriptor_const_ParamsR
  = destroys line_descriptor.cv_BinaryDescriptor_delete.
Proof. reflexivity. Qed.

(** ** Field accessors *)

(** The named pairs are pairs: the set entry point writes the field that
    the get entry point reads, and both have the shape of an accessor. *)
Lemma field_accessors_agree s g :
  (s, g) ∈ field_accessors →
  s ∈ entry_points ∧ g ∈ entry_points ∧
  ∃ inst_s inst_g f rhs,
    ep_body s = Try (Store inst_s f rhs) OkUnit ∧
    ep_body g = Try (Load inst_g f) OkRet.
Proof.
  intros Hp.
  pose (agree := λ p : entry_point * entry_point,
          match ep_body p.1, ep_body p.2 with
          | Try (Store _ f _) OkUnit, Try (Load _ f') OkRet => bool_decide (f = f')
          | _, _ => false
          end).
  pose (listed := λ p : entry_point * entry_point,
          bool_decide (is_Some (list_find (λ e, e = p.1) entry_points)) &&
          bool_decide (is_Some (list_find (λ e, e = p.2) entry_points))).
  assert (agree (s, g) = true ∧ listed (s, g) = true) as [Ha Hl].
  { apply list_elem_of_In in Hp. split; revert Hp; generalize (s, g);
      apply forallb_forall; vm_compute; reflexivity. }
  unfold listed in Hl. apply andb_prop in Hl as [Hls Hlg].
  apply bool_decide_eq_true in Hls as [[i s'] Hs], Hlg as [[j g'] Hg].
  apply list_find_Some in Hs as (Hs & -> & _), Hg as (Hg & -> & _). simpl in *.
  split; [by eapply list_elem_of_lookup_2|]. split; [by eapply list_elem_of_lookup_2|].
  unfold agree in Ha. simpl in Ha.
  destruct (ep_body s) as [[| | | |inst_s f rhs] []|]; try done.
  destruct (ep_body g) as [[| | |inst_g f'|] []|]; try done.
  apply bool_decide_eq_true in Ha as <-. eauto 8.
Qed.

(** Every direct field accessor of the table is in one of the named pairs. *)
Lemma field_accessors_complete e :
  e ∈ entry_points →
  match ep_body e with
  | Try (Store _ _ _) _ => e ∈ field_accessors.*1
  | Try (Load _ _) _ => e ∈ field_accessors.*2
  | _ => True
  end.
Proof.
  intros He.
  pose (covered := λ e,
          match ep_body e with
          | Try (Store _ _ _) _ =>
              bool_decide (is_Some (list_find (λ s, s = e) field_accessors.*1))
          | Try (Load _ _) _ =>
              bool_decide (is_Some (list_find (λ g, g = e) field_accessors.*2))
          | _ => true
          end).
  assert (covered e = true) as Hc.
  { apply list_elem_of_In in He. revert e He.
    apply forallb_forall. vm_compute. reflexivity. }
  unfold covered in Hc.
  destruct (ep_body e) as [[] ?|]; try done;
    apply bool_decide_eq_true in Hc as [[i e'] Hf];
    apply list_find_Some in Hf as (Hf & -> & _);
    by eapply list_elem_of_lookup_2.
Qed.

(** The signature of a set accessor says what its body assigns, and to
    what. *)
Lemma setter_signature s inst f rhs obj x h :
  well_formed s = true →
  ep_body s = Try (Store inst f rhs) OkUnit →
  passed_value s x h = assigned rhs x h ∧
  (points_to_instance s obj → is_struct (field_class f) obj).
Proof.
  intros Hs Hb. unfold well_formed in Hs. rewrite Hb in Hs.
  unfold passed_value, points_to_instance.
  destruct (ep_ret s); try done.
  destruct (ep_params s) as [|[[] x1] [|[T y] [|]]]; try done.
  apply andb_prop in Hs as [Hs1 Hs2].
  apply bool_decide_eq_true in Hs1 as (_ & _ & ->). simpl. split; [|done].
  destruct rhs as [val|val|val]; [| |done].
  - apply bool_decide_eq_true in Hs2 as [_ ->]. by destruct f.
  - destruct T; try done.
Qed.

Lemma getter_signature g inst f v :
  well_formed g = true →
  ep_body g = Try (Load inst f) OkRet →
  has_payload_type g v → has_type v (field_type f).
Proof.
  intros Hg Hb. unfold well_formed in Hg. rewrite Hb in Hg.
  unfold has_payload_type.
  destruct (ep_ret g) as [| |T]; try done.
  destruct (ep_params g) as [|[[] x] [|]]; try done.
  by apply bool_decide_eq_true in Hg as (_ & _ & ->).
Qed.

(** C6: for every pair of accessors of a field (the [setProp] and the
    [getProp] entry point of the same name), on a valid handle of the class
    and with a value of the type the get accessor returns, the set entry
    point followed by the get entry point on the same handle returns the
    success arm with that value. *)
Theorem set_then_get_returns_the_value
    (native : callee → list value → M value)
    s g (a : handle) obj x v (h : heap) :
  (s, g) ∈ field_accessors →
  a ≠ nullptr →
  h !! a = Some obj →
  points_to_instance s obj →
  passed_value s x h = Some v →
  has_payload_type g v →
  ∃ h', run native s [VPtr a; x] h = Returns (Envelope (Ok VVoid)) h' ∧
        run native g [VPtr a] h' = Returns (Envelope (Ok v)) h'.
Proof.
  intros Hp Ha Hh Hobj Hv Hty.
  destruct (field_accessors_agree s g Hp)
    as (Hs & Hg & inst_s & inst_g & f & rhs & Hbs & Hbg).
  apply entry_points_well_formed in Hs, Hg.
  destruct (setter_signature s inst_s f rhs obj x h Hs Hbs) as [Hpass Hcls].
  rewrite Hpass in Hv.
  eapply setter_then_getter; eauto using getter_signature.
Qed.

Lemma set_then_get_returns_the_value_witness :
  ∃ h',
    run quiet_library line_descriptor.cv_line_descriptor_KeyLine_setPropOctave_int
      [VPtr 8%N; VInt 7]
      {[ 8%N := VKeyLine
                  (KeyLine.mk (FloatBits 0) 0 1 (Point2f.mk (FloatBits 0) (FloatBits 0))
                     (FloatBits 0) (FloatBits 0) (FloatBits 0) (FloatBits 0)
                     (FloatBits 0) (FloatBits 0) (FloatBits 0) (FloatBits 0)
                     (FloatBits 0) (FloatBits 0) (FloatBits 0) 0) ]}
    = Returns (Envelope (Ok VVoid)) h' ∧
    run quiet_library line_descriptor.cv_line_descriptor_KeyLine_getPropOctave_const
      [VPtr 8%N] h'
    = Returns (Envelope (Ok (VInt 7))) h'.
Proof.
  refine (set_then_get_returns_the_value quiet_library
            line_descriptor.cv_line_descriptor_KeyLine_setPropOctave_int
            line_descriptor.cv_line_descriptor_KeyLine_getPropOctave_const
            8%N
            (VKeyLine
               (KeyLine.mk (FloatBits 0) 0 1 (Point2f.mk (FloatBits 0) (FloatBits 0))
                  (FloatBits 0) (FloatBits 0) (FloatBits 0) (FloatBits 0)
                  (FloatBits 0) (FloatBits 0) (FloatBits 0) (FloatBits 0)
                  (FloatBits 0) (FloatBits 0) (FloatBits 0) 0))
            (VInt 7) (VInt 7) _ _ _ _ _ _ _).
  - apply (list_elem_of_lookup_2 _ 6%nat). reflexivity.
  - discriminate.
  - reflexivity.
  - reflexivity.
  - reflexivity.
  - split; [reflexivity | unfold int_range; lia].
Defined.

(** The named pair of [octave] at work: written 7, read 7. *)
Example set_then_get_octave :
  let k := KeyLine.mk (FloatBits 0) 0 1 (Point2f.mk (FloatBits 0) (FloatBits 0))
             (FloatBits 0) (FloatBits 0) (FloatBits 0) (FloatBits 0) (FloatBits 0)
             (FloatBits 0) (FloatBits 0) (FloatBits 0) (FloatBits 0) (FloatBits 0)
             (FloatBits 0) 0 in
  run quiet_library line_descriptor.cv_line_descriptor_KeyLine_setPropOctave_int
      [VPtr 8%N; VInt 7] {[ 8%N := VKeyLine k ]}
  = Returns (Envelope (Ok VVoid)) {[ 8%N := VKeyLine (KeyLine.set_octave 7 k) ]} ∧
  run quiet_library line_descriptor.cv_line_descriptor_KeyLine_getPropOctave_const
      [VPtr 8%N] {[ 8%N := VKeyLine (KeyLine.set_octave 7 k) ]}
  = Returns (Envelope (Ok (VInt 7))) {[ 8%N := VKeyLine (KeyLine.set_octave 7 k) ]}.
Proof. split; reflexivity. Qed.



(** C10: a get accessor leaves the whole native heap as it was; a set
    accessor of the field [f] on a valid handle changes the object behind
    the handle in the field [f] only, and no other object. *)
Theorem field_accessors_touch_one_field
    (native : callee → list value → M value) e :
  e ∈ entry_points →
  (∀ inst f, ep_body e = Try (Load inst f) OkRet →
     ∀ args h r h', run native e args h = Returns r h' → h' = h) ∧
  (∀ inst f rhs, ep_body e = Try (Store inst f rhs) OkUnit →
     ∀ (a : handle) x obj (h : heap) r h',
       a ≠ nullptr → h !! a = Some obj → is_struct (field_class f) obj →
       run native e [VPtr a; x] h = Returns r h' →
       (∃ obj', h' !! a = Some obj' ∧
                ∀ f', f' ≠ f → load_field f' obj' = load_field f' obj) ∧
       (∀ a' : handle, a' ≠ a → h' !! a' = h !! a')).
Proof.
  intros He. apply entry_points_well_formed in He. split.
  - intros inst f Hb args h r h' Hrun.
    destruct (getter_args native e inst f args h _ h' He Hb Hrun) as [a ->].
    rewrite (run_getter native e inst f a h He Hb) in Hrun.
    destruct (deref a h ≫= load_field f); by simplify_eq.
  - intros inst f rhs Hb a x obj h r h' Ha Hh Hobj Hrun.
    rewrite (run_setter native e inst f rhs a x h He Hb) in Hrun.
    rewrite (deref_valid a h obj Ha Hh) in Hrun.
    destruct (assigned rhs x h) as [v|]; [|done].
    destruct (store_field f v obj) as [obj'|] eqn:Hst; [|done].
    simplify_eq. split.
    + exists obj'. split; [apply lookup_insert_eq|].
      intros f' Hf'. by eapply load_store_other.
    + intros a' Ha'. by apply lookup_insert_ne.
Qed.

Lemma field_accessors_touch_one_field_witness :
  let e := line_descriptor.cv_line_descriptor_KeyLine_setPropAngle_float in
  (∀ inst f, ep_body e = Try (Load inst f) OkRet →
     ∀ args h r h', run quiet_library e args h = Returns r h' → h' = h) ∧
  (∀ inst f rhs, ep_body e = Try (Store inst f rhs) OkUnit →
     ∀ (a : handle) x obj (h : heap) r h',
       a ≠ nullptr → h !! a = Some obj → is_struct (field_class f) obj →
       run quiet_library e [VPtr a; x] h = Returns r h' →
       (∃ obj', h' !! a = Some obj' ∧
                ∀ f', f' ≠ f → load_field f' obj' = load_field f' obj) ∧
       (∀ a' : handle, a' ≠ a → h' !! a' = h !! a')).
Proof.
  refine (field_accessors_touch_one_field quiet_library
            line_descriptor.cv_line_descriptor_KeyLine_setPropAngle_float _).
  in_table.
Defined.

(** ** What the layer does not decide *)

(** The reply of the detection entry point is the library's outcome: the
    same call on the same heap succeeds with one library and fails with
    another.  Whether detection on an empty image succeeds is a fact about
    the wrapped library, not about the layer. *)
Example detect_reply_is_the_library_outcome :
  let detect :=
    line_descriptor.cv_line_descriptor_BinaryDescriptor_detect_const_MatR_vector_KeyLine_R_const_MatR in
  let args := [VPtr 1%N; VPtr 2%N; VPtr 3%N; VPtr 4%N] in
  run quiet_library detect args ∅ = Returns (Envelope (Ok VVoid)) ∅ ∧
  run (failing_library (mkException (Some (-215)) "image is empty")) detect args ∅
  = Returns (Envelope (Err (mkError (Some (-215)) "image is empty"))) ∅.
Proof. split; reflexivity. Qed.

(** * More of the boundary *)

Local Open Scope list_scope.

(** ** How the arguments are forwarded *)

(** The expression the generated code writes for a parameter [T x] of the
    entry point in the forwarded call: [cv::String(x)] for a C string, [*x]
    for any other pointer, [x] for a value. *)
Definition forwarding_of (p : ctype * string) : arg :=
  match p.1 with
  | CPtr c | CConstPtr c => if decide (c = "char") then Str p.2 else Deref p.2
  | _ => Val p.2
  end.

(** An entry point that forwards to the library: a call of a function or of
    a method, or the construction of an object. *)
Definition calls_library (e : entry_point) : Prop :=
  match ep_body e with
  | Try (CallFree _ _) _ | Try (CallMethod _ _ _) _ | Try (New _ _) _ => True
  | _ => False
  end.

(** The forwarded call names every parameter of the entry point once, in
    the order of the signature, each in the form [forwarding_of] gives; a
    method is called on the first parameter and gets the others. *)
Definition forwards_every_parameter (e : entry_point) : bool :=
  bool_decide (NoDup (ep_params e).*2) &&
  match ep_body e with
  | Try (CallFree _ actuals) _ | Try (New _ actuals) _ =>
      bool_decide (actuals = forwarding_of <$> ep_params e)
  | Try (CallMethod inst _ actuals) _ =>
      match ep_params e with
      | (T, x) :: ps =>
          bool_decide (x = inst ∧ forwarding_of (T, x) = Deref x ∧
                       actuals = forwarding_of <$> ps)
      | [] => false
      end
  | _ => true
  end.

(** What the library receives for the argument [v] of a parameter of type
    [T]: the string for a C string, the address for any other pointer, the
    value itself otherwise. *)
Definition hand_on (T : ctype) (v : value) : option value :=
  match T with
  | CPtr c | CConstPtr c =>
      if decide (c = "char")
      then match v with VCStr s => Some (VString s) | _ => None end
      else match v with VPtr a => Some (VPtr a) | _ => None end
  | _ => Some v
  end.

(** An argument goes to the library as it is, but for a C string, which
    goes as a [cv::String] of the same text. *)
Definition handed_on (v v' : value) : Prop :=
  v' = v ∨ ∃ s, v = VCStr s ∧ v' = VString s.

(** What the entry point asks the library to run. *)
Definition callee_of (e : entry_point) : option callee :=
  match ep_body e with
  | Try (CallFree f _) _ => Some (Function f)
  | Try (CallMethod inst m _) _ =>
      (λ cls, Method cls m) <$> (type_of inst (ep_params e) ≫= pointee)
  | Try (New cls _) _ => Some (Constructor cls)
  | _ => None
  end.

(** An object of the class [c]. *)
Definition has_class (c : string) (obj : value) : Prop :=
  match obj with
  | VParams _ => c = "cv::line_descriptor::BinaryDescriptor::Params"
  | VKeyLine _ => c = "cv::line_descriptor::KeyLine"
  | VPoint2f _ => c = "cv::Point2f"
  | VNative cls _ => c = cls
  | _ => False
  end.

(** An argument of the C type [T] on the heap [h], as a caller that
    respects the signature passes it: a scalar of the type, a C string, or
    a pointer that is not null and points to a live object of the class it
    is declared a pointer to.  For such a pointer [*x] is defined, whether
    the library takes the object by reference or, as a copy made by the
    entry point, by value. *)
Definition fits (h : heap) (T : ctype) (v : value) : Prop :=
  match T with
  | CInt => ∃ n, v = VInt n ∧ int_range n
  | CFloat => ∃ f, v = VFloat f
  | CDouble => ∃ d, v = VDouble d
  | CBool => ∃ b, v = VBool b
  | CNamed _ => True
  | CPtr c | CConstPtr c =>
      if decide (c = "char") then ∃ s, v = VCStr s
      else ∃ (a : handle) obj,
             v = VPtr a ∧ a ≠ nullptr ∧ h !! a = Some obj ∧ has_class c obj
  end.

Lemma entry_points_forward_every_parameter e :
  e ∈ entry_points → forwards_every_parameter e = true.
Proof.
  intros He. apply list_elem_of_In in He. revert e He.
  apply forallb_forall. vm_compute. reflexivity.
Qed.

Lemma bind_params_zip ps args ρ :
  bind_params ps args = Some ρ → ρ = zip ps.*2 args ∧ length ps = length args.
Proof.
  revert args ρ. induction ps as [|[T x] ps IH]; intros [|v args] ρ; simpl; try done.
  - intros; by simplify_eq.
  - destruct (bind_params ps args) as [ρ'|] eqn:Hb; [|done]. simpl.
    intros; simplify_eq. destruct (IH args ρ' Hb) as [-> ->]. done.
Qed.

Lemma bind_params_Some ps args :
  length ps = length args → bind_params ps args = Some (zip ps.*2 args).
Proof.
  revert args. induction ps as [|[T x] ps IH]; intros [|v args]; simpl; try done.
  intros Hl. rewrite IH by congruence. done.
Qed.

Lemma lookup_var_app_r x (ρ1 ρ2 : env) :
  x ∉ ρ1.*1 → lookup_var x (ρ1 ++ ρ2) = lookup_var x ρ2.
Proof.
  induction ρ1 as [|[y v] ρ1 IH]; simpl; [done|].
  rewrite not_elem_of_cons. intros [Hne Hni].
  destruct (String.eqb_spec x y); [done|]. by apply IH.
Qed.

Lemma eval_forwarding T x ρ :
  eval_actual ρ (forwarding_of (T, x)) = lookup_var x ρ ≫= hand_on T.
Proof.
  unfold forwarding_of, hand_on, eval_actual, lookup_ptr. simpl.
  destruct T; try case_decide; simpl; destruct (lookup_var x ρ) as [[]|]; done.
Qed.

Lemma mapM_eval_forwarding (ρ1 : env) ps args :
  length ps = length args →
  NoDup (ρ1.*1 ++ ps.*2) →
  mapM (eval_actual (ρ1 ++ zip ps.*2 args)) (forwarding_of <$> ps) =
  mapM (λ pv, hand_on pv.1.1 pv.2) (zip ps args).
Proof.
  revert ρ1 args. induction ps as [|[T x] ps IH]; intros ρ1 [|v args] Hl Hnd; try done.
  simpl in *. rewrite eval_forwarding, lookup_var_app_r.
  2:{ apply NoDup_app in Hnd as (_ & Hd & _). intros Hx. apply (Hd x Hx). left. }
  simpl. rewrite String.eqb_refl. simpl.
  specialize (IH (ρ1 ++ [(x, v)]) args). rewrite <- app_assoc in IH. simpl in IH.
  unfold fmap in *. rewrite IH; [done|congruence|].
  change (list_fmap _ _ fst) with (fmap (M:=list) (@fst string value)).
  rewrite fmap_app. simpl. rewrite <- app_assoc. done.
Qed.

Lemma hand_on_handed_on T v v' : hand_on T v = Some v' → handed_on v v'.
Proof.
  unfold hand_on, handed_on. destruct T; try case_decide; destruct v;
    intros; simplify_eq; eauto.
Qed.

Lemma fits_hand_on h T v : fits h T v → is_Some (hand_on T v).
Proof.
  unfold fits, hand_on. destruct T; try case_decide; intros; destruct_and?;
    repeat match goal with H : ∃ _, _ |- _ => destruct H end;
    destruct_and?; simplify_eq; eauto.
Qed.

(** The call an entry point makes, read off its signature. *)
Lemma native_invocation_forwarding e args :
  forwards_every_parameter e = true →
  calls_library e →
  native_invocation e args =
    if decide (length (ep_params e) = length args)
    then vs ← mapM (λ pv, hand_on pv.1.1 pv.2) (zip (ep_params e) args);
         c ← callee_of e;
         Some (c, vs)
    else None.
Proof.
  unfold forwards_every_parameter, calls_library, native_invocation, callee_of.
  intros [Hnd Hf]%andb_prop Hc. apply bool_decide_eq_true in Hnd.
  destruct (ep_body e) as [op w|]; [|done].
  case_decide as Hl.
  2:{ destruct (bind_params (ep_params e) args) as [ρ|] eqn:Hb; [|done].
      by apply bind_params_zip in Hb as [_ ?]. }
  rewrite (bind_params_Some _ _ Hl). simpl.
  destruct op as [f actuals|inst m actuals|cls actuals| |]; try done.
  - apply bool_decide_eq_true in Hf as ->.
    pose proof (mapM_eval_forwarding [] _ _ Hl Hnd) as Hm. cbn [app] in Hm.
    unfold invocation. rewrite Hm. by destruct (mapM _ _).
  - destruct (ep_params e) as [|[T x] ps]; [done|].
    apply bool_decide_eq_true in Hf as (-> & HT & ->).
    destruct args as [|v args]; [done|].
    pose proof (mapM_eval_forwarding [(inst, v)] ps args) as Hm.
    cbn [app fmap list_fmap fst] in Hm.
    unfold invocation. cbn [fmap list_fmap snd zip zip_with].
    rewrite Hm; [|simpl in Hl; congruence|done].
    assert (∃ cls, pointee T = Some cls ∧ ∀ v, hand_on T v =
              match v with VPtr a => Some (VPtr a) | _ => None end) as (cls & HTp & HTh).
    { unfold forwarding_of, hand_on in *. simpl in *.
      destruct T; try done; case_decide; try done; eauto. }
    unfold lookup_ptr. simpl. rewrite !String.eqb_refl, HTh. simpl. rewrite HTp. simpl.
    destruct v; try done. simpl.
    by match goal with |- context [mapM ?g ?l] => destruct (mapM g l) end.
  - apply bool_decide_eq_true in Hf as ->.
    pose proof (mapM_eval_forwarding [] _ _ Hl Hnd) as Hm. cbn [app] in Hm.
    unfold invocation. rewrite Hm. by destruct (mapM _ _).
Qed.

Lemma hand_on_all ps args vs :
  length ps = length args →
  mapM (λ pv : ctype * string * value, hand_on pv.1.1 pv.2) (zip ps args) = Some vs →
  Forall2 handed_on args vs.
Proof.
  revert args vs. induction ps as [|[T x] ps IH]; intros [|v args] vs Hl; try done.
  - simpl. unfold mret, option_ret. intros; simplify_eq. constructor.
  - simpl. destruct (hand_on T v) as [y|] eqn:Hy; [|done]. simpl.
    destruct (mapM _ (zip ps args)) as [k|] eqn:Hk; [|done]. simpl.
    unfold mret, option_ret. intros; simplify_eq. constructor; [by eapply hand_on_handed_on|].
    apply IH; [simpl in Hl; congruence | done].
Qed.

Lemma fits_all h ps args :
  Forall2 (λ (p : ctype * string) v, fits h p.1 v) ps args →
  is_Some (mapM (λ pv : ctype * string * value, hand_on pv.1.1 pv.2) (zip ps args)).
Proof.
  induction 1 as [|[T x] v ps args Hf _ IH]; simpl; [by eexists|].
  destruct (fits_hand_on h T v Hf) as [y ->]. destruct IH as [k ->]. by eexists.
Qed.

(** X1: whenever an entry point calls the library, the library is asked for
    the function, method or constructor the body names, and it receives the
    caller's arguments, all of them, in the order of the signature and
    unchanged (a C string as a [cv::String] of the same text); for a method
    the instance comes first. *)
Theorem arguments_are_forwarded_in_order e args c vs :
  e ∈ entry_points →
  native_invocation e args = Some (c, vs) →
  callee_of e = Some c ∧ Forall2 handed_on args vs.
Proof.
  intros He Hi.
  assert (calls_library e) as Hc.
  { unfold calls_library. unfold native_invocation in Hi.
    destruct (ep_body e) as [[] ?|]; try done;
      destruct (bind_params _ _); done. }
  rewrite (native_invocation_forwarding e args
             (entry_points_forward_every_parameter e He) Hc) in Hi.
  case_decide as Hl; [|done].
  destruct (mapM _ _) as [vs'|] eqn:Hm; [|done]. simpl in Hi.
  destruct (callee_of e) as [c'|]; [|done]. simpl in Hi. simplify_eq.
  split; [done|]. by eapply hand_on_all.
Qed.

Lemma arguments_are_forwarded_in_order_witness :
  callee_of ximgproc.cv_ximgproc_readGT_String_const__OutputArrayR
  = Some (Function "cv::ximgproc::readGT") ∧
  Forall2 handed_on [VCStr "gt.png"; VPtr 3%N] [VString "gt.png"; VPtr 3%N].
Proof.
  refine (arguments_are_forwarded_in_order
            ximgproc.cv_ximgproc_readGT_String_const__OutputArrayR
            [VCStr "gt.png"; VPtr 3%N] (Function "cv::ximgproc::readGT")
            [VString "gt.png"; VPtr 3%N] _ _).
  - in_table.
  - reflexivity.
Defined.

(** X2: called with arguments that fit its signature on the current heap
    (scalars of the declared types, pointers to live objects of the
    declared classes), an entry point that forwards to the library always
    makes the call; its own behaviour is then undefined only if the
    library's is. *)
Theorem well_typed_arguments_reach_the_library
    (native : callee → list value → M value) e args h :
  e ∈ entry_points →
  calls_library e →
  Forall2 (λ (p : ctype * string) v, fits h p.1 v) (ep_params e) args →
  ∃ c vs, native_invocation e args = Some (c, vs) ∧
          (run native e args h = Undefined ↔ native c vs h = Undefined).
Proof.
  intros He Hc Hfit.
  pose proof (entry_points_well_formed e He) as Hwf.
  pose proof (native_invocation_forwarding e args
                (entry_points_forward_every_parameter e He) Hc) as Hi.
  rewrite decide_True in Hi by (by eapply Forall2_length).
  destruct (fits_all _ _ _ Hfit) as [vs Hvs]. rewrite Hvs in Hi. simpl in Hi.
  assert (is_Some (callee_of e)) as [c Hce].
  { unfold callee_of, calls_library, well_formed in *.
    destruct (ep_body e) as [[f a|inst m a|cls a| |] w|]; try done; try by eexists.
    apply andb_prop in Hwf as [[cls ->]%bool_decide_eq_true _]. by eexists. }
  rewrite Hce in Hi. simpl in Hi. exists c, vs. split; [done|].
  destruct (native_invocation_inv _ _ _ _ Hi) as (op & w & ρ & Hb & Hρ & Hop).
  rewrite (run_try native _ _ _ _ _ _ Hb Hρ), (do_op_call native _ _ _ _ _ _ Hop).
  unfold guarded_reply.
  destruct op; try discriminate; destruct (native c vs h); destruct w; done.
Qed.

Lemma well_typed_arguments_reach_the_library_witness :
  let h : heap :=
    <[ 8%N := VNative "cv::_InputArray" [1] ]>
      (<[ 16%N := VNative "cv::_InputArray" [2] ]>
         {[ 24%N := VNative "cv::Rect" [0; 0; 4; 4] ]}) in
  ∃ c vs,
    native_invocation
      ximgproc.cv_ximgproc_computeMSE_const__InputArrayR_const__InputArrayR_Rect
      [VPtr 8%N; VPtr 16%N; VPtr 24%N] = Some (c, vs) ∧
    (run quiet_library
       ximgproc.cv_ximgproc_computeMSE_const__InputArrayR_const__InputArrayR_Rect
       [VPtr 8%N; VPtr 16%N; VPtr 24%N] h = Undefined ↔
     quiet_library c vs h = Undefined).
Proof.
  intros h.
  refine (well_typed_arguments_reach_the_library quiet_library
            ximgproc.cv_ximgproc_computeMSE_const__InputArrayR_const__InputArrayR_Rect
            [VPtr 8%N; VPtr 16%N; VPtr 24%N] h _ _ _).
  - in_table.
  - exact I.
  - repeat constructor; simpl.
    + exists 8%N, (VNative "cv::_InputArray" [1]).
      split_and!; [reflexivity | discriminate | reflexivity | reflexivity].
    + exists 16%N, (VNative "cv::_InputArray" [2]).
      split_and!; [reflexivity | discriminate | reflexivity | reflexivity].
    + exists 24%N, (VNative "cv::Rect" [0; 0; 4; 4]).
      split_and!; [reflexivity | discriminate | reflexivity | reflexivity].
Defined.

(** ** The life of a handle *)

(** The object a handle of one of the two struct classes points to, as
    opposed to a value that is stored in one of its fields. *)
Definition is_object (v : value) : bool :=
  match v with
  | VParams _ | VKeyLine _ => true
  | _ => false
  end.

Lemma store_field_objects f v obj obj' :
  store_field f v obj = Some obj' →
  is_object obj = true ∧ is_object obj' = true ∧ is_object v = false.
Proof.
  destruct obj as [| | | | | | | | |p|k|]; try done;
    destruct f, v; simpl; intros; simplify_eq; done.
Qed.

Lemma load_field_objects f v obj :
  load_field f obj = Some v → is_object obj = true ∧ is_object v = false.
Proof.
  destruct obj as [| | | | | | | | |p|k|]; try done;
    destruct f; simpl; intros; simplify_eq; done.
Qed.

Lemma store_load_id f v obj :
  load_field f obj = Some v → store_field f v obj = Some obj.
Proof.
  destruct obj as [| | | | | | | | |p|k|]; try done.
  - destruct p, f; simpl; intros; simplify_eq; done.
  - destruct k, f; simpl; intros; simplify_eq; done.
Qed.

Lemma store_store f v1 v2 obj o1 o2 :
  store_field f v1 obj = Some o1 →
  store_field f v2 o1 = Some o2 →
  store_field f v2 obj = Some o2.
Proof.
  destruct obj as [| | | | | | | | |p|k|]; try done.
  - destruct p, f, v1; simpl; intros; simplify_eq;
      destruct v2; simpl in *; simplify_eq; done.
  - destruct k, f, v1; simpl; intros; simplify_eq;
      destruct v2; simpl in *; simplify_eq; done.
Qed.

Lemma store_commute f1 f2 v1 v2 obj o1 o12 :
  f1 ≠ f2 →
  store_field f1 v1 obj = Some o1 →
  store_field f2 v2 o1 = Some o12 →
  ∃ o2, store_field f2 v2 obj = Some o2 ∧ store_field f1 v1 o2 = Some o12.
Proof.
  intros Hne.
  destruct obj as [| | | | | | | | |p|k|]; try done.
  - destruct p, f1, v1; simpl; intros; simplify_eq;
      destruct f2, v2; simpl in *; simplify_eq; eauto.
  - destruct k, f1, v1; simpl; intros; simplify_eq;
      destruct f2, v2; simpl in *; simplify_eq; eauto.
Qed.

(** The value a set accessor is given does not depend on the object it
    writes to. *)
Lemma assigned_insert rhs x (a : handle) o1 obj (h : heap) v :
  h !! a = Some obj →
  is_object obj = true →
  is_object o1 = true →
  is_object v = false →
  assigned rhs x (<[a := o1]> h) = Some v ↔ assigned rhs x h = Some v.
Proof.
  intros Hh Hobj Ho1 Hv. destruct rhs; simpl; try done.
  destruct x as [| | | | | | |p| | | |]; try done. unfold deref.
  case_decide; [done|]. destruct (decide (p = a)) as [->|Hne].
  - rewrite lookup_insert_eq, Hh. split; intros; simplify_eq; congruence.
  - by rewrite lookup_insert_ne.
Qed.

Lemma destroys_inv d T :
  destroys d = Some T → ∃ inst, ep_body d = Delete inst.
Proof. unfold destroys. destruct (ep_body d); [done|eauto]. Qed.

Lemma deref_Some (a : handle) (h : heap) obj :
  deref a h = Some obj → a ≠ nullptr ∧ h !! a = Some obj.
Proof. unfold deref. by case_decide. Qed.

(** X3: a destruction entry point called on a live handle returns, and
    releases the object behind that handle and no other. *)
Theorem destroy_releases_exactly_the_object
    (native : callee → list value → M value) d inst (a : handle) obj (h : heap) :
  d ∈ entry_points →
  ep_body d = Delete inst →
  a ≠ nullptr →
  h !! a = Some obj →
  ∃ h', run native d [VPtr a] h = Returns Bare h' ∧
        h' !! a = None ∧
        ∀ a' : handle, a' ≠ a → h' !! a' = h !! a'.
Proof.
  intros Hd Hb Ha Hh. exists (delete a h). split_and!.
  - by eapply run_delete; [apply entry_points_well_formed|..].
  - apply lookup_delete_eq.
  - intros a' Hne. by apply lookup_delete_ne.
Qed.

Lemma destroy_releases_exactly_the_object_witness :
  ∃ h', run quiet_library line_descriptor.cv_BinaryDescriptorMatcher_delete [VPtr 8%N]
            (<[ 8%N := VNative "cv::line_descriptor::BinaryDescriptorMatcher" [] ]>
               {[ 16%N := VParams (Params.mk 1 7 2 5) ]})
        = Returns Bare h' ∧
        h' !! 8%N = None ∧
        ∀ a' : handle, a' ≠ 8%N →
          h' !! a' =
          (<[ 8%N := VNative "cv::line_descriptor::BinaryDescriptorMatcher" [] ]>
             {[ 16%N := VParams (Params.mk 1 7 2 5) ]} : heap) !! a'.
Proof.
  refine (destroy_releases_exactly_the_object quiet_library
            line_descriptor.cv_BinaryDescriptorMatcher_delete "instance" 8%N
            (VNative "cv::line_descriptor::BinaryDescriptorMatcher" []) _ _ _ _ _).
  - in_table.
  - reflexivity.
  - discriminate.
  - reflexivity.
Defined.

(** X4: the layer checks no handle.  After a destruction entry point has
    released a handle, a second destruction and every field accessor on
    that handle have no defined behaviour, and so has every field accessor
    on the null pointer; none of them is answered with an error
    envelope. *)
Theorem dead_and_null_handles_are_not_detected
    (native : callee → list value → M value) d inst (a : handle) obj (h : heap) :
  d ∈ entry_points →
  ep_body d = Delete inst →
  a ≠ nullptr →
  h !! a = Some obj →
  ∃ h', run native d [VPtr a] h = Returns Bare h' ∧
        run native d [VPtr a] h' = Undefined ∧
        (∀ e inst_e f, e ∈ entry_points → ep_body e = Try (Load inst_e f) OkRet →
           run native e [VPtr a] h' = Undefined ∧
           run native e [VPtr nullptr] h = Undefined) ∧
        (∀ e inst_e f rhs x, e ∈ entry_points →
           ep_body e = Try (Store inst_e f rhs) OkUnit →
           run native e [VPtr a; x] h' = Undefined ∧
           run native e [VPtr nullptr; x] h = Undefined).
Proof.
  intros Hd Hb Ha Hh. exists (delete a h).
  pose proof (entry_points_well_formed d Hd) as Hwd.
  assert (deref a (delete a h) = None) as Hdead.
  { unfold deref. rewrite decide_False by done. apply lookup_delete_eq. }
  assert (∀ h0 : heap, deref nullptr h0 = None) as Hnull by done.
  split_and!.
  - by eapply run_delete.
  - unfold well_formed in Hwd. rewrite Hb in Hwd. unfold run. rewrite Hb.
    destruct (ep_ret d); try done.
    destruct (ep_params d) as [|[[] x] [|]]; try done.
    apply bool_decide_eq_true in Hwd as ->. simpl.
    unfold mbind, M_bind, lift, lookup_ptr, cpp_delete. simpl.
    rewrite String.eqb_refl, decide_False, lookup_delete_eq by done. done.
  - intros e inst_e f He Hbe. apply entry_points_well_formed in He.
    rewrite !(run_getter native e inst_e f _ _ He Hbe), Hdead, Hnull. done.
  - intros e inst_e f rhs x He Hbe. apply entry_points_well_formed in He.
    rewrite !(run_setter native e inst_e f rhs _ _ _ He Hbe), Hdead, Hnull.
    split; by repeat case_match.
Qed.

Lemma dead_and_null_handles_are_not_detected_witness :
  ∃ h', run quiet_library line_descriptor.cv_KeyLine_delete [VPtr 8%N]
            {[ 8%N := VNative "cv::line_descriptor::KeyLine" [] ]}
        = Returns Bare h' ∧
        run quiet_library line_descriptor.cv_KeyLine_delete [VPtr 8%N] h' = Undefined ∧
        (∀ e inst_e f, e ∈ entry_points → ep_body e = Try (Load inst_e f) OkRet →
           run quiet_library e [VPtr 8%N] h' = Undefined ∧
           run quiet_library e [VPtr nullptr]
             {[ 8%N := VNative "cv::line_descriptor::KeyLine" [] ]} = Undefined) ∧
        (∀ e inst_e f rhs x, e ∈ entry_points →
           ep_body e = Try (Store inst_e f rhs) OkUnit →
           run quiet_library e [VPtr 8%N; x] h' = Undefined ∧
           run quiet_library e [VPtr nullptr; x]
             {[ 8%N := VNative "cv::line_descriptor::KeyLine" [] ]} = Undefined).
Proof.
  refine (dead_and_null_handles_are_not_detected quiet_library
            line_descriptor.cv_KeyLine_delete "instance" 8%N
            (VNative "cv::line_descriptor::KeyLine" []) _ _ _ _ _).
  - in_table.
  - reflexivity.
  - discriminate.
  - reflexivity.
Defined.

(** X5: an object built by a construction entry point and destroyed at once
    by the paired destruction entry point leaves the native heap as the
    constructor of the library left it: nothing leaks. *)
Theorem construct_then_destroy_restores_the_heap
    (native : callee → list value → M value)
    e d cls actuals args h c vs obj h1 :
  e ∈ entry_points →
  d ∈ entry_points →
  ep_body e = Try (New cls actuals) OkRet →
  destroys d = Some cls →
  native_invocation e args = Some (c, vs) →
  native c vs h = Returns obj h1 →
  ∃ (a : handle) h2,
    run native e args h = Returns (Envelope (Ok (VPtr a))) h2 ∧
    run native d [VPtr a] h2 = Returns Bare h1.
Proof.
  intros He Hd Hb Hdes Hi Hn.
  destruct (destroys_inv d cls Hdes) as [inst Hbd].
  destruct (native_invocation_inv _ _ _ _ Hi) as (op & w & ρ & Hb' & Hρ & Hop).
  rewrite Hb in Hb'. simplify_eq.
  exists (fresh_handle h1), (<[fresh_handle h1 := obj]> h1). split.
  - rewrite (run_try native _ _ _ _ _ _ Hb Hρ), (do_op_call native _ _ _ _ _ _ Hop), Hn.
    done.
  - rewrite (run_delete native d inst (fresh_handle h1) obj _
               (entry_points_well_formed d Hd) Hbd (fresh_handle_not_null h1)
               (lookup_insert_eq _ _ _)).
    by rewrite delete_insert_id by apply fresh_handle_unused.
Qed.

Lemma construct_then_destroy_restores_the_heap_witness :
  ∃ (a : handle) h2,
    run (λ _ _, mret (VParams (Params.mk 1 7 2 5)))
        line_descriptor.cv_line_descriptor_BinaryDescriptor_Params_Params [] ∅
    = Returns (Envelope (Ok (VPtr a))) h2 ∧
    run (λ _ _, mret (VParams (Params.mk 1 7 2 5)))
        line_descriptor.cv_BinaryDescriptor_Params_delete [VPtr a] h2
    = Returns Bare ∅.
Proof.
  refine (construct_then_destroy_restores_the_heap
            (λ _ _, mret (VParams (Params.mk 1 7 2 5)))
            line_descriptor.cv_line_descriptor_BinaryDescriptor_Params_Params
            line_descriptor.cv_BinaryDescriptor_Params_delete
            "cv::line_descriptor::BinaryDescriptor::Params" [] [] ∅
            (Constructor "cv::line_descriptor::BinaryDescriptor::Params") []
            (VParams (Params.mk 1 7 2 5)) ∅ _ _ _ _ _ _).
  - in_table.
  - in_table.
  - reflexivity.
  - reflexivity.
  - reflexivity.
  - reflexivity.
Defined.

(** X6: the handle a construction entry point returns is valid for the
    field accessors of the class: a get accessor on it returns the value
    the constructor of the library gave the field. *)
Theorem constructed_object_is_readable
    (native : callee → list value → M value)
    e g cls actuals inst f args h c vs obj h1 :
  e ∈ entry_points →
  g ∈ entry_points →
  ep_body e = Try (New cls actuals) OkRet →
  ep_body g = Try (Load inst f) OkRet →
  cls = field_class f →
  native_invocation e args = Some (c, vs) →
  native c vs h = Returns obj h1 →
  is_struct cls obj →
  ∃ (a : handle) h2 v,
    run native e args h = Returns (Envelope (Ok (VPtr a))) h2 ∧
    load_field f obj = Some v ∧
    run native g [VPtr a] h2 = Returns (Envelope (Ok v)) h2.
Proof.
  intros He Hg Hb Hbg -> Hi Hn Hobj.
  destruct (native_invocation_inv _ _ _ _ Hi) as (op & w & ρ & Hb' & Hρ & Hop).
  rewrite Hb in Hb'. simplify_eq.
  destruct (load_field_defined f obj Hobj) as [v Hv].
  exists (fresh_handle h1), (<[fresh_handle h1 := obj]> h1), v. split_and!.
  - rewrite (run_try native _ _ _ _ _ _ Hb Hρ), (do_op_call native _ _ _ _ _ _ Hop), Hn.
    done.
  - done.
  - rewrite (run_getter native g inst f _ _ (entry_points_well_formed g Hg) Hbg).
    rewrite (deref_insert_same _ _ _ (fresh_handle_not_null h1)). simpl.
    by rewrite Hv.
Qed.

Lemma constructed_object_is_readable_witness :
  ∃ (a : handle) h2 v,
    run (λ _ _, mret (VParams (Params.mk 1 7 2 5)))
        line_descriptor.cv_line_descriptor_BinaryDescriptor_Params_Params [] ∅
    = Returns (Envelope (Ok (VPtr a))) h2 ∧
    load_field f_ksize_ (VParams (Params.mk 1 7 2 5)) = Some v ∧
    run (λ _ _, mret (VParams (Params.mk 1 7 2 5)))
        line_descriptor.cv_line_descriptor_BinaryDescriptor_Params_getPropKsize__const
        [VPtr a] h2
    = Returns (Envelope (Ok v)) h2.
Proof.
  refine (constructed_object_is_readable
            (λ _ _, mret (VParams (Params.mk 1 7 2 5)))
            line_descriptor.cv_line_descriptor_BinaryDescriptor_Params_Params
            line_descriptor.cv_line_descriptor_BinaryDescriptor_Params_getPropKsize__const
            "cv::line_descriptor::BinaryDescriptor::Params" [] "instance" f_ksize_
            [] ∅ (Constructor "cv::line_descriptor::BinaryDescriptor::Params") []
            (VParams (Params.mk 1 7 2 5)) ∅ _ _ _ _ _ _ _ _).
  - in_table.
  - in_table.
  - reflexivity.
  - reflexivity.
  - reflexivity.
  - reflexivity.
  - reflexivity.
  - reflexivity.
Defined.

(** ** How the field accessors compose *)

(** What a set accessor that returned has done. *)
Lemma run_setter_inv
    (native : callee → list value → M value) s inst f rhs (a : handle) x (h : heap) r h' :
  well_formed s = true →
  ep_body s = Try (Store inst f rhs) OkUnit →
  run native s [VPtr a; x] h = Returns r h' →
  ∃ v obj obj',
    assigned rhs x h = Some v ∧ a ≠ nullptr ∧ h !! a = Some obj ∧
    store_field f v obj = Some obj' ∧
    r = Envelope (Ok VVoid) ∧ h' = <[a := obj']> h.
Proof.
  intros Hs Hb. rewrite (run_setter native s inst f rhs a x h Hs Hb).
  destruct (assigned rhs x h) as [v|]; [|done].
  destruct (deref a h) as [obj|] eqn:Hd; [|done].
  destruct (store_field f v obj) as [obj'|] eqn:Hst; [|done].
  intros; simplify_eq. apply deref_Some in Hd as [? ?]. eauto 10.
Qed.

(** X7: a set accessor changes the answer of no other get accessor: after
    it, the get accessor of another field of the same object, and every get
    accessor on another object, return what they returned before. *)
Theorem set_leaves_the_other_getters_alone
    (native : callee → list value → M value)
    s g inst_s inst_g f f' rhs (a b : handle) x v (h : heap) r h' :
  s ∈ entry_points →
  g ∈ entry_points →
  ep_body s = Try (Store inst_s f rhs) OkUnit →
  ep_body g = Try (Load inst_g f') OkRet →
  a ≠ b ∨ f' ≠ f →
  run native s [VPtr a; x] h = Returns r h' →
  run native g [VPtr b] h = Returns (Envelope (Ok v)) h →
  run native g [VPtr b] h' = Returns (Envelope (Ok v)) h'.
Proof.
  intros Hs Hg Hbs Hbg Hdiff Hset.
  apply entry_points_well_formed in Hs, Hg.
  destruct (run_setter_inv native s inst_s f rhs a x h r h' Hs Hbs Hset)
    as (w & obj & obj' & _ & Ha & Hh & Hst & _ & ->).
  rewrite !(run_getter native g inst_g f' _ _ Hg Hbg).
  destruct (deref b h) as [objb|] eqn:Hdb; [|done]. simpl.
  destruct (load_field f' objb) as [v'|] eqn:Hl; [|done].
  intros; simplify_eq. apply deref_Some in Hdb as [Hb Hhb].
  destruct (decide (b = a)) as [->|Hne].
  - rewrite (deref_insert_same a h obj' Ha). simpl. simplify_eq.
    destruct Hdiff as [|Hf]; [done|].
    by rewrite (load_store_other f f' w obj obj' Hst Hf), Hl.
  - rewrite (deref_valid b (<[a := obj']> h) objb Hb)
      by (by rewrite lookup_insert_ne). simpl. by rewrite Hl.
Qed.

Lemma set_leaves_the_other_getters_alone_witness :
  let k := KeyLine.mk (FloatBits 0) 4 1 (Point2f.mk (FloatBits 0) (FloatBits 0))
             (FloatBits 1056964608) (FloatBits 0) (FloatBits 0) (FloatBits 0)
             (FloatBits 0) (FloatBits 0) (FloatBits 0) (FloatBits 0) (FloatBits 0)
             (FloatBits 0) (FloatBits 0) 12 in
  run quiet_library line_descriptor.cv_line_descriptor_KeyLine_getPropResponse_const
      [VPtr 8%N] (<[ 8%N := VKeyLine (KeyLine.set_angle (FloatBits 1078530011) k) ]>
                    {[ 8%N := VKeyLine k ]})
  = Returns (Envelope (Ok (VFloat (FloatBits 1056964608))))
      (<[ 8%N := VKeyLine (KeyLine.set_angle (FloatBits 1078530011) k) ]>
         {[ 8%N := VKeyLine k ]}).
Proof.
  intros k.
  refine (set_leaves_the_other_getters_alone quiet_library
            line_descriptor.cv_line_descriptor_KeyLine_setPropAngle_float
            line_descriptor.cv_line_descriptor_KeyLine_getPropResponse_const
            "instance" "instance" f_angle f_response (Val "val") 8%N 8%N
            (VFloat (FloatBits 1078530011)) (VFloat (FloatBits 1056964608))
            {[ 8%N := VKeyLine k ]} (Envelope (Ok VVoid)) _ _ _ _ _ _ _ _).
  - in_table.
  - in_table.
  - reflexivity.
  - reflexivity.
  - right. discriminate.
  - reflexivity.
  - reflexivity.
Defined.

(** X8: of two calls of a set accessor on the same handle the second wins:
    the native heap after both is the heap after the second alone. *)
Theorem second_set_overwrites_the_first
    (native : callee → list value → M value)
    s inst f rhs (a : handle) x1 x2 (h : heap) r1 h1 r2 h2 :
  s ∈ entry_points →
  ep_body s = Try (Store inst f rhs) OkUnit →
  run native s [VPtr a; x1] h = Returns r1 h1 →
  run native s [VPtr a; x2] h1 = Returns r2 h2 →
  run native s [VPtr a; x2] h = Returns r2 h2.
Proof.
  intros Hs Hb H1 H2. apply entry_points_well_formed in Hs.
  destruct (run_setter_inv native s inst f rhs a x1 h r1 h1 Hs Hb H1)
    as (v1 & obj & o1 & Hv1 & Ha & Hh & Hst1 & -> & ->).
  destruct (run_setter_inv native s inst f rhs a x2 _ r2 h2 Hs Hb H2)
    as (v2 & o1' & o2 & Hv2 & _ & Hh1 & Hst2 & -> & ->).
  rewrite lookup_insert_eq in Hh1. simplify_eq.
  destruct (store_field_objects f v1 obj o1' Hst1) as (Hobj & Ho1 & _).
  destruct (store_field_objects f v2 o1' o2 Hst2) as (_ & _ & Hnv2).
  apply (assigned_insert rhs x2 a o1' obj h v2 Hh Hobj Ho1 Hnv2) in Hv2.
  rewrite (run_setter native s inst f rhs a x2 h Hs Hb), Hv2.
  rewrite (deref_valid a h obj Ha Hh), (store_store f v1 v2 obj o1' o2 Hst1 Hst2).
  by rewrite insert_insert_eq.
Qed.

Lemma second_set_overwrites_the_first_witness :
  run quiet_library
      line_descriptor.cv_line_descriptor_BinaryDescriptor_Params_setPropWidthOfBand__int
      [VPtr 16%N; VInt 9] {[ 16%N := VParams (Params.mk 1 7 2 5) ]}
  = Returns (Envelope (Ok VVoid)) {[ 16%N := VParams (Params.mk 1 9 2 5) ]}.
Proof.
  refine (second_set_overwrites_the_first quiet_library
            line_descriptor.cv_line_descriptor_BinaryDescriptor_Params_setPropWidthOfBand__int
            "instance" f_widthOfBand_ (Val "val") 16%N (VInt 3) (VInt 9)
            {[ 16%N := VParams (Params.mk 1 7 2 5) ]}
            (Envelope (Ok VVoid)) {[ 16%N := VParams (Params.mk 1 3 2 5) ]}
            (Envelope (Ok VVoid)) {[ 16%N := VParams (Params.mk 1 9 2 5) ]} _ _ _ _).
  - in_table.
  - reflexivity.
  - reflexivity.
  - reflexivity.
Defined.

(** X9: writing back the value a get accessor has just returned changes
    nothing: the set accessor of the same field succeeds and leaves the
    native heap as it was. *)
Theorem writing_back_the_value_read_changes_nothing
    (native : callee → list value → M value)
    s g inst_s inst_g f rhs (a : handle) x v (h : heap) :
  s ∈ entry_points →
  g ∈ entry_points →
  ep_body s = Try (Store inst_s f rhs) OkUnit →
  ep_body g = Try (Load inst_g f) OkRet →
  run native g [VPtr a] h = Returns (Envelope (Ok v)) h →
  assigned rhs x h = Some v →
  run native s [VPtr a; x] h = Returns (Envelope (Ok VVoid)) h.
Proof.
  intros Hs Hg Hbs Hbg Hget Hv. apply entry_points_well_formed in Hs, Hg.
  rewrite (run_getter native g inst_g f a h Hg Hbg) in Hget.
  destruct (deref a h) as [obj|] eqn:Hd; [|done]. simpl in Hget.
  destruct (load_field f obj) as [v'|] eqn:Hl; [|done]. simplify_eq.
  rewrite (run_setter native s inst_s f rhs a x h Hs Hbs), Hv, Hd.
  rewrite (store_load_id f v obj Hl).
  apply deref_Some in Hd as [_ Hh]. by rewrite (insert_id h a obj Hh).
Qed.

Lemma writing_back_the_value_read_changes_nothing_witness :
  run quiet_library line_descriptor.cv_line_descriptor_KeyLine_setPropPt_Point2f
      [VPtr 8%N; VPtr 24%N]
      (<[ 8%N := VKeyLine
                   (KeyLine.mk (FloatBits 0) 0 0
                      (Point2f.mk (FloatBits 1065353216) (FloatBits 0))
                      (FloatBits 0) (FloatBits 0) (FloatBits 0) (FloatBits 0)
                      (FloatBits 0) (FloatBits 0) (FloatBits 0) (FloatBits 0)
                      (FloatBits 0) (FloatBits 0) (FloatBits 0) 0) ]>
         {[ 24%N := VPoint2f (Point2f.mk (FloatBits 1065353216) (FloatBits 0)) ]})
  = Returns (Envelope (Ok VVoid))
      (<[ 8%N := VKeyLine
                   (KeyLine.mk (FloatBits 0) 0 0
                      (Point2f.mk (FloatBits 1065353216) (FloatBits 0))
                      (FloatBits 0) (FloatBits 0) (FloatBits 0) (FloatBits 0)
                      (FloatBits 0) (FloatBits 0) (FloatBits 0) (FloatBits 0)
                      (FloatBits 0) (FloatBits 0) (FloatBits 0) 0) ]>
         {[ 24%N := VPoint2f (Point2f.mk (FloatBits 1065353216) (FloatBits 0)) ]}).
Proof.
  refine (writing_back_the_value_read_changes_nothing quiet_library
            line_descriptor.cv_line_descriptor_KeyLine_setPropPt_Point2f
            line_descriptor.cv_line_descriptor_KeyLine_getPropPt_const
            "instance" "instance" f_pt (Deref "val") 8%N (VPtr 24%N)
            (VPoint2f (Point2f.mk (FloatBits 1065353216) (FloatBits 0))) _ _ _ _ _ _ _).
  - in_table.
  - in_table.
  - reflexivity.
  - reflexivity.
  - reflexivity.
  - reflexivity.
Defined.

(** X10: set accessors of two different fields of an object commute: in
    either order both succeed and the native heap ends the same. *)
Theorem sets_of_different_fields_commute
    (native : callee → list value → M value)
    s1 s2 inst1 inst2 f1 f2 rhs1 rhs2 (a : handle) x1 x2 (h : heap) r1 h1 r2 h12 :
  s1 ∈ entry_points →
  s2 ∈ entry_points →
  ep_body s1 = Try (Store inst1 f1 rhs1) OkUnit →
  ep_body s2 = Try (Store inst2 f2 rhs2) OkUnit →
  f1 ≠ f2 →
  run native s1 [VPtr a; x1] h = Returns r1 h1 →
  run native s2 [VPtr a; x2] h1 = Returns r2 h12 →
  ∃ h2, run native s2 [VPtr a; x2] h = Returns r2 h2 ∧
        run native s1 [VPtr a; x1] h2 = Returns r1 h12.
Proof.
  intros Hs1 Hs2 Hb1 Hb2 Hne H1 H2. apply entry_points_well_formed in Hs1, Hs2.
  destruct (run_setter_inv native s1 inst1 f1 rhs1 a x1 h r1 h1 Hs1 Hb1 H1)
    as (v1 & obj & o1 & Hv1 & Ha & Hh & Hst1 & -> & ->).
  destruct (run_setter_inv native s2 inst2 f2 rhs2 a x2 _ r2 h12 Hs2 Hb2 H2)
    as (v2 & o1' & o12 & Hv2 & _ & Hh1 & Hst2 & -> & ->).
  rewrite lookup_insert_eq in Hh1. simplify_eq.
  destruct (store_commute f1 f2 v1 v2 obj o1' o12 Hne Hst1 Hst2) as (o2 & Hst2' & Hst1').
  destruct (store_field_objects f1 v1 obj o1' Hst1) as (Hobj & Ho1 & Hnv1).
  destruct (store_field_objects f2 v2 obj o2 Hst2') as (_ & Ho2 & Hnv2).
  apply (assigned_insert rhs2 x2 a o1' obj h v2 Hh Hobj Ho1 Hnv2) in Hv2.
  apply (assigned_insert rhs1 x1 a o2 obj h v1 Hh Hobj Ho2 Hnv1) in Hv1.
  exists (<[a := o2]> h). split.
  - rewrite (run_setter native s2 inst2 f2 rhs2 a x2 h Hs2 Hb2), Hv2.
    by rewrite (deref_valid a h obj Ha Hh), Hst2'.
  - rewrite (run_setter native s1 inst1 f1 rhs1 a x1 _ Hs1 Hb1), Hv1.
    rewrite (deref_insert_same a h o2 Ha), Hst1'. by rewrite !insert_insert_eq.
Qed.

Lemma sets_of_different_fields_commute_witness :
  ∃ h2,
    run quiet_library
        line_descriptor.cv_line_descriptor_BinaryDescriptor_Params_setPropKsize__int
        [VPtr 16%N; VInt 9] {[ 16%N := VParams (Params.mk 1 7 2 5) ]}
    = Returns (Envelope (Ok VVoid)) h2 ∧
    run quiet_library
        line_descriptor.cv_line_descriptor_BinaryDescriptor_Params_setPropNumOfOctave__int
        [VPtr 16%N; VInt 3] h2
    = Returns (Envelope (Ok VVoid)) {[ 16%N := VParams (Params.mk 3 7 2 9) ]}.
Proof.
  refine (sets_of_different_fields_commute quiet_library
            line_descriptor.cv_line_descriptor_BinaryDescriptor_Params_setPropNumOfOctave__int
            line_descriptor.cv_line_descriptor_BinaryDescriptor_Params_setPropKsize__int
            "instance" "instance" f_numOfOctave_ f_ksize_ (Val "val") (Val "val")
            16%N (VInt 3) (VInt 9) {[ 16%N := VParams (Params.mk 1 7 2 5) ]}
            (Envelope (Ok VVoid)) {[ 16%N := VParams (Params.mk 3 7 2 5) ]}
            (Envelope (Ok VVoid)) {[ 16%N := VParams (Params.mk 3 7 2 9) ]}
            _ _ _ _ _ _ _).
  - in_table.
  - in_table.
  - reflexivity.
  - reflexivity.
  - discriminate.
  - reflexivity.
  - reflexivity.
Defined.

(** X11: a field accessor creates and destroys no object: after any call of
    one that returns, the same handles are live, and a handle that pointed
    to an object of one of the two struct classes still points to an object
    of that class. *)
Theorem field_accessors_keep_handles_valid
    (native : callee → list value → M value) e args (h : heap) r h' :
  e ∈ entry_points →
  (∃ inst f, ep_body e = Try (Load inst f) OkRet) ∨
  (∃ inst f rhs, ep_body e = Try (Store inst f rhs) OkUnit) →
  run native e args h = Returns r h' →
  dom h' = dom h ∧
  ∀ (b : handle) cls objb,
    h !! b = Some objb → is_struct cls objb →
    ∃ objb', h' !! b = Some objb' ∧ is_struct cls objb'.
Proof.
  intros He Hshape Hrun. apply entry_points_well_formed in He.
  destruct Hshape as [(inst & f & Hb)|(inst & f & rhs & Hb)].
  - destruct (getter_args native e inst f args h r h' He Hb Hrun) as [a ->].
    rewrite (run_getter native e inst f a h He Hb) in Hrun.
    destruct (deref a h ≫= load_field f); [|done].
    injection Hrun as _ <-. eauto.
  - destruct (setter_args native e inst f rhs args h r h' He Hb Hrun) as (a & x & ->).
    destruct (run_setter_inv native e inst f rhs a x h r h' He Hb Hrun)
      as (v & obj & obj' & _ & Ha & Hh & Hst & _ & ->).
    split.
    + rewrite dom_insert_L. apply elem_of_dom_2 in Hh. apply set_eq. intros i.
      rewrite elem_of_union, elem_of_singleton.
      split; [intros [->|?]; done | intros ?; by right].
    + intros b cls objb Hhb Hcls. destruct (decide (b = a)) as [->|Hne].
      * simplify_eq. exists obj'. split; [apply lookup_insert_eq|].
        by eapply store_field_class.
      * exists objb. by rewrite lookup_insert_ne.
Qed.

Lemma field_accessors_keep_handles_valid_witness :
  dom ({[ 16%N := VParams (Params.mk 1 7 4 5) ]} : heap)
  = dom ({[ 16%N := VParams (Params.mk 1 7 2 5) ]} : heap) ∧
  ∀ (b : handle) cls objb,
    ({[ 16%N := VParams (Params.mk 1 7 2 5) ]} : heap) !! b = Some objb →
    is_struct cls objb →
    ∃ objb', ({[ 16%N := VParams (Params.mk 1 7 4 5) ]} : heap) !! b = Some objb' ∧
             is_struct cls objb'.
Proof.
  refine (field_accessors_keep_handles_valid quiet_library
            line_descriptor.cv_line_descriptor_BinaryDescriptor_Params_setPropReductionRatio_int
            [VPtr 16%N; VInt 4] {[ 16%N := VParams (Params.mk 1 7 2 5) ]}
            (Envelope (Ok VVoid)) {[ 16%N := VParams (Params.mk 1 7 4 5) ]} _ _ _).
  - in_table.
  - right. exists "instance", f_reductionRatio, (Val "val"). reflexivity.
  - reflexivity.
Defined.
